(** * Teams attendance extractor: a shallow embedding of the Python sources

    The development follows the repository file by file:
    [email_parser.py], [config.py], [auth.py], [graph_client.py], [main.py],
    [refresh_token.py], [get_credentials_simple.py] and [setup_env.py].
    Python values are embedded as an inductive type [value]; a [str] is
    represented by its UTF-8 encoding; dictionaries are insertion-ordered
    association lists; exceptions are an explicit [Raise] outcome; the
    effects of the program (HTTP requests, printing, files, the
    authenticator object) are threaded through an explicit process state.
    Everything the program imports from outside the repository
    (BeautifulSoup, requests, msal, datetime, the process environment) is
    an operation of the interface [Platform]. *)

From Stdlib Require Import String Ascii List ZArith Lia Bool.
From stdpp Require Import base option list strings gmap pretty.

Open Scope string_scope.

(** ** Python values *)

#[local] Set Warnings "-register-all".

Inductive value : Type :=
| VNone
| VBool (b : bool)
| VInt (n : Z)
| VStr (s : string)
| VList (l : list value)
| VDict (d : list (string * value)).

(** Python dictionaries keep insertion order and have unique keys. *)
Definition dict (V : Type) : Type := list (string * V).

Fixpoint dict_lookup {V} (k : string) (d : dict V) : option V :=
  match d with
  | [] => None
  | (k', v) :: d' => if String.eqb k' k then Some v else dict_lookup k d'
  end.

(** [d[k] = v]: replaces the value in place when the key exists, appends
    the key otherwise. *)
Fixpoint dict_set {V} (k : string) (v : V) (d : dict V) : dict V :=
  match d with
  | [] => [(k, v)]
  | (k', v') :: d' =>
      if String.eqb k' k then (k, v) :: d' else (k', v') :: dict_set k v d'
  end.

(** [d.get(k, dflt)]: the default is used only when the KEY is absent; a key
    bound to [None] yields [None]. *)
Definition dict_get {V} (k : string) (dflt : V) (d : dict V) : V :=
  match dict_lookup k d with
  | Some v => v
  | None => dflt
  end.

Definition dict_has {V} (k : string) (d : dict V) : bool :=
  match dict_lookup k d with Some _ => true | None => false end.

Definition keys {V} (d : dict V) : list string := map fst d.

(** Truth value of an object, as tested by [if x:] and [not x]. *)
Definition truthy (v : value) : bool :=
  match v with
  | VNone => false
  | VBool b => b
  | VInt n => negb (Z.eqb n 0)
  | VStr s => negb (String.eqb s "")
  | VList l => match l with [] => false | _ => true end
  | VDict d => match d with [] => false | _ => true end
  end.

(** ** Exceptions and outcomes *)

(** A [requests.Response]: [json_body] is [None] when the body is not JSON,
    in which case [response.json()] raises. *)
Record response := Response {
  status_code : Z;
  text : string;
  json_body : option value
}.

Inductive exn_class :=
| Exception_ | TypeError | AttributeError | KeyError | IndexError | ValueError
| UnicodeDecodeError | EOFError | OSError | FileNotFoundError
| FileExistsError | IsADirectoryError | NotADirectoryError
| ParserRejectedMarkup | ExternalError.

(** Every exception here derives from [Exception]; an [HTTPError] carries
    the response that caused it. *)
Inductive exn :=
| Exn (cls : exn_class) (msg : string)
| HTTPError (msg : string) (resp : response).

(** [str(e)] *)
Definition exn_str (e : exn) : string :=
  match e with
  | Exn _ msg => msg
  | HTTPError msg _ => msg
  end.

Inductive result (A : Type) : Type :=
| Ok (a : A)
| Raise (e : exn).
Arguments Ok {A} a.
Arguments Raise {A} e.

#[global] Instance result_ret : MRet result := fun A a => Ok a.
#[global] Instance result_bind : MBind result := fun A B f m =>
  match m with
  | Ok a => f a
  | Raise e => Raise e
  end.

(** ** String helpers (the [str] methods the sources use) *)

Fixpoint strip_prefix (p s : string) : option string :=
  match p, s with
  | EmptyString, _ => Some s
  | String a p', String b s' =>
      if Ascii.eqb a b then strip_prefix p' s' else None
  | String _ _, EmptyString => None
  end.

Definition starts_with (p s : string) : bool :=
  match strip_prefix p s with Some _ => true | None => false end.

Fixpoint str_take (n : nat) (s : string) : string :=
  match n, s with
  | S n', String a s' => String a (str_take n' s')
  | _, _ => EmptyString
  end.

Fixpoint str_drop (n : nat) (s : string) : string :=
  match n, s with
  | S n', String _ s' => str_drop n' s'
  | _, _ => s
  end.

(** [s.replace(c, new)] for a one-character pattern [c] (the only form the
    sources call). *)
Fixpoint replace_char (c : ascii) (new : string) (s : string) : string :=
  match s with
  | EmptyString => EmptyString
  | String a s' =>
      if Ascii.eqb a c then new +:+ replace_char c new s'
      else String a (replace_char c new s')
  end.

(** [c in s] for a character [c]. *)
Fixpoint has_char (c : ascii) (s : string) : bool :=
  match s with
  | EmptyString => false
  | String a s' => Ascii.eqb a c || has_char c s'
  end.

(** *** White space

    [str.strip] and [str.split] remove the characters for which
    [str.isspace] holds: the codes 9 to 13 and 28 to 32, and U+0085,
    U+00A0, U+1680, U+2000 to U+200A, U+2028, U+2029, U+202F, U+205F and
    U+3000, which take two or three bytes in UTF-8. *)

Definition is_space (a : ascii) : bool :=
  let n := nat_of_ascii a in
  ((9 <=? n)%nat && (n <=? 13)%nat) || ((28 <=? n)%nat && (n <=? 32)%nat).

(** U+0085 is [C2 85], U+00A0 is [C2 A0]. *)
Definition is_space2 (a b : ascii) : bool :=
  let m := nat_of_ascii a in
  let n := nat_of_ascii b in
  ((n =? 133)%nat || (n =? 160)%nat) && (m =? 194)%nat.

(** U+1680 is [E1 9A 80]; U+2000 to U+200A, U+2028, U+2029 and U+202F are
    [E2 80 80] to [E2 80 8A], [E2 80 A8], [E2 80 A9] and [E2 80 AF]; U+205F
    is [E2 81 9F]; U+3000 is [E3 80 80]. *)
Definition is_space3 (a b c : ascii) : bool :=
  let l := nat_of_ascii a in
  let m := nat_of_ascii b in
  let n := nat_of_ascii c in
  ((m =? 154)%nat && ((n =? 128)%nat && (l =? 225)%nat))
  || ((m =? 128)%nat
      && ((((128 <=? n)%nat && (n <=? 138)%nat)
           || (n =? 168)%nat || (n =? 169)%nat || (n =? 175)%nat)
          && (l =? 226)%nat))
  || ((m =? 129)%nat && ((n =? 159)%nat && (l =? 226)%nat))
  || ((m =? 128)%nat && ((n =? 128)%nat && (l =? 227)%nat)).

(** The number of bytes of the white space character at the head of [s];
    [0] when [s] does not start with one. *)
Definition space_width (s : string) : nat :=
  match s with
  | String a r1 =>
      if is_space a then 1
      else match r1 with
           | String b r2 =>
               if is_space2 a b then 2
               else match r2 with
                    | String c _ => if is_space3 a b c then 3 else 0
                    | EmptyString => 0
                    end
           | EmptyString => 0
           end
  | EmptyString => 0
  end.

Fixpoint lstrip (s : string) : string :=
  match space_width s, s with
  | 1, String _ r => lstrip r
  | 2, String _ (String _ r) => lstrip r
  | 3, String _ (String _ (String _ r)) => lstrip r
  | _, _ => s
  end.

(** The text is cut where nothing but white space follows. *)
Fixpoint rstrip (s : string) : string :=
  match s with
  | EmptyString => EmptyString
  | String a s' =>
      if String.eqb (lstrip s) "" then EmptyString else String a (rstrip s')
  end.

(** [s.strip()] *)
Definition strip (s : string) : string := rstrip (lstrip s).

(** [sep.join(l)] *)
Fixpoint join (sep : string) (l : list string) : string :=
  match l with
  | [] => ""
  | [x] => x
  | x :: l' => x +:+ sep +:+ join sep l'
  end.

(** The word [cur] ends: it is a field unless it is empty. *)
Definition end_word (cur : string) (fields : list string) : list string :=
  match cur with
  | EmptyString => fields
  | _ => cur :: fields
  end.

(** [s.split()]: split on runs of white space, no empty fields. *)
Fixpoint split_ws_aux (cur : string) (s : string) : list string :=
  match space_width s, s with
  | _, EmptyString => end_word cur []
  | 0, String a r => split_ws_aux (cur +:+ String a EmptyString) r
  | 1, String _ r => end_word cur (split_ws_aux "" r)
  | 2, String _ (String _ r) => end_word cur (split_ws_aux "" r)
  | 3, String _ (String _ (String _ r)) => end_word cur (split_ws_aux "" r)
  | _, String a r => split_ws_aux (cur +:+ String a EmptyString) r
  end.

Definition split_ws (s : string) : list string := split_ws_aux "" s.

(** *** Characters

    In UTF-8 a character is one byte that is no continuation byte (a byte
    from [80] to [BF]), followed by its continuation bytes. *)

Definition is_cont (a : ascii) : bool :=
  let n := nat_of_ascii a in
  (128 <=? n)%nat && (n <? 192)%nat.

(** The characters of [s], each as a string. *)
Fixpoint str_chars (s : string) : list string :=
  match s with
  | EmptyString => []
  | String a r =>
      match r with
      | String b _ =>
          if is_cont b then
            match str_chars r with
            | c :: l => String a c :: l
            | [] => [String a EmptyString]
            end
          else String a EmptyString :: str_chars r
      | EmptyString => [String a EmptyString]
      end
  end.

(** [s[:n]]: the first [n] characters. *)
Fixpoint str_prefix (n : nat) (s : string) : string :=
  match s with
  | EmptyString => EmptyString
  | String a r =>
      if is_cont a then String a (str_prefix n r)
      else match n with
           | 0 => EmptyString
           | S n' => String a (str_prefix n' r)
           end
  end.

(** What a UTF-8 decoder expects between two bytes: a new character, or a
    byte from [lo] to [hi] followed by [more] continuation bytes. *)
Inductive utf8_expect :=
| Boundary
| Within (lo hi more : nat).

Definition utf8_step (st : utf8_expect) (a : ascii) : option utf8_expect :=
  let n := nat_of_ascii a in
  match st with
  | Boundary =>
      if (n <? 128)%nat then Some Boundary
      else if (194 <=? n)%nat && (n <=? 223)%nat then Some (Within 128 191 0)
      else if (n =? 224)%nat then Some (Within 160 191 1)
      else if (n =? 237)%nat then Some (Within 128 159 1)
      else if (225 <=? n)%nat && (n <=? 239)%nat then Some (Within 128 191 1)
      else if (n =? 240)%nat then Some (Within 144 191 2)
      else if (241 <=? n)%nat && (n <=? 243)%nat then Some (Within 128 191 2)
      else if (n =? 244)%nat then Some (Within 128 143 2)
      else None
  | Within lo hi more =>
      if (lo <=? n)%nat && (n <=? hi)%nat then
        Some match more with
             | 0 => Boundary
             | S m => Within 128 191 m
             end
      else None
  end.

Fixpoint utf8_run (st : utf8_expect) (s : string) : option utf8_expect :=
  match s with
  | EmptyString => Some st
  | String a r =>
      match utf8_step st a with
      | Some st' => utf8_run st' r
      | None => None
      end
  end.

(** The bytes [s] are the UTF-8 encoding of a text: the strict decoder, as
    a file opened in text mode applies it, accepts them. *)
Definition utf8_valid (s : string) : bool :=
  match utf8_run Boundary s with
  | Some Boundary => true
  | _ => false
  end.

(** ** Regular expressions of [email_parser.py]

    Each of the four patterns the parser searches has the shape
    [literal ([^c]+) literal]: a literal prefix, one capture group made of a
    greedy run of characters other than [c], and a literal suffix (possibly
    empty). *)

Record pattern := Pattern { pre : string; excl : ascii; post : string }.

(** The double-quote character (code 34). *)
Definition dquote : ascii := Eval cbv in ascii_of_nat 34.

(** Length of the longest run of characters other than [c] at the head of
    [s]: what the greedy [[^c]+] first consumes. *)
Fixpoint span_not (c : ascii) (s : string) : nat :=
  match s with
  | EmptyString => 0
  | String a s' => if Ascii.eqb a c then 0 else S (span_not c s')
  end.

(** Backtracking of the greedy group: the capture is tried at length [k],
    then [k-1], ... down to one character, until the suffix matches. *)
Fixpoint backtrack (post : string) (s : string) (k : nat) : option string :=
  match k with
  | 0 => None
  | S k' =>
      if starts_with post (str_drop k s) then Some (str_take k s)
      else backtrack post s k'
  end.

(** Match anchored at the head of [s]; the result is [group(1)]. *)
Definition match_here (p : pattern) (s : string) : option string :=
  match strip_prefix (pre p) s with
  | Some rest => backtrack (post p) rest (span_not (excl p) rest)
  | None => None
  end.

(** [re.search(p, s)]: the leftmost position where the pattern matches;
    [None] when there is none.  The match object is represented by its
    [group(1)]. *)
Fixpoint re_search (p : pattern) (s : string) : option string :=
  match match_here p s with
  | Some g => Some g
  | None =>
      match s with
      | EmptyString => None
      | String _ s' => re_search p s'
      end
  end.

(** [type(v).__name__] *)
Definition type_name (v : value) : string :=
  match v with
  | VNone => "NoneType"
  | VBool _ => "bool"
  | VInt _ => "int"
  | VStr _ => "str"
  | VList _ => "list"
  | VDict _ => "dict"
  end.

(** [re.search] raises [TypeError] on an argument that is not a string. *)
Definition re_search_value (p : pattern) (v : value) : result (option string) :=
  match v with
  | VStr s => Ok (re_search p s)
  | _ => Raise (Exn TypeError ("expected string or bytes-like object, got '"
                               +:+ type_name v +:+ "'"))
  end.

(** [d[k]] *)
Definition dict_getitem {V} (k : string) (d : dict V) : result V :=
  match dict_lookup k d with
  | Some v => Ok v
  | None => Raise (Exn KeyError k)
  end.

(** ** The platform: everything imported from outside the repository *)

Record request := Request {
  req_method : string;
  req_url : string;
  req_headers : dict string;
  req_params : dict string;
  req_data : dict string
}.

(** The arguments [msal.ConfidentialClientApplication] is built from. *)
Record msal_app := MsalApp {
  app_client_id : string;
  app_client_credential : string;
  app_authority : string
}.

Class Platform := {
  (** [os.environ], after [load_dotenv()] *)
  environ : gmap string string;
  (** [BeautifulSoup(html, 'html.parser')]: the document, or the exception
      of a builder that rejects the markup *)
  soup : Type;
  tag : Type;
  BeautifulSoup : string -> result soup;
  (** [soup.find(name, string=re.compile(text))] *)
  find_by_string : soup -> string -> string -> option tag;
  (** [soup.find(name, id=ident)] *)
  find_by_id : soup -> string -> string -> option tag;
  (** [elem.find_next_sibling(name)] *)
  find_next_sibling : tag -> string -> option tag;
  (** [elem.get_text(strip=True)] *)
  get_text_strip : tag -> string;
  (** the attribute of a tag, when it has it *)
  tag_attr : tag -> string -> option string;
  (** [urllib.parse.unquote] *)
  unquote : string -> string;
  (** [json.dumps(v, indent=2)] and [repr] of a container *)
  json_dumps : value -> string;
  py_repr : value -> string;
  (** the world outside the process: servers, clock, terminal *)
  World : Type;
  requests_get : request -> World -> result response * World;
  requests_post : request -> World -> result response * World;
  acquire_token_by_username_password :
    msal_app -> string -> string -> list string -> World ->
    result (dict value) * World;
  acquire_token_by_authorization_code :
    msal_app -> string -> list string -> string -> World ->
    result (dict value) * World;
  datetime : Type;
  datetime_now : World -> datetime * World;
  strftime : datetime -> string -> string;
  isoformat : datetime -> string;
  input : string -> World -> result string * World;
  (** what the operating system has against creating or opening a path,
      for reasons of its own (permissions, the length of a name) *)
  os_denies : string -> option exn
}.

(** [str(v)], as an f-string formats a value. *)
Definition py_str `{Platform} (v : value) : string :=
  match v with
  | VNone => "None"
  | VBool true => "True"
  | VBool false => "False"
  | VInt n => pretty n
  | VStr s => s
  | VList _ | VDict _ => py_repr v
  end.

(** ** email_parser.py *)

Section EmailParser.
Context `{Platform}.

(** [19%3ameeting_([^%]+)] *)
Definition thread_pattern : pattern :=
  Pattern "19%3ameeting_" "%" "".

(** [context=%7b%22Tid%22%3a%22], a group of one or more characters other
    than the double quote, then [%22] *)
Definition context_pattern : pattern :=
  Pattern "context=%7b%22Tid%22%3a%22" dquote "%22".

(** [%22Oid%22%3a%22], the same group, then [%22] *)
Definition oid_pattern : pattern :=
  Pattern "%22Oid%22%3a%22" dquote "%22".

(** [19:meeting_([^@]+)] *)
Definition decoded_pattern : pattern :=
  Pattern "19:meeting_" "@" "".

Definition empty_meeting_info : dict value :=
  [ ("meeting_id", VNone); ("passcode", VNone); ("join_link", VNone);
    ("thread_id", VNone); ("organizer_id", VNone); ("tenant_id", VNone) ].

(** The text of the [span] that follows the [span] labelled [label]. *)
Definition labelled_text (sp : soup) (label : string) : option string :=
  match find_by_string sp "span" label with
  | Some elem =>
      match find_next_sibling elem "span" with
      | Some sibling => Some (get_text_strip sibling)
      | None => None
      end
  | None => None
  end.

(** [if m: meeting_info[k] = f(m.group(1))] *)
Definition set_if_match (k : string) (f : string -> string)
    (m : option string) (meeting_info : dict value) : dict value :=
  match m with
  | Some g => dict_set k (VStr (f g)) meeting_info
  | None => meeting_info
  end.

Definition extract_meeting_info (html_body : string) : result (dict value) :=
  sp ← BeautifulSoup html_body;
  let meeting_info := empty_meeting_info in
  (* Extract Meeting ID *)
  let meeting_info :=
    match labelled_text sp "Meeting ID:" with
    | Some t => dict_set "meeting_id" (VStr (replace_char " " "" t)) meeting_info
    | None => meeting_info
    end in
  (* Extract Passcode *)
  let meeting_info :=
    match labelled_text sp "Passcode:" with
    | Some t => dict_set "passcode" (VStr t) meeting_info
    | None => meeting_info
    end in
  (* Extract Join Link *)
  match find_by_id sp "a" "meet_invite_block.action.join_link" with
  | Some join_link_elem =>
      let meeting_info :=
        dict_set "join_link"
          (VStr (default "" (tag_attr join_link_elem "href"))) meeting_info in
      join_link ← dict_getitem "join_link" meeting_info;
      thread_match ← re_search_value thread_pattern join_link;
      let meeting_info :=
        set_if_match "thread_id" (fun g => "19:meeting_" +:+ g)
          thread_match meeting_info in
      context_match ← re_search_value context_pattern join_link;
      let meeting_info :=
        set_if_match "tenant_id" id context_match meeting_info in
      oid_match ← re_search_value oid_pattern join_link;
      let meeting_info :=
        set_if_match "organizer_id" id oid_match meeting_info in
      mret meeting_info
  | None => mret meeting_info
  end.

Definition extract_meeting_id_from_url (join_url : string) : option string :=
  let decoded := unquote join_url in
  match re_search decoded_pattern decoded with
  | Some g => Some ("19:meeting_" +:+ g)
  | None => None
  end.

End EmailParser.

(** ** Dynamic operations on values *)

(** The exception of [v.name] on a value that has no such attribute. *)
Definition no_attribute (v : value) (name : string) : exn :=
  Exn AttributeError
    ("'" +:+ type_name v +:+ "' object has no attribute '" +:+ name +:+ "'").

(** [v.get(k, dflt)]: only dictionaries have the method. *)
Definition py_get (v : value) (k : string) (dflt : value) : result value :=
  match v with
  | VDict d => Ok (dict_get k dflt d)
  | _ => Raise (no_attribute v "get")
  end.

(** [v[k]] for a string key. *)
Definition py_getitem (v : value) (k : string) : result value :=
  match v with
  | VDict d => dict_getitem k d
  | VList _ =>
      Raise (Exn TypeError "list indices must be integers or slices, not str")
  | VStr _ => Raise (Exn TypeError "string indices must be integers, not 'str'")
  | _ => Raise (Exn TypeError
                  ("'" +:+ type_name v +:+ "' object is not subscriptable"))
  end.

Fixpoint str_contains (sub s : string) : bool :=
  starts_with sub s ||
  match s with
  | EmptyString => false
  | String _ s' => str_contains sub s'
  end.

Definition is_str (k : string) (v : value) : bool :=
  match v with VStr s => String.eqb s k | _ => false end.

(** [k in v] for a string [k]. *)
Definition py_in (k : string) (v : value) : result bool :=
  match v with
  | VDict d => Ok (dict_has k d)
  | VList l => Ok (existsb (is_str k) l)
  | VStr s => Ok (str_contains k s)
  | _ => Raise (Exn TypeError
                  ("argument of type '" +:+ type_name v +:+ "' is not iterable"))
  end.

(** The items a [for] loop or [list.extend] draws from a value; a string
    gives its characters. *)
Definition py_iter (v : value) : result (list value) :=
  match v with
  | VList l => Ok l
  | VDict d => Ok (map (fun kv => VStr (fst kv)) d)
  | VStr s => Ok (map VStr (str_chars s))
  | _ => Raise (Exn TypeError
                  ("'" +:+ type_name v +:+ "' object is not iterable"))
  end.

(** [len(v)]; the length of a string is the number of its characters. *)
Definition py_len (v : value) : result nat :=
  match v with
  | VList l => Ok (length l)
  | VDict d => Ok (length d)
  | VStr s => Ok (length (str_chars s))
  | _ => Raise (Exn TypeError
                  ("object of type '" +:+ type_name v +:+ "' has no len()"))
  end.

(** [v.replace(c, new)]: a method of strings only. *)
Definition py_replace (v : value) (c : ascii) (new : string) : result string :=
  match v with
  | VStr s => Ok (replace_char c new s)
  | _ => Raise (no_attribute v "replace")
  end.

(** [response.json()] *)
Definition response_json (r : response) : result value :=
  match json_body r with
  | Some v => Ok v
  | None => Raise (Exn ValueError "Expecting value")
  end.

(** [response.raise_for_status()] *)
Definition raise_for_status (r : response) : result unit :=
  if Z.leb 400 (status_code r) && Z.ltb (status_code r) 600
  then Raise (HTTPError (pretty (status_code r) +:+ " Error") r)
  else Ok tt.

(** The newline character, as [\n] in the sources' string literals. *)
Definition nl_char : ascii := Eval cbv in ascii_of_nat 10.
Definition nl : string := String nl_char EmptyString.

(** ** config.py *)

Record Config := {
  TENANT_ID : string;
  CLIENT_ID : string;
  CLIENT_SECRET : string;
  USERNAME : string;
  PASSWORD : string;
  REDIRECT_URI : string;
  SCOPE : list string;
  GRAPH_API_ENDPOINT : string
}.

Section ConfigPy.
Context `{Platform}.

(** [os.getenv(k, dflt)] *)
Definition os_getenv (k dflt : string) : string := default dflt (environ !! k).

(** The class attributes of [Config], read from the environment once. *)
Definition load_config : Config := {|
  TENANT_ID := os_getenv "TENANT_ID" "";
  CLIENT_ID := os_getenv "CLIENT_ID" "";
  CLIENT_SECRET := os_getenv "CLIENT_SECRET" "";
  USERNAME := os_getenv "USERNAME" "";
  PASSWORD := os_getenv "PASSWORD" "";
  REDIRECT_URI := os_getenv "REDIRECT_URI" "https://localhost";
  SCOPE := split_ws (os_getenv "SCOPE" "offline_access Calendars.Read");
  GRAPH_API_ENDPOINT := os_getenv "GRAPH_API_ENDPOINT" "https://graph.microsoft.com/v1.0"
|}.

Definition authority (c : Config) : string :=
  "https://login.microsoftonline.com/" +:+ TENANT_ID c.

Definition authorization_url (c : Config) : string :=
  let scope_str := join " " (SCOPE c) in
  authority c +:+ "/oauth2/v2.0/authorize"
  +:+ "?client_id=" +:+ CLIENT_ID c
  +:+ "&response_type=code"
  +:+ "&redirect_uri=" +:+ REDIRECT_URI c
  +:+ "&response_mode=query"
  +:+ "&scope=" +:+ scope_str
  +:+ "&prompt=consent".

End ConfigPy.

(** ** The process: state and the monad of effects *)

(** A [GraphAuth] object.  It is mutable and shared: the client keeps a
    reference to it, so it lives in the heap of the process state. *)
Record GraphAuth := {
  config : Config;
  app : msal_app;
  access_token : value
}.

Inductive file_content :=
| FText (s : string)
| FJson (v : value).

Section Process.
Context `{Platform}.

Record State := {
  world : World;
  heap : list GraphAuth;
  sent : list request;
  stdout : list string;
  stderr : list string;
  dirs : list string;
  files : dict file_content
}.

(** The state of a process that starts in world [w]. *)
Definition initial_state (w : World) : State :=
  {| world := w; heap := []; sent := []; stdout := []; stderr := [];
     dirs := []; files := [] |}.

(** A computation: it ends with a value or an exception, and a state. *)
Definition M (A : Type) : Type := State -> result A * State.

Definition ret {A} (a : A) : M A := fun s => (Ok a, s).

Definition bind {A B} (m : M A) (k : A -> M B) : M B := fun s =>
  match m s with
  | (Ok a, s') => k a s'
  | (Raise e, s') => (Raise e, s')
  end.

Definition raise {A} (e : exn) : M A := fun s => (Raise e, s).

(** [try: m  except Exception as e: h e] *)
Definition try_except {A} (m : M A) (h : exn -> M A) : M A := fun s =>
  match m s with
  | (Ok a, s') => (Ok a, s')
  | (Raise e, s') => h e s'
  end.

Definition lift {A} (r : result A) : M A := fun s => (r, s).

Definition set_world (w : World) (s : State) : State :=
  {| world := w; heap := heap s; sent := sent s; stdout := stdout s;
     stderr := stderr s; dirs := dirs s; files := files s |}.

Definition set_heap (h : list GraphAuth) (s : State) : State :=
  {| world := world s; heap := h; sent := sent s; stdout := stdout s;
     stderr := stderr s; dirs := dirs s; files := files s |}.

Definition log_request (r : request) (s : State) : State :=
  {| world := world s; heap := heap s; sent := sent s ++ [r];
     stdout := stdout s; stderr := stderr s; dirs := dirs s;
     files := files s |}.

(** [print(line)] *)
Definition print (line : string) : M unit := fun s =>
  (Ok tt,
   {| world := world s; heap := heap s; sent := sent s;
      stdout := stdout s ++ [line]; stderr := stderr s; dirs := dirs s;
      files := files s |}).

(** The state once [lines] have been printed. *)
Definition printed (lines : list string) (s : State) : State :=
  fold_left (fun s line => (print line s).2) lines s.

(** [print(line, file=sys.stderr)] *)
Definition eprint (line : string) : M unit := fun s =>
  (Ok tt,
   {| world := world s; heap := heap s; sent := sent s;
      stdout := stdout s; stderr := stderr s ++ [line]; dirs := dirs s;
      files := files s |}).

(** *** Files

    The file system is the part [dirs] and [files] of the state: the paths
    that name a directory, and the contents of the paths that name a file.
    Paths are taken as the program writes them.  The text of a file is kept
    as its bytes; files are written as on a POSIX system (a newline is
    written as it is) and read as UTF-8, with every [\r\n] and every lone
    [\r] turned into [\n]. *)

Definition nul_char : ascii := Eval cbv in ascii_of_nat 0.
Definition cr_char : ascii := Eval cbv in ascii_of_nat 13.

Definition is_dir (path : string) (s : State) : bool :=
  existsb (String.eqb path) (dirs s).

Definition is_file (path : string) (s : State) : bool :=
  dict_has path (files s).

(** The directory a path lies in: the text before its last [/], empty for
    a name in the current directory. *)
Fixpoint dirname (path : string) : string :=
  match path with
  | EmptyString => EmptyString
  | String a r => if has_char "/" r then String a (dirname r) else EmptyString
  end.

(** The directories above [path], outermost first: what stands before each
    [/] of the path, where that is not empty. *)
Fixpoint ancestors_from (seen path : string) : list string :=
  match path with
  | EmptyString => []
  | String a r =>
      ((if Ascii.eqb a "/" && negb (String.eqb seen "") then [seen] else [])
       ++ ancestors_from (seen +:+ String a EmptyString) r)%list
  end.

Definition ancestors (path : string) : list string := ancestors_from "" path.

(** An [OSError] about a path: [str(e)] is the error text followed by the
    [repr] of the path. *)
Definition os_error (cls : exn_class) (what path : string) : exn :=
  Exn cls (what +:+ ": " +:+ py_repr (VStr path)).

Definition file_not_found (path : string) : exn :=
  os_error FileNotFoundError "[Errno 2] No such file or directory" path.
Definition file_exists (path : string) : exn :=
  os_error FileExistsError "[Errno 17] File exists" path.
Definition not_a_directory (path : string) : exn :=
  os_error NotADirectoryError "[Errno 20] Not a directory" path.
Definition is_a_directory (path : string) : exn :=
  os_error IsADirectoryError "[Errno 21] Is a directory" path.
Definition embedded_null : exn := Exn ValueError "embedded null byte".

(** What [os.makedirs(d, exist_ok=True)] raises, if anything: [d] is
    empty, [d] or a directory above it is a file, or the operating system
    refuses. *)
Definition makedirs_error (d : string) (s : State) : option exn :=
  if has_char nul_char d then Some embedded_null
  else if String.eqb d "" then Some (file_not_found d)
  else if is_dir d s then None
  else if is_file d s then Some (file_exists d)
  else if existsb (fun p => is_file p s) (ancestors d)
  then Some (not_a_directory d)
  else os_denies d.

(** [os.makedirs(d, exist_ok=True)]: nothing is done for a directory that
    is there; otherwise [d] and the directories above it are there
    afterwards. *)
Definition makedirs (d : string) : M unit := fun s =>
  match makedirs_error d s with
  | Some e => (Raise e, s)
  | None =>
      (Ok tt,
       if is_dir d s then s
       else
         {| world := world s; heap := heap s; sent := sent s;
            stdout := stdout s; stderr := stderr s;
            dirs := (dirs s
                     ++ List.filter (fun p => negb (is_dir p s))
                          (ancestors d ++ [d]))%list;
            files := files s |})
  end.

(** What [open(path, 'w')] raises, if anything: [path] is empty or names a
    directory, the directory it lies in is not there, or the operating
    system refuses. *)
Definition open_error (path : string) (s : State) : option exn :=
  if has_char nul_char path then Some embedded_null
  else if String.eqb path "" then Some (file_not_found path)
  else if is_dir path s then Some (is_a_directory path)
  else if negb (String.eqb (dirname path) "") && negb (is_dir (dirname path) s)
  then Some (if is_file (dirname path) s then not_a_directory path
             else file_not_found path)
  else os_denies path.

(** [with open(path, 'w') as f: f.write(c)] (or [json.dump(c, f)]) *)
Definition write_file (path : string) (c : file_content) : M unit := fun s =>
  match open_error path s with
  | Some e => (Raise e, s)
  | None =>
      (Ok tt,
       {| world := world s; heap := heap s; sent := sent s;
          stdout := stdout s; stderr := stderr s; dirs := dirs s;
          files := dict_set path c (files s) |})
  end.

Fixpoint universal_newlines (s : string) : string :=
  match s with
  | EmptyString => EmptyString
  | String a s' =>
      if Ascii.eqb a cr_char then
        String nl_char
          match s' with
          | String b s'' =>
              if Ascii.eqb b nl_char then universal_newlines s''
              else universal_newlines s'
          | EmptyString => EmptyString
          end
      else String a (universal_newlines s')
  end.

(** The exception of a file whose bytes are no UTF-8 text. *)
Definition undecodable : exn :=
  Exn UnicodeDecodeError "'utf-8' codec can't decode bytes".

(** [with open(path, 'r') as f: f.read()].  A file written by [json.dump]
    reads as the text that was dumped, which holds ASCII characters only. *)
Definition read_file (path : string) : M string := fun s =>
  if has_char nul_char path then (Raise embedded_null, s)
  else if is_dir path s then (Raise (is_a_directory path), s)
  else
    match dict_lookup path (files s) with
    | None => (Raise (file_not_found path), s)
    | Some c =>
        match os_denies path with
        | Some e => (Raise e, s)
        | None =>
            match c with
            | FText t =>
                if utf8_valid t then (Ok (universal_newlines t), s)
                else (Raise undecodable, s)
            | FJson v => (Ok (universal_newlines (json_dumps v)), s)
            end
        end
    end.

(** [os.path.exists(path)] *)
Definition path_exists (path : string) : M bool := fun s =>
  (Ok (is_file path s || is_dir path s), s).

(** An operation of the outside world that cannot fail. *)
Definition from_world {A} (f : World -> A * World) : M A := fun s =>
  let '(a, w) := f (world s) in (Ok a, set_world w s).

(** An operation of the outside world that may raise. *)
Definition call_world {A} (f : World -> result A * World) : M A := fun s =>
  let '(r, w) := f (world s) in (r, set_world w s).

(** [requests.get(url, headers=headers, params=params)]; the request is
    recorded in [sent] before the world answers. *)
Definition http_get (url : string) (headers params : dict string) : M response :=
  fun s =>
    let req := Request "GET" url headers params [] in
    call_world (requests_get req) (log_request req s).

(** [requests.post(url, data=data, headers=headers)] *)
Definition http_post (url : string) (data headers : dict string) : M response :=
  fun s =>
    let req := Request "POST" url headers [] data in
    call_world (requests_post req) (log_request req s).

End Process.

Notation "x <- m ;; k" := (bind m (fun x => k))
  (at level 100, m at next level, right associativity).
Notation "m ;;; k" := (bind m (fun _ => k))
  (at level 100, right associativity).

(** ** auth.py *)

Section AuthPy.
Context `{Platform}.

(** A new object on the heap; its reference is its index. *)
Definition alloc_auth (a : GraphAuth) : M nat := fun s =>
  (Ok (length (heap s)), set_heap (heap s ++ [a]) s).

Definition read_auth (self : nat) : M GraphAuth := fun s =>
  match heap s !! self with
  | Some a => (Ok a, s)
  | None => (Raise (Exn AttributeError "no such object"), s)
  end.

(** [self.access_token = v] *)
Definition set_access_token (self : nat) (v : value) : M unit := fun s =>
  match heap s !! self with
  | Some a =>
      (Ok tt,
       set_heap (<[self := {| config := config a; app := app a;
                              access_token := v |}]> (heap s)) s)
  | None => (Raise (Exn AttributeError "no such object"), s)
  end.

(** [GraphAuth.__init__].  Building the msal application object is taken
    not to fail; its two token calls are operations of the platform. *)
Definition GraphAuth_init : M nat :=
  let config := load_config in
  alloc_auth {| config := config;
                app := MsalApp (CLIENT_ID config) (CLIENT_SECRET config)
                         (authority config);
                access_token := VNone |}.

Definition authenticate_with_password (self : nat) : M value :=
  try_except
    (a <- read_auth self ;;
     result <- call_world
       (acquire_token_by_username_password (app a)
          (USERNAME (config a)) (PASSWORD (config a)) (SCOPE (config a))) ;;
     if dict_has "access_token" result then
       tok <- lift (dict_getitem "access_token" result) ;;
       set_access_token self tok ;;;
       a' <- read_auth self ;;
       ret (access_token a')
     else
       let error :=
         dict_get "error_description"
           (dict_get "error" (VStr "Unknown error") result) result in
       raise (Exn Exception_ ("Authentication failed: " +:+ py_str error)))
    (fun e => raise (Exn Exception_ ("Failed to authenticate: " +:+ exn_str e))).

Definition get_authorization_url (self : nat) : M string :=
  a <- read_auth self ;;
  ret (authorization_url (config a)).

Definition authenticate_with_code (self : nat) (authorization_code : string)
  : M value :=
  try_except
    (a <- read_auth self ;;
     result <- call_world
       (acquire_token_by_authorization_code (app a) authorization_code
          (SCOPE (config a)) (REDIRECT_URI (config a))) ;;
     if dict_has "access_token" result then
       tok <- lift (dict_getitem "access_token" result) ;;
       set_access_token self tok ;;;
       a' <- read_auth self ;;
       ret (access_token a')
     else
       let error :=
         dict_get "error_description"
           (dict_get "error" (VStr "Unknown error") result) result in
       raise (Exn Exception_ ("Authentication failed: " +:+ py_str error)))
    (fun e =>
       raise (Exn Exception_
                ("Failed to authenticate with code: " +:+ exn_str e))).

(** The exception [get_access_token] raises when there is no token: the
    specification's NotAuthenticatedError. *)
Definition NotAuthenticatedError : exn :=
  Exn Exception_
    "Not authenticated. Call authenticate_with_password() or authenticate_with_code() first.".

Definition get_access_token (self : nat) : M value :=
  a <- read_auth self ;;
  if negb (truthy (access_token a)) then raise NotAuthenticatedError
  else ret (access_token a).

End AuthPy.

(** ** graph_client.py *)

(** A [GraphClient] object: [auth] is a reference to the shared
    [GraphAuth] object. *)
Record GraphClient := {
  auth : nat;
  base_url : string;
  headers : dict string
}.

Section GraphClientPy.
Context `{Platform}.

(** [GraphClient.__init__] *)
Definition GraphClient_init (auth : nat) : M GraphClient :=
  tok <- get_access_token auth ;;
  ret {| auth := auth;
         base_url := "https://graph.microsoft.com/v1.0";
         headers := [ ("Authorization", "Bearer " +:+ py_str tok);
                      ("Content-Type", "application/json") ] |}.

Definition _refresh_headers (self : GraphClient) : M GraphClient :=
  tok <- get_access_token (auth self) ;;
  ret {| auth := auth self;
         base_url := base_url self;
         headers := dict_set "Authorization" ("Bearer " +:+ py_str tok)
                      (headers self) |}.

(** The three URLs of [get_online_meeting_attendance_report]. *)
Definition meeting_url (self : GraphClient) (meeting_id : value) : string :=
  base_url self +:+ "/me/onlineMeetings/" +:+ py_str meeting_id.
Definition quoted_meeting_url (self : GraphClient) (meeting_id : value) : string :=
  base_url self +:+ "/me/onlineMeetings('" +:+ py_str meeting_id +:+ "')".
Definition attendance_url (self : GraphClient) (meeting_id : value) : string :=
  base_url self +:+ "/me/onlineMeetings/" +:+ py_str meeting_id
  +:+ "/attendanceReports".

(** Methods mutate [self.headers]: each returns the client as it leaves it,
    with the value the Python method returns. *)
Definition get_online_meeting_attendance_report
    (self : GraphClient) (meeting_id : value) : M (GraphClient * value) :=
  self <- _refresh_headers self ;;
  r <- try_except
    ((* First, try to get the meeting by ID *)
     let url := meeting_url self meeting_id in
     response <- http_get url (headers self) [] ;;
     response <-
       (if Z.eqb (status_code response) 404 then
          (* Try alternative endpoint format *)
          let url := quoted_meeting_url self meeting_id in
          http_get url (headers self) []
        else ret response) ;;
     if Z.eqb (status_code response) 200 then
       meeting_data <- lift (response_json response) ;;
       (* Now get attendance reports *)
       attendance_response <-
         http_get (attendance_url self meeting_id) (headers self) [] ;;
       if Z.eqb (status_code attendance_response) 200 then
         lift (response_json attendance_response)
       else if Z.eqb (status_code attendance_response) 404 then
         print ("No attendance reports found for meeting " +:+ py_str meeting_id) ;;;
         ret VNone
       else
         print ("Error fetching attendance: "
                +:+ pretty (status_code attendance_response)) ;;;
         print (text attendance_response) ;;;
         ret VNone
     else
       print ("Error fetching meeting: " +:+ pretty (status_code response)) ;;;
       print (text response) ;;;
       ret VNone)
    (fun e =>
       print ("Exception while fetching attendance report: " +:+ exn_str e) ;;;
       ret VNone) ;;
  ret (self, r).

Definition records_url (self : GraphClient) (meeting_id report_id : value)
  : string :=
  base_url self +:+ "/me/onlineMeetings/" +:+ py_str meeting_id
  +:+ "/attendanceReports/" +:+ py_str report_id +:+ "/attendanceRecords".

Definition get_meeting_attendance_records
    (self : GraphClient) (meeting_id report_id : value)
  : M (GraphClient * value) :=
  self <- _refresh_headers self ;;
  r <- try_except
    (let url := records_url self meeting_id report_id in
     response <- http_get url (headers self) [] ;;
     if Z.eqb (status_code response) 200 then
       data <- lift (response_json response) ;;
       lift (py_get data "value" (VList []))
     else
       print ("Error fetching attendance records: "
              +:+ pretty (status_code response)) ;;;
       print (text response) ;;;
       ret VNone)
    (fun e =>
       print ("Exception while fetching attendance records: " +:+ exn_str e) ;;;
       ret VNone) ;;
  ret (self, r).

Definition list_online_meetings
    (self : GraphClient) (filter_query : option string)
  : M (GraphClient * value) :=
  self <- _refresh_headers self ;;
  r <- try_except
    (let url := base_url self +:+ "/me/onlineMeetings" in
     let params :=
       match filter_query with
       | Some q => if String.eqb q "" then [] else [("$filter", q)]
       | None => []
       end in
     response <- http_get url (headers self) params ;;
     if Z.eqb (status_code response) 200 then
       data <- lift (response_json response) ;;
       lift (py_get data "value" (VList []))
     else
       print ("Error listing meetings: " +:+ pretty (status_code response)) ;;;
       print (text response) ;;;
       ret VNone)
    (fun e =>
       print ("Exception while listing meetings: " +:+ exn_str e) ;;;
       ret VNone) ;;
  ret (self, r).

End GraphClientPy.

(** ** main.py *)

Section MainPy.
Context `{Platform}.

Definition save_attendance_report
    (meeting_info : dict value) (attendance_data : dict value)
    (output_dir : string) : M string :=
  makedirs output_dir ;;;
  now <- from_world datetime_now ;;
  let timestamp := strftime now "%Y%m%d_%H%M%S" in
  meeting_id_clean <-
    lift (py_replace (dict_get "meeting_id" (VStr "unknown") meeting_info)
            " " "_") ;;
  let filename :=
    output_dir +:+ "/attendance_" +:+ meeting_id_clean +:+ "_" +:+ timestamp
    +:+ ".json" in
  now' <- from_world datetime_now ;;
  let report :=
    [ ("meeting_info", VDict meeting_info);
      ("attendance_data", VDict attendance_data);
      ("extracted_at", VStr (isoformat now')) ] in
  write_file filename (FJson (VDict report)) ;;;
  print ("Attendance report saved to: " +:+ filename) ;;;
  ret filename.

(** The loop over the reports: the records of each are fetched and, when
    the fetch gave something true, appended to [all_records]. *)
Fixpoint fetch_records (client : GraphClient) (meeting_id : value)
    (reports : list value) (all_records : list value)
  : M (GraphClient * list value) :=
  match reports with
  | [] => ret (client, all_records)
  | report :: rest =>
      report_id <- lift (py_get report "id" VNone) ;;
      print (nl +:+ "Fetching records for report: " +:+ py_str report_id) ;;;
      cr <- get_meeting_attendance_records client meeting_id report_id ;;
      let '(client, records) := cr in
      all_records <-
        (if truthy records then
           items <- lift (py_iter records) ;;
           n <- lift (py_len records) ;;
           print ("  Found " +:+ pretty n +:+ " attendance record(s)") ;;;
           ret (all_records ++ items)%list
         else ret all_records) ;;
      fetch_records client meeting_id rest all_records
  end.

(** The lines of the summary for the record numbered [i]. *)
Definition print_attendee (i : nat) (record : value) : M unit :=
  identity <- lift (py_get record "identity" (VDict [])) ;;
  email_address <- lift (py_get identity "emailAddress" (VDict [])) ;;
  email <- lift (py_get email_address "address" (VStr "N/A")) ;;
  email_address' <- lift (py_get identity "emailAddress" (VDict [])) ;;
  name <- lift (py_get email_address' "name" (VStr "N/A")) ;;
  join_time <- lift (py_get record "joinDateTime" (VStr "N/A")) ;;
  leave_time <- lift (py_get record "leaveDateTime" (VStr "N/A")) ;;
  duration <- lift (py_get record "totalAttendanceInSeconds" (VInt 0)) ;;
  print ("  " +:+ pretty i +:+ ". " +:+ py_str name
         +:+ " (" +:+ py_str email +:+ ")") ;;;
  print ("     Joined: " +:+ py_str join_time
         +:+ ", Left: " +:+ py_str leave_time) ;;;
  print ("     Duration: " +:+ py_str duration +:+ " seconds").

Fixpoint print_attendees (i : nat) (records : list value) : M unit :=
  match records with
  | [] => ret tt
  | record :: rest => print_attendee i record ;;; print_attendees (S i) rest
  end.

Definition rule : string :=
  "============================================================".

(** The part of [process_email_html] from [if attendance_report:] to its
    end (lines 81 to 137): the reports are read, their records fetched and
    merged, the whole is saved and summarised.  The result is the file
    name, or [None]. *)
Definition process_attendance_report (meeting_info : dict value)
    (client : GraphClient) (meeting_id attendance_report : value)
  : M (option string) :=
  if truthy attendance_report then
    print "✓ Attendance report retrieved successfully" ;;;
    (* If there are multiple reports, get records for each *)
    reports <- lift (py_get attendance_report "value" (VList [])) ;;
    if truthy reports then
      n <- lift (py_len reports) ;;
      print ("Found " +:+ pretty n +:+ " attendance report(s)") ;;;
      items <- lift (py_iter reports) ;;
      cr <- fetch_records client meeting_id items [] ;;
      let '(client, all_records) := cr in
      (* Save the complete report *)
      let full_report :=
        [ ("reports", reports); ("attendance_records", VList all_records) ] in
      filename <- save_attendance_report meeting_info full_report
                    "attendance_reports" ;;
      (* Print summary *)
      print (nl +:+ rule) ;;;
      print "ATTENDANCE SUMMARY" ;;;
      print rule ;;;
      print ("Meeting ID: "
             +:+ py_str (dict_get "meeting_id" (VStr "N/A") meeting_info)) ;;;
      print ("Total Records: " +:+ pretty (length all_records)) ;;;
      (match all_records with
       | [] => ret tt
       | _ => print (nl +:+ "Attendees:") ;;; print_attendees 1 all_records
       end) ;;;
      ret (Some filename)
    else
      print "No attendance reports found in the response" ;;;
      ret None
  else
    print "✗ Could not retrieve attendance report" ;;;
    print (nl +:+ "Possible reasons:") ;;;
    print "  1. The meeting hasn't ended yet (attendance reports are only available after the meeting)" ;;;
    print "  2. You don't have permission to access this meeting's attendance" ;;;
    print "  3. The meeting ID format might be incorrect" ;;;
    ret None.

(** The authentication step of [process_email_html] (lines 53 to 69):
    [true] when a token was obtained, [false] when the attempt raised and
    the function returns [None]. *)
Definition authenticate (auth : nat) (use_password_auth : bool) : M bool :=
  try_except
    (if use_password_auth then
       access_token <- authenticate_with_password auth ;;
       print "✓ Authentication successful (password grant)" ;;;
       ret true
     else
       (* For OAuth code flow, user needs to visit the authorization URL *)
       auth_url <- get_authorization_url auth ;;
       print (nl +:+ "Please visit this URL to authorize the application:") ;;;
       print auth_url ;;;
       print (nl +:+ "After authorization, you'll be redirected to localhost with a code parameter.") ;;;
       print "Please provide the authorization code:" ;;;
       line <- call_world (input "Authorization code: ") ;;
       let auth_code := strip line in
       access_token <- authenticate_with_code auth auth_code ;;
       print "✓ Authentication successful (authorization code grant)" ;;;
       ret true)
    (fun e =>
       print ("✗ Authentication failed: " +:+ exn_str e) ;;;
       ret false).

Definition process_email_html (html_body : string) (use_password_auth : bool)
  : M (option string) :=
  (* Parse email to extract meeting information *)
  print "Parsing email HTML..." ;;;
  meeting_info <- lift (extract_meeting_info html_body) ;;
  print "Extracted meeting info:" ;;;
  print (json_dumps (VDict meeting_info)) ;;;
  if negb (truthy (dict_get "thread_id" VNone meeting_info)) then
    print "Warning: Could not extract meeting thread ID from email" ;;;
    ret None
  else
  (* Authenticate with Microsoft Graph API *)
  print (nl +:+ "Authenticating with Microsoft Graph API...") ;;;
  auth <- GraphAuth_init ;;
  authenticated <- authenticate auth use_password_auth ;;
  if negb authenticated then ret None else
  (* Create Graph API client *)
  client <- GraphClient_init auth ;;
  (* Extract meeting ID from thread_id *)
  let meeting_id := dict_get "thread_id" VNone meeting_info in
  (* Fetch attendance report *)
  print (nl +:+ "Fetching attendance report for meeting: " +:+ py_str meeting_id) ;;;
  cr <- get_online_meeting_attendance_report client meeting_id ;;
  let '(client, attendance_report) := cr in
  process_attendance_report meeting_info client meeting_id attendance_report.

End MainPy.

(** ** refresh_token.py

    The function [refresh_access_token]; the search of the refresh token
    and the script around it follow further down, with the text files they
    read. *)

(** The module's settings, as they are once its start-up check has passed:
    [TENANT_ID], [CLIENT_ID], [CLIENT_SECRET] and [SCOPE]. *)
Record refresh_settings := {
  rt_TENANT_ID : string;
  rt_CLIENT_ID : string;
  rt_CLIENT_SECRET : string;
  rt_SCOPE : string
}.

Section RefreshTokenPy.
Context `{Platform}.

Definition token_url (g : refresh_settings) : string :=
  "https://login.microsoftonline.com/" +:+ rt_TENANT_ID g +:+ "/oauth2/v2.0/token".

Definition long_rule : string :=
  "================================================================================".

(** The dictionary [output] that [refresh_access_token] builds. *)
Definition refresh_output (g : refresh_settings) (response_data access_token
    new_refresh_token : value) : result (dict value) :=
  token_type ← py_get response_data "token_type" (VStr "Bearer");
  expires_in ← py_get response_data "expires_in" VNone;
  scope ← py_get response_data "scope" (VStr (rt_SCOPE g));
  Ok [ ("access_token", access_token);
       ("token_type", token_type);
       ("expires_in", expires_in);
       ("refresh_token", new_refresh_token);
       ("scope", scope) ].

Definition refresh_access_token (g : refresh_settings) (refresh_token : string)
  : M value :=
  (* Token endpoint URL *)
  let token_url := token_url g in
  (* Request body parameters *)
  let data :=
    [ ("grant_type", "refresh_token");
      ("client_id", rt_CLIENT_ID g);
      ("client_secret", rt_CLIENT_SECRET g);
      ("refresh_token", refresh_token);
      ("scope", rt_SCOPE g) ] in
  (* Headers *)
  let headers := [ ("Content-Type", "application/x-www-form-urlencoded") ] in
  eprint "Requesting new access token..." ;;;
  eprint ("URL: " +:+ token_url) ;;;
  eprint "Body parameters:" ;;;
  eprint ("  grant_type: " +:+ "refresh_token") ;;;
  eprint ("  client_id: " +:+ rt_CLIENT_ID g) ;;;
  eprint ("  client_secret: " +:+ rt_CLIENT_SECRET g) ;;;
  eprint ("  refresh_token: " +:+ str_prefix 50 refresh_token +:+ "...") ;;;
  eprint ("  scope: " +:+ rt_SCOPE g) ;;;
  eprint "" ;;;
  (* Make the request *)
  try_except
    (response <- http_post token_url data headers ;;
     lift (raise_for_status response) ;;;
     result <- lift (response_json response) ;;
     has_access_token <- lift (py_in "access_token" result) ;;
     if has_access_token then
       access_token <- lift (py_getitem result "access_token") ;;
       (* May get new refresh token *)
       new_refresh_token <-
         lift (py_get result "refresh_token" (VStr refresh_token)) ;;
       print long_rule ;;;
       print "SUCCESS - NEW ACCESS TOKEN OBTAINED" ;;;
       print long_rule ;;;
       print (nl +:+ "Bearer Token: " +:+ py_str access_token) ;;;
       token_type <- lift (py_get result "token_type" (VStr "Bearer")) ;;
       print (nl +:+ "Token Type: " +:+ py_str token_type) ;;;
       expires_in <- lift (py_get result "expires_in" (VStr "N/A")) ;;
       print ("Expires In: " +:+ py_str expires_in +:+ " seconds") ;;;
       has_refresh_token <- lift (py_in "refresh_token" result) ;;
       (if has_refresh_token
        then print (nl +:+ "New Refresh Token: " +:+ py_str new_refresh_token)
        else ret tt) ;;;
       (* Save to file *)
       output <- lift (refresh_output g result access_token new_refresh_token) ;;
       output_token_type <- lift (dict_getitem "token_type" output) ;;
       output_expires_in <- lift (dict_getitem "expires_in" output) ;;
       write_file "access_token.txt"
         (FText ("Bearer Token: " +:+ py_str access_token +:+ nl
                 +:+ "Token Type: " +:+ py_str output_token_type +:+ nl
                 +:+ "Expires In: " +:+ py_str output_expires_in
                 +:+ " seconds" +:+ nl
                 +:+ nl +:+ "Refresh Token: " +:+ py_str new_refresh_token
                 +:+ nl)) ;;;
       eprint (nl +:+ "✓ Token saved to: access_token.txt") ;;;
       ret result
     else
       eprint "Error: No access_token in response" ;;;
       eprint ("Response: " +:+ json_dumps result) ;;;
       ret VNone)
    (fun e =>
       match e with
       | HTTPError msg resp =>
           eprint ("HTTP Error: " +:+ msg) ;;;
           (match response_json resp with
            | Ok error_detail =>
                eprint ("Error details: " +:+ json_dumps error_detail)
            | Raise _ => eprint ("Response text: " +:+ text resp)
            end) ;;;
           ret VNone
       | _ =>
           eprint ("Error: " +:+ exn_str e) ;;;
           eprint "Traceback (most recent call last):" ;;;
           ret VNone
       end).

End RefreshTokenPy.

(** ** A test double of the platform

    Documents are flat sequences of sibling elements, and the parser
    rejects the texts it is told to; the servers answer by request; the
    token endpoint answers by the number of grants made so far; the
    operating system refuses nothing.  It serves to run the program on
    concrete inputs. *)

Record elem := {
  el_name : string;
  el_attrs : dict string;
  el_text : string
}.

Fixpoint find_elem (p : elem -> bool) (l : list elem)
  : option (elem * list elem) :=
  match l with
  | [] => None
  | e :: rest => if p e then Some (e, rest) else find_elem p rest
  end.

Definition hex_digit (a : ascii) : option nat :=
  let n := nat_of_ascii a in
  if (48 <=? n)%nat && (n <=? 57)%nat then Some (n - 48)
  else if (65 <=? n)%nat && (n <=? 70)%nat then Some (n - 55)
  else if (97 <=? n)%nat && (n <=? 102)%nat then Some (n - 87)
  else None.

Fixpoint percent_decode (s : string) : string :=
  match s with
  | EmptyString => EmptyString
  | String c s' =>
      match s' with
      | String a (String b rest) =>
          match Ascii.eqb c "%", hex_digit a, hex_digit b with
          | true, Some x, Some y =>
              String (ascii_of_nat (16 * x + y)) (percent_decode rest)
          | _, _, _ => String c (percent_decode s')
          end
      | _ => String c (percent_decode s')
      end
  end.

Record fixture := {
  fx_environ : gmap string string;
  fx_parse : string -> result (list elem);
  fx_get : request -> result response;
  fx_post : request -> result response;
  fx_grant : nat -> result (dict value);
  fx_stdin : result string
}.

Definition test_platform (fx : fixture) : Platform := {|
  environ := fx_environ fx;
  soup := list elem;
  tag := elem * list elem;
  BeautifulSoup := fx_parse fx;
  find_by_string sp name txt :=
    find_elem (fun e => String.eqb (el_name e) name
                        && str_contains txt (el_text e)) sp;
  find_by_id sp name ident :=
    find_elem (fun e => String.eqb (el_name e) name
                        && match dict_lookup "id" (el_attrs e) with
                           | Some i => String.eqb i ident
                           | None => false
                           end) sp;
  find_next_sibling t name :=
    find_elem (fun e => String.eqb (el_name e) name) (snd t);
  get_text_strip t := strip (el_text (fst t));
  tag_attr t k := dict_lookup k (el_attrs (fst t));
  unquote := percent_decode;
  json_dumps _ := "{...}";
  py_repr _ := "[...]";
  World := nat;
  requests_get req w := (fx_get fx req, w);
  requests_post req w := (fx_post fx req, w);
  acquire_token_by_username_password _ _ _ _ w := (fx_grant fx w, S w);
  acquire_token_by_authorization_code _ _ _ _ w := (fx_grant fx w, S w);
  datetime := unit;
  datetime_now w := (tt, w);
  strftime _ _ := "20240101_120000";
  isoformat _ := "2024-01-01T12:00:00";
  input _ w := (fx_stdin fx, w);
  os_denies _ := None
|}.

(** ** Vocabulary of the statements *)

(** The form [19:meeting_<opaque>], with a non-empty opaque part. *)
Definition meeting_thread_form (s : string) : Prop :=
  exists opaque, opaque <> "" /\ s = "19:meeting_" +:+ opaque.

(** The six fields of a MeetingInfo record, in the order the parser
    creates them. *)
Definition meeting_info_fields : list string :=
  [ "meeting_id"; "passcode"; "join_link"; "thread_id"; "organizer_id";
    "tenant_id" ].

(** The operations of the API client. *)
Inductive api_call :=
| GetAttendanceReport (meeting_id : value)
| GetAttendanceRecords (meeting_id report_id : value)
| ListOnlineMeetings (filter_query : option string).

Section Vocabulary.
Context `{Platform}.

Definition run_call (call : api_call) (self : GraphClient)
  : M (GraphClient * value) :=
  match call with
  | GetAttendanceReport meeting_id =>
      get_online_meeting_attendance_report self meeting_id
  | GetAttendanceRecords meeting_id report_id =>
      get_meeting_attendance_records self meeting_id report_id
  | ListOnlineMeetings filter_query =>
      list_online_meetings self filter_query
  end.

(** The requests issued between two states: what was added to [sent]. *)
Definition issued (s s' : State) : list request :=
  drop (length (sent s)) (sent s').

(** The token the authenticator of a client holds in state [s]. *)
Definition current_token (s : State) (self : GraphClient) : option value :=
  match heap s !! auth self with
  | Some a => Some (access_token a)
  | None => None
  end.

(** [keeps P m]: whatever the state, [m] leaves the heap as it is and adds
    to [sent] only requests that satisfy [P]. *)
Definition keeps (P : request -> Prop) {A} (m : M A) : Prop :=
  forall s, heap (m s).2 = heap s
            /\ exists new, sent (m s).2 = (sent s ++ new)%list /\ Forall P new.

(** [sends m]: whatever the state, [m] issues at least one request. *)
Definition sends {A} (m : M A) : Prop :=
  forall s, exists r new, sent (m s).2 = (sent s ++ r :: new)%list.

(** The client once [_refresh_headers] has read the token [tok]. *)
Definition with_token (self : GraphClient) (tok : value) : GraphClient :=
  {| auth := auth self;
     base_url := base_url self;
     headers := dict_set "Authorization" ("Bearer " +:+ py_str tok)
                  (headers self) |}.

(** A request of a client: it carries the client's headers, to an address
    under the client's base. *)
Definition from_client (self : GraphClient) (req : request) : Prop :=
  req_headers req = headers self
  /\ starts_with (base_url self) (req_url req) = true.

(** What [get_online_meeting_attendance_report] makes of the answer to its
    request for the collection of reports. *)
Definition collection_payload (answer : result response) : value :=
  match answer with
  | Ok r =>
      if Z.eqb (status_code r) 200
      then match json_body r with Some v => v | None => VNone end
      else VNone
  | Raise _ => VNone
  end.

(** What [get_meeting_attendance_records] makes of the answer to its
    request: the [value] of a 200 with a JSON dictionary, [None] for every
    other answer. *)
Definition records_payload (answer : result response) : value :=
  match answer with
  | Ok r =>
      if Z.eqb (status_code r) 200
      then match json_body r with
           | Some (VDict d) => dict_get "value" (VList []) d
           | _ => VNone
           end
      else VNone
  | Raise _ => VNone
  end.

(** What one report contributes to the merged list: the items of its
    records when the fetch gave something true, nothing otherwise. *)
Definition fetch_one (client : GraphClient) (meeting_id report : value)
  : M (GraphClient * list value) :=
  report_id <- lift (py_get report "id" VNone) ;;
  print (nl +:+ "Fetching records for report: " +:+ py_str report_id) ;;;
  cr <- get_meeting_attendance_records client meeting_id report_id ;;
  let '(client, records) := cr in
  if truthy records then
    items <- lift (py_iter records) ;;
    n <- lift (py_len records) ;;
    print ("  Found " +:+ pretty n +:+ " attendance record(s)") ;;;
    ret (client, items)
  else ret (client, []).

(** The specification's reading of the merge: the records of each report
    are fetched in turn, one list per report; the flat list is their
    concatenation. *)
Fixpoint fetch_each (client : GraphClient) (meeting_id : value)
    (reports : list value) : M (GraphClient * list (list value)) :=
  match reports with
  | [] => ret (client, [])
  | report :: rest =>
      x <- fetch_one client meeting_id report ;;
      let '(client, items) := x in
      y <- fetch_each client meeting_id rest ;;
      let '(client, per_report) := y in
      ret (client, items :: per_report)
  end.

(** A record the summary can print: a dictionary whose [identity], when it
    has one, is a dictionary whose [emailAddress], when it has one, is a
    dictionary too. *)
Definition printable_record (record : value) : bool :=
  match record with
  | VDict d =>
      match dict_get "identity" (VDict []) d with
      | VDict i =>
          match dict_get "emailAddress" (VDict []) i with
          | VDict _ => true
          | _ => false
          end
      | _ => false
      end
  | _ => false
  end.

End Vocabulary.

(** ** Fixtures for the test double *)

Definition sample_join_link : string :=
  "https://teams.microsoft.com/l/meetup-join/19%3ameeting_ABC123%40thread.v2/0?context=%7b%22Tid%22%3a%22TENANT1%22%2c%22Oid%22%3a%22ORG1%22%7d".

Definition join_anchor : elem :=
  {| el_name := "a";
     el_attrs := [ ("href", sample_join_link);
                   ("id", "meet_invite_block.action.join_link") ];
     el_text := "Join the meeting now" |}.

Definition span (t : string) : elem :=
  {| el_name := "span"; el_attrs := []; el_text := t |}.

(** The invitation template, and the same without its Meeting ID line. *)
Definition invitation : list elem :=
  [ join_anchor; span "Meeting ID: "; span "123 456 789 012 34";
    span "Passcode: "; span "EXAMPLE" ].

Definition invitation_without_meeting_id : list elem :=
  [ join_anchor; span "Passcode: "; span "EXAMPLE" ].

Definition graph_base : string := "https://graph.microsoft.com/v1.0".

Definition json_ok (v : value) : result response :=
  Ok (Response 200 "" (Some v)).

Definition attendee (name : string) : value :=
  VDict [ ("identity",
           VDict [ ("emailAddress",
                    VDict [ ("address", VStr (name +:+ "@example.test"));
                            ("name", VStr name) ]) ]);
          ("totalAttendanceInSeconds", VInt 60) ].

Definition online_meeting : value :=
  VDict [ ("id", VStr "19:meeting_ABC123") ].

Definition report_collection : value :=
  VDict [ ("value", VList [ VDict [ ("id", VStr "r1") ];
                            VDict [ ("id", VStr "r2") ] ]) ].

(** A server that does not know the meeting under its plain address,
    knows it under the quoted one, and has two reports for it: the first
    with three records, the second with none. *)
Definition graph_server (req : request) : result response :=
  let m := graph_base +:+ "/me/onlineMeetings/19:meeting_ABC123" in
  let u := req_url req in
  if String.eqb u m then Ok (Response 404 "Not Found" None)
  else if String.eqb u (graph_base +:+ "/me/onlineMeetings('19:meeting_ABC123')")
  then json_ok online_meeting
  else if String.eqb u (m +:+ "/attendanceReports") then json_ok report_collection
  else if String.eqb u (m +:+ "/attendanceReports/r1/attendanceRecords")
  then json_ok (VDict [ ("value", VList [ attendee "ann"; attendee "bob";
                                          attendee "cy" ]) ])
  else if String.eqb u (m +:+ "/attendanceReports/r2/attendanceRecords")
  then json_ok (VDict [ ("value", VList []) ])
  else if String.eqb u (graph_base +:+ "/me/onlineMeetings")
  then json_ok (VDict [ ("value", VList [ online_meeting ]) ])
  else Ok (Response 500 "Internal Server Error" None).

(** A token endpoint that answers a refresh with a new access token and no
    refresh token. *)
Definition token_server (req : request) : result response :=
  json_ok (VDict [ ("access_token", VStr "AT2"); ("expires_in", VInt 3600) ]).

(** The two emails, as HTML text, and what the parser makes of each. *)
Definition invitation_html : string :=
  "<a href='https://teams.microsoft.com/l/meetup-join/19%3ameeting_ABC123%40thread.v2/0?context=%7b%22Tid%22%3a%22TENANT1%22%2c%22Oid%22%3a%22ORG1%22%7d' id='meet_invite_block.action.join_link'>Join the meeting now</a><span>Meeting ID: </span><span>123 456 789 012 34</span><span>Passcode: </span><span>EXAMPLE</span>".

Definition invitation_without_meeting_id_html : string :=
  "<a href='https://teams.microsoft.com/l/meetup-join/19%3ameeting_ABC123%40thread.v2/0?context=%7b%22Tid%22%3a%22TENANT1%22%2c%22Oid%22%3a%22ORG1%22%7d' id='meet_invite_block.action.join_link'>Join the meeting now</a><span>Passcode: </span><span>EXAMPLE</span>".

Definition pages : dict (list elem) :=
  [ (invitation_html, invitation);
    (invitation_without_meeting_id_html, invitation_without_meeting_id) ].

(** A marked section with an unknown keyword, which [html.parser] refuses:
    BeautifulSoup raises [ParserRejectedMarkup] for it. *)
Definition rejected_markup : string := "<![foo]>".

(** The parser of the test double: it rejects [rejected_markup], knows the
    two emails, and finds no element in any other text. *)
Definition parse_pages (html : string) : result (list elem) :=
  if String.eqb html rejected_markup
  then Raise (Exn ParserRejectedMarkup
                "unknown status keyword 'foo' in marked section")
  else Ok (dict_get html [] pages).

Definition fixture_of (env : gmap string string) (token : nat -> string)
  : fixture :=
  {| fx_environ := env;
     fx_parse := parse_pages;
     fx_get := graph_server;
     fx_post := token_server;
     fx_grant := fun n => Ok [ ("access_token", VStr (token n)) ];
     fx_stdin := Ok "" |}.

(** The first steps of [process_email_html] once the email is parsed: an
    authenticator, a password grant, a client. *)
Definition connect `{Platform} : M GraphClient :=
  auth <- GraphAuth_init ;;
  access_token <- authenticate_with_password auth ;;
  GraphClient_init auth.

(** The same, followed by a second grant that replaces the token. *)
Definition connect_then_reauthenticate `{Platform} : M GraphClient :=
  client <- connect ;;
  access_token <- authenticate_with_password (auth client) ;;
  ret client.

(** The [n]-th grant returns the token [tokN]. *)
Definition numbered_token (n : nat) : string := "tok" +:+ pretty n.

Definition default_platform : Platform :=
  test_platform (fixture_of ∅ numbered_token).

(** The client and the state [connect] ends with on [default_platform]. *)
Definition connected_client : GraphClient :=
  {| auth := 0;
     base_url := "https://graph.microsoft.com/v1.0";
     headers := [ ("Authorization", "Bearer tok0");
                  ("Content-Type", "application/json") ] |}.

Definition connected_state : @State default_platform :=
  (@connect default_platform (@initial_state default_platform 0)).2.

(** What the parser returns for the invitation without its Meeting ID. *)
Definition meeting_info_without_id : dict value :=
  [ ("meeting_id", VNone);
    ("passcode", VStr "EXAMPLE");
    ("join_link", VStr sample_join_link);
    ("thread_id", VStr "19:meeting_ABC123");
    ("organizer_id", VStr "ORG1");
    ("tenant_id", VStr "TENANT1%22%2c%22Oid%22%3a%22ORG1") ].

(** A record of meeting information, for the runs of the test double. *)
Definition sample_meeting_info : dict value :=
  [ ("meeting_id", VStr "12345678901234");
    ("thread_id", VStr "19:meeting_ABC123") ].

Definition three_attendees : list value :=
  [ attendee "ann"; attendee "bob"; attendee "cy" ].

(** The same with a configured [GRAPH_API_ENDPOINT]. *)
Definition override_platform : Platform :=
  test_platform
    (fixture_of {[ "GRAPH_API_ENDPOINT" := "https://example.test/beta" ]}
       numbered_token).

(** The grant answers with an empty access token. *)
Definition empty_token_platform : Platform :=
  test_platform (fixture_of ∅ (fun _ => "")).

(** * The scripts and the entry point *)

(** ** Lines and fields *)

Definition tab_char : ascii := Eval cbv in ascii_of_nat 9.
Definition tab : string := String tab_char EmptyString.

(** [s.split(c)] for a one-character separator: the fields between the
    separators, empty ones included. *)
Fixpoint str_split (c : ascii) (s : string) : list string :=
  match s with
  | EmptyString => [EmptyString]
  | String a s' =>
      if Ascii.eqb a c then EmptyString :: str_split c s'
      else match str_split c s' with
           | field :: fields => String a field :: fields
           | [] => [String a EmptyString]
           end
  end.

(** [s.lower()] on the ASCII letters.  The characters beyond ASCII are
    left as they are: the sources only compare the result with [y], and no
    character but [Y] has [y] as its lower case. *)
Definition lower_char (a : ascii) : ascii :=
  let n := nat_of_ascii a in
  if (65 <=? n)%nat && (n <=? 90)%nat then ascii_of_nat (n + 32) else a.

Fixpoint lower (s : string) : string :=
  match s with
  | EmptyString => EmptyString
  | String a s' => String (lower_char a) (lower s')
  end.

(** [l[i]] *)
Definition list_getitem {A} (l : list A) (i : nat) : result A :=
  match l !! i with
  | Some x => Ok x
  | None => Raise (Exn IndexError "list index out of range")
  end.

(** [sep.join(items)]: every item must be a string; [i] is the index of
    the first of [items]. *)
Fixpoint str_items (i : nat) (items : list value) : result (list string) :=
  match items with
  | [] => Ok []
  | VStr s :: rest => l ← str_items (S i) rest; Ok (s :: l)
  | v :: _ =>
      Raise (Exn TypeError
               ("sequence item " +:+ pretty i +:+ ": expected str instance, "
                +:+ type_name v +:+ " found"))
  end.

Definition py_join (sep : string) (items : list value) : result string :=
  l ← str_items 0 items; Ok (join sep l).

(** [v[:n]] *)
Definition py_prefix (n : nat) (v : value) : result value :=
  match v with
  | VStr s => Ok (VStr (str_prefix n s))
  | VList l => Ok (VList (take n l))
  | VDict _ => Raise (Exn TypeError "unhashable type: 'slice'")
  | _ => Raise (Exn TypeError
                  ("'" +:+ type_name v +:+ "' object is not subscriptable"))
  end.

(** The truth value of an optional text, [None] or a string. *)
Definition opt_truthy (v : option string) : bool :=
  match v with
  | Some t => negb (String.eqb t "")
  | None => false
  end.


(** ** refresh_token.py: the search of the refresh token, and the script *)

Section RefreshScript.
Context `{Platform}.

(** The first loop of [get_refresh_token]: the first line that holds
    [refreshToken] and a tab gives the token, its second tab-separated
    field without the blanks around it. *)
Fixpoint tabbed_token (lines : list string) : result (option string) :=
  match lines with
  | [] => Ok None
  | line :: rest =>
      if str_contains "refreshToken" line && str_contains tab line then
        field ← list_getitem (str_split tab_char line) 1;
        Ok (Some (strip field))
      else tabbed_token rest
  end.

(** The inner loop of the second search: the first of [lines] that is not
    blank and does not start with [=]. *)
Fixpoint first_token_line (lines : list string) : option string :=
  match lines with
  | [] => None
  | line :: rest =>
      if negb (String.eqb (strip line) "") && negb (starts_with "=" line)
      then Some (strip line)
      else first_token_line rest
  end.

(** The second search: after each line that holds [FULL REFRESH TOKEN],
    the inner loop looks through the lines that follow it. *)
Fixpoint full_token_section (lines : list string) : option string :=
  match lines with
  | [] => None
  | line :: rest =>
      if str_contains "FULL REFRESH TOKEN" line then
        match first_token_line rest with
        | Some token => Some token
        | None => full_token_section rest
        end
      else full_token_section rest
  end.

(** The search in the text of [credentials.txt]: what the body of the
    [with] block returns, or [None] when it is left without a [return]. *)
Definition token_of_credentials (content : string) : result (option string) :=
  found ← tabbed_token (str_split nl_char content);
  match found with
  | Some token => Ok (Some token)
  | None =>
      if str_contains "FULL REFRESH TOKEN" content
      then Ok (full_token_section (str_split nl_char content))
      else Ok None
  end.

(** The exceptions that [except FileNotFoundError] catches. *)
Definition is_file_not_found (e : exn) : bool :=
  match e with
  | Exn FileNotFoundError _ => true
  | _ => false
  end.

Definition get_refresh_token : M (option string) :=
  (* First try to get from environment variable *)
  let refresh_token := environ !! "REFRESH_TOKEN" in
  if opt_truthy refresh_token then ret refresh_token
  else
    (* Fallback to reading from credentials.txt *)
    try_except
      (content <- read_file "credentials.txt" ;;
       lift (token_of_credentials content))
      (fun e => if is_file_not_found e then ret None else raise e).



End RefreshScript.

(** ** get_credentials_simple.py *)

(** The module's settings, once its start-up check has passed. *)
Record credential_settings := {
  cs_TENANT_ID : string;
  cs_CLIENT_ID : string;
  cs_CLIENT_SECRET : string;
  cs_USERNAME : string;
  cs_PASSWORD : string;
  cs_SCOPE : list string
}.

Section GetCredentialsPy.
Context `{Platform}.

(** The lines of [credentials.txt], as [main] appends them. *)
Definition credentials_lines (g : credential_settings)
    (result : dict value) (refresh_token access_token_head : value)
  : list value :=
  [ VStr long_rule;
    VStr "CREDENTIALS";
    VStr long_rule;
    VStr ("Name" +:+ tab +:+ "Value");
    VStr ("tenantId" +:+ tab +:+ cs_TENANT_ID g);
    VStr ("clientId" +:+ tab +:+ cs_CLIENT_ID g);
    VStr ("clientSecret" +:+ tab +:+ cs_CLIENT_SECRET g);
    VStr ("refreshToken" +:+ tab +:+ py_str refresh_token);
    VStr long_rule;
    VStr "";
    VStr long_rule;
    VStr "FULL REFRESH TOKEN (for easy copying):";
    VStr long_rule;
    refresh_token;
    VStr long_rule;
    VStr "";
    VStr long_rule;
    VStr "ACCESS TOKEN INFO:";
    VStr long_rule;
    VStr ("Access Token (first 50 chars): " +:+ py_str access_token_head
          +:+ "...");
    VStr ("Token Type: " +:+ py_str (dict_get "token_type" (VStr "N/A") result));
    VStr ("Expires In: " +:+ py_str (dict_get "expires_in" (VStr "N/A") result)
          +:+ " seconds");
    VStr long_rule ].

Definition credentials_main (g : credential_settings) : M Z :=
  eprint "Authenticating with Resource Owner Password Credentials Grant..." ;;;
  (* Use ConfidentialClientApplication with client secret *)
  let app :=
    MsalApp (cs_CLIENT_ID g) (cs_CLIENT_SECRET g)
      ("https://login.microsoftonline.com/" +:+ cs_TENANT_ID g) in
  (* Authenticate using username and password *)
  result <- call_world
    (acquire_token_by_username_password app (cs_USERNAME g) (cs_PASSWORD g)
       (cs_SCOPE g)) ;;
  if negb (dict_has "access_token" result) then
    let error :=
      dict_get "error_description"
        (dict_get "error" (VStr "Unknown error") result) result in
    eprint ("Failed to authenticate: " +:+ py_str error) ;;;
    eprint ("Full response: " +:+ json_dumps (VDict result)) ;;;
    ret 1%Z
  else
    (* Extract refresh token *)
    let refresh_token := dict_get "refresh_token" (VStr "") result in
    let access_token := dict_get "access_token" (VStr "") result in
    (* Prepare output *)
    access_token_head <- lift (py_prefix 50 access_token) ;;
    let output_lines :=
      credentials_lines g result refresh_token access_token_head in
    (* Print to console *)
    output_text <- lift (py_join nl output_lines) ;;
    print (nl +:+ output_text) ;;;
    (* Save to file *)
    let filename := "credentials.txt" in
    write_file filename (FText output_text) ;;;
    eprint (nl +:+ "✓ Credentials saved to: " +:+ filename) ;;;
    ret 0%Z.

(** The script from its first line.  An exception of [main] is reported
    and ends the process with status [1]. *)
Definition credentials_script : M Z :=
  let tenant_id := environ !! "TENANT_ID" in
  let client_id := environ !! "CLIENT_ID" in
  let client_secret := environ !! "CLIENT_SECRET" in
  let username := environ !! "USERNAME" in
  let password := environ !! "PASSWORD" in
  let scope := split_ws (os_getenv "SCOPE" "Calendars.Read") in
  if negb (forallb opt_truthy
             [tenant_id; client_id; client_secret; username; password]) then
    eprint "Error: Missing required environment variables." ;;;
    eprint "Please set the following in your .env file:" ;;;
    eprint "  - TENANT_ID" ;;;
    eprint "  - CLIENT_ID" ;;;
    eprint "  - CLIENT_SECRET" ;;;
    eprint "  - USERNAME" ;;;
    eprint "  - PASSWORD" ;;;
    ret 1%Z
  else
    try_except
      (credentials_main {| cs_TENANT_ID := default "" tenant_id;
                           cs_CLIENT_ID := default "" client_id;
                           cs_CLIENT_SECRET := default "" client_secret;
                           cs_USERNAME := default "" username;
                           cs_PASSWORD := default "" password;
                           cs_SCOPE := scope |})
      (fun e =>
         eprint ("Error: " +:+ exn_str e) ;;;
         eprint "Traceback (most recent call last):" ;;;
         ret 1%Z).

(** The text [main] prints and writes for a grant with an access token:
    its [output_text]. *)
Definition credentials_text (g : credential_settings) (grant : dict value)
  : result string :=
  let refresh_token := dict_get "refresh_token" (VStr "") grant in
  let access_token := dict_get "access_token" (VStr "") grant in
  access_token_head ← py_prefix 50 access_token;
  py_join nl (credentials_lines g grant refresh_token access_token_head).

End GetCredentialsPy.

(** ** setup_env.py *)

Section SetupEnvPy.
Context `{Platform}.

(** [x or dflt] for strings. *)
Definition str_or (x dflt : string) : string :=
  if String.eqb x "" then dflt else x.

Definition env_content (tenant_id client_id client_secret username password
    redirect_uri scope : string) : string :=
  "# Microsoft Azure AD Configuration" +:+ nl
  +:+ "TENANT_ID=" +:+ tenant_id +:+ nl
  +:+ "CLIENT_ID=" +:+ client_id +:+ nl
  +:+ "CLIENT_SECRET=" +:+ client_secret +:+ nl
  +:+ nl
  +:+ "# User Credentials (for Resource Owner Password Credentials Grant)" +:+ nl
  +:+ "USERNAME=" +:+ username +:+ nl
  +:+ "PASSWORD=" +:+ password +:+ nl
  +:+ nl
  +:+ "# OAuth Configuration" +:+ nl
  +:+ "REDIRECT_URI=" +:+ redirect_uri +:+ nl
  +:+ "SCOPE=" +:+ scope +:+ nl
  +:+ nl
  +:+ "# Microsoft Graph API" +:+ nl
  +:+ "GRAPH_API_ENDPOINT=https://graph.microsoft.com/v1.0" +:+ nl.

(** [input(prompt).strip()] *)
Definition ask (prompt : string) : M string :=
  line <- call_world (input prompt) ;;
  ret (strip line).

Definition create_env_file : M unit :=
  print "Microsoft Teams Attendance Extractor - Environment Setup" ;;;
  print rule ;;;
  (* Get credentials from user *)
  tenant_id <- ask "Enter TENANT_ID: " ;;
  client_id <- ask "Enter CLIENT_ID: " ;;
  client_secret <- ask "Enter CLIENT_SECRET: " ;;
  username <- ask "Enter USERNAME (email): " ;;
  password <- ask "Enter PASSWORD: " ;;
  redirect_uri <- ask "Enter REDIRECT_URI (default: https://localhost): " ;;
  let redirect_uri := str_or redirect_uri "https://localhost" in
  scope <- ask "Enter SCOPE (default: offline_access Calendars.Read): " ;;
  let scope := str_or scope "offline_access Calendars.Read" in
  (* Create .env file content *)
  let env_content :=
    env_content tenant_id client_id client_secret username password
      redirect_uri scope in
  (* Write to .env file *)
  let env_path := ".env" in
  exists_ <- path_exists env_path ;;
  proceed <-
    (if exists_ then
       overwrite <- ask (nl +:+ ".env file already exists. Overwrite? (y/n): ") ;;
       ret (String.eqb (lower overwrite) "y")
     else ret true) ;;
  if proceed then
    write_file env_path (FText env_content) ;;;
    print (nl +:+ "✓ .env file created successfully at " +:+ env_path) ;;;
    print (nl +:+ "⚠️  IMPORTANT: Make sure .env is in .gitignore and never commit it to version control!")
  else
    print "Cancelled. .env file not modified.".

End SetupEnvPy.

(** ** main.py: the entry point *)

(** The example email of [main]; [q] stands for the double quote of its
    attributes. *)
Definition example_html : string :=
  let q := String dquote EmptyString in
  "<html>
<head>
<meta http-equiv=" +:+ q +:+
  "Content-Type" +:+ q +:+
  " content=" +:+ q +:+
  "text/html; charset=utf-8" +:+ q +:+
  ">
</head>
<body>
Dear User, You have been invited to a Microsoft Teams meeting. Please join using the link below.
<br>
<div class=" +:+ q +:+
  "me-email-text" +:+ q +:+
  " lang=" +:+ q +:+
  "en-US" +:+ q +:+
  " style=" +:+ q +:+
  "max-width:1024px; color:#242424; font-family:'Segoe UI','Helvetica Neue',Helvetica,Arial,sans-serif" +:+ q +:+
  ">
<div aria-hidden=" +:+ q +:+
  "true" +:+ q +:+
  " style=" +:+ q +:+
  "margin-bottom:24px; overflow:hidden; white-space:nowrap" +:+ q +:+
  ">
________________________________________________________________________________</div>
<div style=" +:+ q +:+
  "margin-bottom:12px" +:+ q +:+
  "><span class=" +:+ q +:+
  "me-email-text" +:+ q +:+
  " style=" +:+ q +:+
  "font-size:24px; font-weight:700; margin-right:12px" +:+ q +:+
  ">Microsoft Teams</span>
<a href=" +:+ q +:+
  "https://aka.ms/JoinTeamsMeeting?omkt=en-US" +:+ q +:+
  " id=" +:+ q +:+
  "meet_invite_block.action.help" +:+ q +:+
  " class=" +:+ q +:+
  "me-email-link" +:+ q +:+
  " style=" +:+ q +:+
  "font-size:14px; text-decoration:underline; color:#5B5FC7" +:+ q +:+
  ">
Need help?</a> </div>
<div style=" +:+ q +:+
  "margin-bottom:6px" +:+ q +:+
  "><a href=" +:+ q +:+
  "https://teams.microsoft.com/l/meetup-join/19%3ameeting_EXAMPLE_MEETING_ID%40thread.v2/0?context=%7b%22Tid%22%3a%22YOUR_TENANT_ID%22%2c%22Oid%22%3a%22YOUR_ORGANIZER_ID%22%7d" +:+ q +:+
  " id=" +:+ q +:+
  "meet_invite_block.action.join_link" +:+ q +:+
  " title=" +:+ q +:+
  "Meeting join link" +:+ q +:+
  " class=" +:+ q +:+
  "me-email-headline" +:+ q +:+
  " style=" +:+ q +:+
  "font-size:20px; font-weight:600; text-decoration:underline; color:#5B5FC7" +:+ q +:+
  ">Join
 the meeting now</a> </div>
<div style=" +:+ q +:+
  "margin-bottom:6px" +:+ q +:+
  "><span class=" +:+ q +:+
  "me-email-text-secondary" +:+ q +:+
  " style=" +:+ q +:+
  "font-size:14px; color:#616161" +:+ q +:+
  ">Meeting ID:
</span><span class=" +:+ q +:+
  "me-email-text" +:+ q +:+
  " style=" +:+ q +:+
  "font-size:14px; color:#242424" +:+ q +:+
  ">123 456 789 012 34</span>
</div>
<div style=" +:+ q +:+
  "margin-bottom:32px" +:+ q +:+
  "><span class=" +:+ q +:+
  "me-email-text-secondary" +:+ q +:+
  " style=" +:+ q +:+
  "font-size:14px; color:#616161" +:+ q +:+
  ">Passcode:
</span><span class=" +:+ q +:+
  "me-email-text" +:+ q +:+
  " style=" +:+ q +:+
  "font-size:14px; color:#242424" +:+ q +:+
  ">EXAMPLE</span>
</div>
<div style=" +:+ q +:+
  "margin-bottom:12px; max-width:1024px" +:+ q +:+
  ">
<hr style=" +:+ q +:+
  "border:0; background:#616161; height:1px" +:+ q +:+
  ">
</div>
<div><span class=" +:+ q +:+
  "me-email-text-secondary" +:+ q +:+
  " style=" +:+ q +:+
  "font-size:14px; color:#616161" +:+ q +:+
  ">For organizers:
</span><a href=" +:+ q +:+
  "https://teams.microsoft.com/meetingOptions/?organizerId=YOUR_ORGANIZER_ID&amp;tenantId=YOUR_TENANT_ID&amp;threadId=19_meeting_EXAMPLE_MEETING_ID@thread.v2&amp;messageId=0&amp;language=en-US" +:+ q +:+
  " id=" +:+ q +:+
  "meet_invite_block.action.organizer_meet_options" +:+ q +:+
  " class=" +:+ q +:+
  "me-email-link" +:+ q +:+
  " style=" +:+ q +:+
  "font-size:14px; text-decoration:underline; color:#5B5FC7" +:+ q +:+
  ">Meeting
 options</a> </div>
<div style=" +:+ q +:+
  "margin-top:24px; margin-bottom:6px" +:+ q +:+
  "></div>
<div style=" +:+ q +:+
  "margin-bottom:24px" +:+ q +:+
  "></div>
<div aria-hidden=" +:+ q +:+
  "true" +:+ q +:+
  " style=" +:+ q +:+
  "margin-bottom:24px; overflow:hidden; white-space:nowrap" +:+ q +:+
  ">
________________________________________________________________________________</div>
</div>
</body>
</html>".

Section MainEntry.
Context `{Platform}.

(** The loop [while True: line = input(); html_body += line + newline],
    left by the [EOFError] of [input].  It ends when the terminal does: the
    result is [None] when [fuel] lines were read and the input has not
    ended. *)
Fixpoint read_lines (fuel : nat) (html_body : string) : M (option string) :=
  match fuel with
  | 0 => ret None
  | S fuel' => fun s =>
      match call_world (input "") s with
      | (Ok line, s') => read_lines fuel' (html_body +:+ line +:+ nl) s'
      | (Raise (Exn EOFError _), s') => (Ok (Some html_body), s')
      | (Raise e, s') => (Raise e, s')
      end
  end.

(** [main]; [None] when the fuel did not suffice to read the email. *)
Definition main (fuel : nat) : M (option unit) :=
  print "Microsoft Teams Attendance Report Extractor" ;;;
  print rule ;;;
  (* Check if user wants to use example or provide their own HTML *)
  use_example <- call_world (input (nl +:+ "Use example HTML? (y/n): ")) ;;
  let use_example := lower (strip use_example) in
  html_body <-
    (if String.eqb use_example "y" then ret (Some example_html)
     else
       print (nl +:+ "Paste the HTML email body (press Ctrl+D or Ctrl+Z when done):") ;;;
       read_lines fuel "") ;;
  match html_body with
  | None => ret None
  | Some html_body =>
      (* Choose authentication method *)
      auth_method <- call_world
        (input (nl +:+ "Authentication method:" +:+ nl
                +:+ "1. Password (Resource Owner Password Credentials)" +:+ nl
                +:+ "2. OAuth Code Flow" +:+ nl +:+ "Choice (1/2): ")) ;;
      let auth_method := strip auth_method in
      let use_password_auth := String.eqb auth_method "1" in
      (* Process the email *)
      result <- process_email_html html_body use_password_auth ;;
      (if opt_truthy result
       then print (nl +:+ "✓ Success! Report saved to: " +:+ default "" result)
       else print (nl +:+ "✗ Failed to extract attendance report")) ;;;
      ret (Some tt)
  end.

End MainEntry.

(** * Vocabulary of the further properties *)

(** [found_by p link g after]: [link] holds the literal prefix of [p], then
    [g], then the literal suffix of [p], then [after]. *)
Definition found_by (p : pattern) (link g after : string) : Prop :=
  exists before, link = before +:+ pre p +:+ g +:+ post p +:+ after.

(** A white space character stands somewhere in [s]. *)
Fixpoint has_space (s : string) : bool :=
  match s with
  | EmptyString => false
  | String _ s' => negb (space_width s =? 0)%nat || has_space s'
  end.

(** A word: a non-empty text without whitespace. *)
Definition is_word (s : string) : bool :=
  negb (String.eqb s "") && negb (has_space s).

(** What a grant that carries no access token says went wrong: its
    [error_description], else its [error], else [Unknown error]. *)
Definition grant_error (grant : dict value) : value :=
  dict_get "error_description"
    (dict_get "error" (VStr "Unknown error") grant) grant.

(** The outcome of an authentication on the object [a] at [self], by the
    answer of the token call: the exception of the call and a grant without
    an access token are both raised again under [prefix]; a grant with an
    access token is stored in the object. *)
Definition auth_outcome `{Platform} (self : nat) (a : GraphAuth)
    (prefix : string) (s : State) (answer : result (dict value) * World)
  : result value * State :=
  match answer with
  | (Raise e, w) =>
      (Raise (Exn Exception_ (prefix +:+ exn_str e)), set_world w s)
  | (Ok grant, w) =>
      match dict_lookup "access_token" grant with
      | Some tok =>
          (Ok tok,
           set_heap (<[self := {| config := config a; app := app a;
                                  access_token := tok |}]> (heap s))
             (set_world w s))
      | None =>
          (Raise (Exn Exception_
                    (prefix +:+ "Authentication failed: "
                     +:+ py_str (grant_error grant))),
           set_world w s)
      end
  end.

(** The query parameters [list_online_meetings] sends: [$filter] when a
    non-empty filter was given, none otherwise. *)
Definition filter_params (filter_query : option string) : dict string :=
  match filter_query with
  | Some q => if String.eqb q "" then [] else [("$filter", q)]
  | None => []
  end.

(** An answer of the token endpoint that grants nothing: an exception, or
    a grant without [access_token]. *)
Definition rejected (answer : result (dict value)) : Prop :=
  forall grant, answer = Ok grant -> dict_lookup "access_token" grant = None.

(** The report [save_attendance_report] writes. *)
Definition saved_report (meeting_info attendance_data : dict value)
    (extracted_at : string) : file_content :=
  FJson (VDict [ ("meeting_info", VDict meeting_info);
                 ("attendance_data", VDict attendance_data);
                 ("extracted_at", VStr extracted_at) ]).

(** The name [save_attendance_report] gives the report of the Meeting ID
    [m] at the time stamp [stamp]. *)
Definition report_path (output_dir m stamp : string) : string :=
  output_dir +:+ "/attendance_" +:+ replace_char " " "_" m +:+ "_" +:+ stamp
  +:+ ".json".

Section Effects.
Context `{Platform}.

(** The parts of the state that only requests, objects, files and the
    standard output can change. *)
Definition same_effects (s s' : State) : Prop :=
  sent s' = sent s /\ heap s' = heap s /\ files s' = files s
  /\ stdout s' = stdout s /\ dirs s' = dirs s.

End Effects.

(** A text on one line: neither a line feed nor a carriage return. *)
Definition one_line (s : string) : bool :=
  negb (has_char nl_char s) && negb (has_char cr_char s).

(** The request [refresh_access_token] posts to the token endpoint. *)
Definition refresh_request (g : refresh_settings) (refresh_token : string)
  : request :=
  Request "POST" (token_url g)
    [ ("Content-Type", "application/x-www-form-urlencoded") ] []
    [ ("grant_type", "refresh_token");
      ("client_id", rt_CLIENT_ID g);
      ("client_secret", rt_CLIENT_SECRET g);
      ("refresh_token", refresh_token);
      ("scope", rt_SCOPE g) ].

(** The text of [access_token.txt] after a refresh answered with the
    dictionary [d]. *)
Definition access_token_text `{Platform} (refresh_token : string)
    (d : dict value) : string :=
  "Bearer Token: " +:+ py_str (dict_get "access_token" VNone d) +:+ nl
  +:+ "Token Type: " +:+ py_str (dict_get "token_type" (VStr "Bearer") d) +:+ nl
  +:+ "Expires In: " +:+ py_str (dict_get "expires_in" VNone d)
  +:+ " seconds" +:+ nl
  +:+ nl +:+ "Refresh Token: "
  +:+ py_str (dict_get "refresh_token" (VStr refresh_token) d) +:+ nl.

Section RefreshVocabulary.
Context `{Platform}.

(** What a refresh that was granted prints on the standard output. *)
Definition success_lines (refresh_token : string) (d : dict value)
  : list string :=
  ([ long_rule; "SUCCESS - NEW ACCESS TOKEN OBTAINED"; long_rule;
     nl +:+ "Bearer Token: " +:+ py_str (dict_get "access_token" VNone d);
     nl +:+ "Token Type: "
     +:+ py_str (dict_get "token_type" (VStr "Bearer") d);
     "Expires In: " +:+ py_str (dict_get "expires_in" (VStr "N/A") d)
     +:+ " seconds" ]
   ++ if dict_has "refresh_token" d
      then [ nl +:+ "New Refresh Token: "
             +:+ py_str (dict_get "refresh_token" (VStr refresh_token) d) ]
      else [])%list.

(** The dictionary an answer of the token endpoint grants a token with: a
    JSON object with an [access_token], under a status that is no error. *)
Definition granted_by (answer : result response) : option (dict value) :=
  match answer with
  | Ok resp =>
      match raise_for_status resp, json_body resp with
      | Ok _, Some (VDict d) =>
          if dict_has "access_token" d then Some d else None
      | _, _ => None
      end
  | Raise _ => None
  end.

(** The handler of [refresh_access_token]. *)
Definition refresh_handler (e : exn) : M value :=
  match e with
  | HTTPError msg resp =>
      eprint ("HTTP Error: " +:+ msg) ;;;
      (match response_json resp with
       | Ok error_detail =>
           eprint ("Error details: " +:+ json_dumps error_detail)
       | Raise _ => eprint ("Response text: " +:+ text resp)
       end) ;;;
      ret VNone
  | _ =>
      eprint ("Error: " +:+ exn_str e) ;;;
      eprint "Traceback (most recent call last):" ;;;
      ret VNone
  end.

End RefreshVocabulary.

(** [answers w dialogue w']: from the world [w], the terminal answers each
    prompt of the dialogue with the line beside it, and the world is then
    [w']. *)
Fixpoint answers `{Platform} (w : World) (dialogue : list (string * string))
    (w' : World) : Prop :=
  match dialogue with
  | [] => w' = w
  | (prompt, line) :: rest =>
      exists w1, input prompt w = (Ok line, w1) /\ answers w1 rest w'
  end.

Section MainEntryVocabulary.
Context `{Platform}.

(** The text [main] has read once the terminal has given [lines]. *)
Definition pasted (lines : list string) : string :=
  fold_left (fun html_body line => html_body +:+ line +:+ nl) lines "".

(** The terminal gives [lines], one for each [input()], and the world is
    then [w']. *)
Fixpoint delivers (w : World) (lines : list string) (w' : World) : Prop :=
  match lines with
  | [] => w' = w
  | line :: rest =>
      exists w1, input "" w = (Ok line, w1) /\ delivers w1 rest w'
  end.

End MainEntryVocabulary.

(** The value the summary calls [get] on in vain for a record: the
    record, its [identity] or the [emailAddress] of its identity, the
    first of them that is not a dictionary. *)
Definition unprintable_part (record : value) : option value :=
  match record with
  | VDict d =>
      match dict_get "identity" (VDict []) d with
      | VDict i =>
          match dict_get "emailAddress" (VDict []) i with
          | VDict _ => None
          | v => Some v
          end
      | v => Some v
      end
  | v => Some v
  end.

(** The same for the first record that has one. *)
Fixpoint first_unprintable (records : list value) : option value :=
  match records with
  | [] => None
  | record :: rest =>
      match unprintable_part record with
      | Some v => Some v
      | None => first_unprintable rest
      end
  end.

(** * Further test doubles *)

(** A token endpoint that rejects every grant. *)
Definition rejecting_platform : Platform :=
  test_platform
    {| fx_environ := ∅;
       fx_parse := parse_pages;
       fx_get := graph_server;
       fx_post := token_server;
       fx_grant := fun _ => Ok [ ("error", VStr "invalid_grant");
                                 ("error_description", VStr "AADSTS50126") ];
       fx_stdin := Ok "" |}.

(** ** A test double with a terminal

    The same servers and documents as [test_platform]; the terminal gives
    the items of a script, one for each [input]: a line, or the end of the
    input ([None], as Ctrl+D at a terminal), which raises [EOFError].  Once
    the script is over every [input] raises [EOFError]. *)

Definition console_platform (fx : fixture) : Platform := {|
  environ := fx_environ fx;
  soup := list elem;
  tag := elem * list elem;
  BeautifulSoup := fx_parse fx;
  find_by_string sp name txt :=
    find_elem (fun e => String.eqb (el_name e) name
                        && str_contains txt (el_text e)) sp;
  find_by_id sp name ident :=
    find_elem (fun e => String.eqb (el_name e) name
                        && match dict_lookup "id" (el_attrs e) with
                           | Some i => String.eqb i ident
                           | None => false
                           end) sp;
  find_next_sibling t name :=
    find_elem (fun e => String.eqb (el_name e) name) (snd t);
  get_text_strip t := strip (el_text (fst t));
  tag_attr t k := dict_lookup k (el_attrs (fst t));
  unquote := percent_decode;
  json_dumps _ := "{...}";
  py_repr _ := "[...]";
  World := nat * list (option string);
  requests_get req w := (fx_get fx req, w);
  requests_post req w := (fx_post fx req, w);
  acquire_token_by_username_password _ _ _ _ w :=
    (fx_grant fx (fst w), (S (fst w), snd w));
  acquire_token_by_authorization_code _ _ _ _ w :=
    (fx_grant fx (fst w), (S (fst w), snd w));
  datetime := unit;
  datetime_now w := (tt, w);
  strftime _ _ := "20240101_120000";
  isoformat _ := "2024-01-01T12:00:00";
  input _ w :=
    match snd w with
    | Some line :: rest => (Ok line, (fst w, rest))
    | None :: rest =>
        (Raise (Exn EOFError "EOF when reading a line"), (fst w, rest))
    | [] => (Raise (Exn EOFError "EOF when reading a line"), w)
    end;
  os_denies _ := None
|}.

(** The settings of the scripts, and a token endpoint that grants an
    access token and a refresh token. *)
Definition script_environ : gmap string string :=
  {[ "TENANT_ID" := "tenant-1"; "CLIENT_ID" := "client-1";
     "CLIENT_SECRET" := "secret-1"; "USERNAME" := "ann@example.test";
     "PASSWORD" := "pw-1" ]}.

Definition script_fixture (env : gmap string string) : fixture :=
  {| fx_environ := env;
     fx_parse := parse_pages;
     fx_get := graph_server;
     fx_post := token_server;
     fx_grant := fun _ => Ok [ ("access_token", VStr "AT1");
                               ("refresh_token", VStr "RT1") ];
     fx_stdin := Ok "" |}.

Definition script_platform : Platform :=
  console_platform (script_fixture script_environ).

Definition script_settings : credential_settings :=
  {| cs_TENANT_ID := "tenant-1"; cs_CLIENT_ID := "client-1";
     cs_CLIENT_SECRET := "secret-1"; cs_USERNAME := "ann@example.test";
     cs_PASSWORD := "pw-1"; cs_SCOPE := ["Calendars.Read"] |}.

(** The same with a client secret that holds the text [refreshToken]. *)
Definition unlucky_settings : credential_settings :=
  {| cs_TENANT_ID := "tenant-1"; cs_CLIENT_ID := "client-1";
     cs_CLIENT_SECRET := "my-refreshToken-secret";
     cs_USERNAME := "ann@example.test";
     cs_PASSWORD := "pw-1"; cs_SCOPE := ["Calendars.Read"] |}.

(** What is typed at the prompts of [setup_env.py]. *)
Definition setup_answers : list (option string) :=
  [ Some " tenant-1 "; Some "client-1"; Some "secret-1";
    Some "ann@example.test"; Some "pw-1"; Some ""; Some ""; Some "N" ].

(** What is typed at the prompts of [main]: no example, two lines of
    email, and the password grant. *)
Definition main_answers : list (option string) :=
  [ Some "n"; Some "<p>"; Some "</p>"; None; Some " 1 " ].

(** What the parser returns for the invitation of the test double. *)
Definition invitation_info : dict value :=
  [ ("meeting_id", VStr "12345678901234");
    ("passcode", VStr "EXAMPLE");
    ("join_link", VStr sample_join_link);
    ("thread_id", VStr "19:meeting_ABC123");
    ("organizer_id", VStr "ORG1");
    ("tenant_id", VStr "TENANT1%22%2c%22Oid%22%3a%22ORG1") ].

(** The scripts' platform with a refresh token in the environment. *)
Definition refresh_platform : Platform :=
  console_platform
    (script_fixture (<["REFRESH_TOKEN" := "RT0"]> script_environ)).

(** The terminal of the test double, with what is typed in [script]. *)
Definition console_state (fx : fixture) (script : list (option string))
    (existing : dict file_content) : @State (console_platform fx) :=
  {| world := ((0, script) : @World (console_platform fx));
     heap := []; sent := []; stdout := []; stderr := []; dirs := [];
     files := existing |}.

Definition script_state (script : list (option string))
    (existing : dict file_content) : @State script_platform :=
  console_state (script_fixture script_environ) script existing.

Definition refresh_state : @State refresh_platform :=
  console_state (script_fixture (<["REFRESH_TOKEN" := "RT0"]> script_environ))
    [] [].

(** ** Records without an address

    An attendee whose [emailAddress] is [null], and a server that has one
    among the records of the first report. *)
Definition anonymous_record : value :=
  VDict [ ("identity", VDict [ ("emailAddress", VNone) ]);
          ("totalAttendanceInSeconds", VInt 60) ].

Definition anonymous_server (req : request) : result response :=
  if String.eqb (req_url req)
       (graph_base +:+ "/me/onlineMeetings/19:meeting_ABC123"
        +:+ "/attendanceReports/r1/attendanceRecords")
  then json_ok (VDict [ ("value", VList [ attendee "ann"; anonymous_record ]) ])
  else graph_server req.

Definition anonymous_platform : Platform :=
  test_platform
    {| fx_environ := ∅;
       fx_parse := parse_pages;
       fx_get := anonymous_server;
       fx_post := token_server;
       fx_grant := fun n => Ok [ ("access_token", VStr (numbered_token n)) ];
       fx_stdin := Ok "" |}.


(** * Properties *)

(** ** Strings and patterns *)

Lemma span_not_le_length (c : ascii) (s : string) :
  span_not c s <= String.length s.
Proof.
  induction s as [|a s IH]; simpl; [lia|].
  destruct (Ascii.eqb a c); simpl; lia.
Qed.

Lemma str_take_nonempty (j : nat) (s : string) :
  0 < j -> j <= String.length s -> str_take j s <> "".
Proof.
  destruct j as [|j]; [lia|].
  destruct s as [|a s]; simpl; [lia|discriminate].
Qed.

Lemma backtrack_inv (suffix s : string) (k : nat) (g : string) :
  backtrack suffix s k = Some g ->
  exists j, 0 < j /\ j <= k /\ g = str_take j s.
Proof.
  induction k as [|k IH]; simpl; [discriminate|].
  destruct (starts_with suffix _).
  - intros [= <-]. exists (S k). repeat split; lia.
  - intros Hk. destruct (IH Hk) as (j & ? & ? & ?).
    exists j. repeat split; auto; lia.
Qed.

Lemma strip_prefix_app (p s : string) :
  strip_prefix p (p +:+ s) = Some s.
Proof.
  induction p as [|a p IH]; simpl; [reflexivity|].
  rewrite Ascii.eqb_refl. exact IH.
Qed.

(** The capture group of a match is never empty. *)
Lemma match_here_nonempty (p : pattern) (s g : string) :
  match_here p s = Some g -> g <> "".
Proof.
  unfold match_here. destruct (strip_prefix (pre p) s) as [rest|]; [|discriminate].
  intros Hb. destruct (backtrack_inv _ _ _ _ Hb) as (j & Hj & Hk & ->).
  apply str_take_nonempty; [exact Hj|].
  pose proof (span_not_le_length (excl p) rest). lia.
Qed.

Lemma re_search_nonempty (p : pattern) (s g : string) :
  re_search p s = Some g -> g <> "".
Proof.
  induction s as [|a s IH]; simpl.
  - destruct (match_here p "") eqn:E; [|discriminate].
    intros [= <-]. eapply match_here_nonempty; eauto.
  - destruct (match_here p (String a s)) eqn:E.
    + intros [= <-]. eapply match_here_nonempty; eauto.
    + exact IH.
Qed.

(** ** Dictionaries *)

Lemma dict_lookup_set_eq {V} (k : string) (v : V) (d : dict V) :
  dict_lookup k (dict_set k v d) = Some v.
Proof.
  induction d as [|[k' v'] d IH]; simpl.
  - by rewrite String.eqb_refl.
  - destruct (String.eqb k' k) eqn:E; simpl.
    + by rewrite String.eqb_refl.
    + by rewrite E.
Qed.

(** ** email_parser.py *)

Section EmailParserFacts.
Context `{Platform}.

(** What [extract_meeting_info] computes once the join link is known: the
    three searches fill their fields, or leave them as they are. *)
Lemma join_link_fields (mi : dict value) (link : string) :
  (join_link ← dict_getitem "join_link" (dict_set "join_link" (VStr link) mi);
   thread_match ← re_search_value thread_pattern join_link;
   context_match ←
     re_search_value context_pattern join_link;
   oid_match ← re_search_value oid_pattern join_link;
   mret
     (set_if_match "organizer_id" id oid_match
        (set_if_match "tenant_id" id context_match
           (set_if_match "thread_id" (fun g => "19:meeting_" +:+ g)
              thread_match (dict_set "join_link" (VStr link) mi)))))
  = Ok (set_if_match "organizer_id" id (re_search oid_pattern link)
          (set_if_match "tenant_id" id (re_search context_pattern link)
             (set_if_match "thread_id" (fun g => "19:meeting_" +:+ g)
                (re_search thread_pattern link)
                (dict_set "join_link" (VStr link) mi)))).
Proof.
  unfold dict_getitem. rewrite dict_lookup_set_eq. reflexivity.
Qed.

Lemma extract_meeting_info_eq (html_body : string) :
  extract_meeting_info html_body =
  sp ← BeautifulSoup html_body;
  let mi0 :=
    match labelled_text sp "Meeting ID:" with
    | Some t => dict_set "meeting_id" (VStr (replace_char " " "" t)) empty_meeting_info
    | None => empty_meeting_info
    end in
  let mi1 :=
    match labelled_text sp "Passcode:" with
    | Some t => dict_set "passcode" (VStr t) mi0
    | None => mi0
    end in
  match find_by_id sp "a" "meet_invite_block.action.join_link" with
  | Some a =>
      let link := default "" (tag_attr a "href") in
      Ok (set_if_match "organizer_id" id (re_search oid_pattern link)
            (set_if_match "tenant_id" id (re_search context_pattern link)
               (set_if_match "thread_id" (fun g => "19:meeting_" +:+ g)
                  (re_search thread_pattern link)
                  (dict_set "join_link" (VStr link) mi1))))
  | None => Ok mi1
  end.
Proof.
  unfold extract_meeting_info. cbv zeta.
  destruct (BeautifulSoup html_body) as [sp|e]; [|reflexivity].
  cbn [mbind result_bind].
  destruct (find_by_id _ _ _); [|reflexivity].
  apply join_link_fields.
Qed.

(** The exception of a parser that rejects the markup is the exception of
    [extract_meeting_info]: the call stands outside any handler. *)
Lemma extract_meeting_info_rejected (html_body : string) (e : exn) :
  BeautifulSoup html_body = Raise e ->
  extract_meeting_info html_body = Raise e.
Proof. intros He. unfold extract_meeting_info. by rewrite He. Qed.

(** A record is returned only for a document the parser has returned. *)
Lemma extract_meeting_info_parsed (html_body : string) (mi : dict value) :
  extract_meeting_info html_body = Ok mi ->
  exists sp, BeautifulSoup html_body = Ok sp.
Proof.
  unfold extract_meeting_info.
  destruct (BeautifulSoup html_body) as [sp|e]; [eauto|discriminate].
Qed.

End EmailParserFacts.

Section EmailParserClaims.
Context `{Platform}.

Ltac parser_cases :=
  rewrite extract_meeting_info_eq; cbv zeta;
  match goal with
  | Hsoup : BeautifulSoup _ = Ok _ |- _ => rewrite Hsoup
  end;
  cbn [mbind result_bind];
  destruct (labelled_text _ "Meeting ID:") as [?t|] eqn:?Hmid;
  destruct (labelled_text _ "Passcode:") as [?t|] eqn:?Hpass;
  destruct (find_by_id _ _ _) as [?a|] eqn:?Hjoin.

(** What holds of C7: for every HTML text the parser accepts,
    [extract_meeting_info] returns (it raises no exception) a dictionary
    with exactly the six fields; a field whose element or pattern is absent
    is [None]: the Meeting ID and the passcode when their label or the span
    after it is missing, the four link fields when the join anchor is
    missing, and each of the three identifiers when its pattern does not
    occur in the join link.  With the anchor present, [join_link] is its
    [href], or the empty string when it has none. *)
Lemma extract_meeting_info_best_effort (html_body : string) (sp : soup) :
  BeautifulSoup html_body = Ok sp ->
  exists mi,
    extract_meeting_info html_body = Ok mi
    /\ keys mi = meeting_info_fields
    /\ (labelled_text sp "Meeting ID:" = None ->
        dict_lookup "meeting_id" mi = Some VNone)
    /\ (labelled_text sp "Passcode:" = None ->
        dict_lookup "passcode" mi = Some VNone)
    /\ (find_by_id sp "a" "meet_invite_block.action.join_link" = None ->
        Forall (fun k => dict_lookup k mi = Some VNone)
          [ "join_link"; "thread_id"; "organizer_id"; "tenant_id" ])
    /\ (forall a, find_by_id sp "a" "meet_invite_block.action.join_link"
                  = Some a ->
        dict_lookup "join_link" mi
        = Some (VStr (default "" (tag_attr a "href"))))
    /\ (forall link, dict_lookup "join_link" mi = Some (VStr link) ->
        (re_search thread_pattern link = None ->
         dict_lookup "thread_id" mi = Some VNone)
        /\ (re_search context_pattern link = None ->
            dict_lookup "tenant_id" mi = Some VNone)
        /\ (re_search oid_pattern link = None ->
            dict_lookup "organizer_id" mi = Some VNone)).
Proof.
  intros Hsoup.
  parser_cases;
    try (set (link := default "" (tag_attr a "href"));
         destruct (re_search oid_pattern link) eqn:Hoid;
         destruct (re_search context_pattern link) eqn:Hctx;
         destruct (re_search thread_pattern link) eqn:Hthr);
    (eexists; split; [reflexivity|]);
    (split; [reflexivity|]);
    (split; [try discriminate; intros _; reflexivity|]);
    (split; [try discriminate; intros _; reflexivity|]);
    (split; [try discriminate; intros _; repeat constructor|]);
    (split; [try discriminate; intros ? [= <-]; reflexivity|]);
    try (intros l; cbn; intros [= <-];
         repeat split; first [ reflexivity | congruence ]);
    try (intros l; cbn; discriminate).
Qed.

(** C8. The [thread_id] of the dictionary [extract_meeting_info] returns is
    [None] or a string [19:meeting_<opaque>] with a non-empty opaque part,
    and so is every result of [extract_meeting_id_from_url].  A dictionary
    is returned for every text the parser accepts, and never without the
    field. *)
Theorem thread_id_form (html_body join_url : string) :
  (forall mi,
      extract_meeting_info html_body = Ok mi ->
      exists v,
        dict_lookup "thread_id" mi = Some v
        /\ (v = VNone \/ exists t, v = VStr t /\ meeting_thread_form t))
  /\ (forall sp, BeautifulSoup html_body = Ok sp ->
      exists mi, extract_meeting_info html_body = Ok mi)
  /\ (extract_meeting_id_from_url join_url = None
      \/ exists t, extract_meeting_id_from_url join_url = Some t
                   /\ meeting_thread_form t).
Proof.
  split; [|split].
  - intros mi Hmi.
    destruct (extract_meeting_info_parsed _ _ Hmi) as [sp Hsoup].
    revert Hmi.
    parser_cases;
      try (set (link := default "" (tag_attr a "href"));
           destruct (re_search oid_pattern link) eqn:Hoid;
           destruct (re_search context_pattern link) eqn:Hctx;
           destruct (re_search thread_pattern link) as [g|] eqn:Hthr);
      intros [= <-];
      (eexists; split; [reflexivity|]);
      first [ left; reflexivity
            | right; eexists; split; [reflexivity|];
              exists g; split; [eapply re_search_nonempty; eauto | reflexivity] ].
  - intros sp Hsoup.
    destruct (extract_meeting_info_best_effort _ _ Hsoup) as (mi & Hmi & _).
    eauto.
  - unfold extract_meeting_id_from_url.
    destruct (re_search decoded_pattern (unquote join_url)) as [g|] eqn:Hg.
    + right. eexists; split; [reflexivity|].
      exists g; split; [eapply re_search_nonempty; eauto | reflexivity].
    + left; reflexivity.
Qed.

(** C1 (what the code does at the sample link).  When the join anchor
    carries the sample link, with the fragment
    [19%3ameeting_ABC123%40thread.v2] and the context [Tid=TENANT1],
    [Oid=ORG1], the thread and the organizer come out as expected, but the
    tenant comes out as [TENANT1%22%2c%22Oid%22%3a%22ORG1]: the link is
    still percent-encoded, so the group of the tenant pattern, which stops
    at a double quote only, also runs over [%22] and ends at the last one. *)
Theorem sample_link_extraction (html_body : string) (sp : soup) (a : tag) :
  BeautifulSoup html_body = Ok sp ->
  find_by_id sp "a" "meet_invite_block.action.join_link" = Some a ->
  tag_attr a "href" = Some sample_join_link ->
  exists mi,
    extract_meeting_info html_body = Ok mi
    /\ dict_lookup "thread_id" mi = Some (VStr "19:meeting_ABC123")
    /\ dict_lookup "organizer_id" mi = Some (VStr "ORG1")
    /\ dict_lookup "tenant_id" mi
       = Some (VStr "TENANT1%22%2c%22Oid%22%3a%22ORG1")
    /\ dict_lookup "tenant_id" mi <> Some (VStr "TENANT1").
Proof.
  intros Hsoup Hjoin Hhref. rewrite extract_meeting_info_eq. cbv zeta.
  rewrite Hsoup. cbn [mbind result_bind].
  rewrite Hjoin, Hhref. cbn [default from_option].
  replace (re_search oid_pattern sample_join_link) with (Some "ORG1")
    by (vm_compute; reflexivity).
  replace (re_search context_pattern sample_join_link)
    with (Some "TENANT1%22%2c%22Oid%22%3a%22ORG1") by (vm_compute; reflexivity).
  replace (re_search thread_pattern sample_join_link) with (Some "ABC123")
    by (vm_compute; reflexivity).
  eexists; split; [reflexivity|].
  destruct (labelled_text _ "Meeting ID:"), (labelled_text _ "Passcode:");
    repeat split; try reflexivity; cbn; discriminate.
Qed.

End EmailParserClaims.

Section ParserOnTestDouble.
#[local] Existing Instance default_platform.

(** C1, witness: the invitation of the test double carries the sample
    link. *)
Lemma sample_link_extraction_witness :
  exists mi,
    extract_meeting_info invitation_html = Ok mi
    /\ dict_lookup "thread_id" mi = Some (VStr "19:meeting_ABC123")
    /\ dict_lookup "organizer_id" mi = Some (VStr "ORG1")
    /\ dict_lookup "tenant_id" mi
       = Some (VStr "TENANT1%22%2c%22Oid%22%3a%22ORG1")
    /\ dict_lookup "tenant_id" mi <> Some (VStr "TENANT1").
Proof.
  apply (sample_link_extraction invitation_html
           (invitation : @soup default_platform)
           ((join_anchor, tail invitation) : @tag default_platform));
    reflexivity.
Defined.

(** The invitation without its Meeting ID line gives the six fields, with
    [None] for the Meeting ID. *)
Example invitation_without_meeting_id_fields :
  exists mi,
    extract_meeting_info invitation_without_meeting_id_html = Ok mi
    /\ keys mi = meeting_info_fields
    /\ dict_lookup "meeting_id" mi = Some VNone.
Proof.
  destruct (extract_meeting_info_best_effort
              invitation_without_meeting_id_html
              (invitation_without_meeting_id : @soup default_platform)
              eq_refl)
    as (mi & He & Hk & Hm & _).
  exists mi. split; [exact He|]. split; [exact Hk|].
  apply Hm. reflexivity.
Qed.

(** The thread of the sample link is found, in the encoded link by the
    parser and in the decoded link by [extract_meeting_id_from_url]. *)
Example thread_id_of_sample_link :
  re_search thread_pattern sample_join_link = Some "ABC123"
  /\ extract_meeting_id_from_url sample_join_link
     = Some "19:meeting_ABC123".
Proof. split; reflexivity. Qed.

End ParserOnTestDouble.

(** ** The monad of effects *)

Section MonadFacts.
Context `{Platform}.

Lemma world_log_request (r : request) (s : State) :
  world (log_request r s) = world s.
Proof. reflexivity. Qed.

Lemma world_set_world (w : World) (s : State) : world (set_world w s) = w.
Proof. reflexivity. Qed.

Lemma pair_from_fst {A B} (p : A * B) (a : A) : p.1 = a -> p = (a, p.2).
Proof. destruct p. simpl. by intros ->. Qed.

Lemma bind_ok {A B} (m : M A) (k : A -> M B) (s s' : State) (a : A) :
  m s = (Ok a, s') -> bind m k s = k a s'.
Proof. unfold bind. by intros ->. Qed.

Lemma bind_raise {A B} (m : M A) (k : A -> M B) (s s' : State) (e : exn) :
  m s = (Raise e, s') -> bind m k s = (Raise e, s').
Proof. unfold bind. by intros ->. Qed.

(** A computation that ends well went through each of its two halves. *)
Lemma bind_inv_ok {A B} (m : M A) (k : A -> M B) (s s' : State) (b : B) :
  bind m k s = (Ok b, s') ->
  exists a s1, m s = (Ok a, s1) /\ k a s1 = (Ok b, s').
Proof.
  unfold bind. destruct (m s) as [[a|e] s1]; [|discriminate].
  intros Hk. by exists a, s1.
Qed.

Lemma keeps_ret P {A} (a : A) : keeps P (ret a).
Proof. intros s; split; [reflexivity|]. exists []. by rewrite app_nil_r. Qed.

Lemma keeps_raise P {A} (e : exn) : keeps P (@raise _ A e).
Proof. intros s; split; [reflexivity|]. exists []. by rewrite app_nil_r. Qed.

Lemma keeps_lift P {A} (r : result A) : keeps P (lift r).
Proof. intros s; split; [reflexivity|]. exists []. by rewrite app_nil_r. Qed.

Lemma keeps_print P (line : string) : keeps P (print line).
Proof. intros s; split; [reflexivity|]. exists []. by rewrite app_nil_r. Qed.

Lemma keeps_bind P {A B} (m : M A) (k : A -> M B) :
  keeps P m -> (forall a, keeps P (k a)) -> keeps P (bind m k).
Proof.
  intros Hm Hk s. destruct (Hm s) as (Hh & new & Hs & HP).
  unfold bind. destruct (m s) as [[a|e] s1]; simpl in *.
  - destruct (Hk a s1) as (Hh' & new' & Hs' & HP').
    split; [congruence|]. exists (new ++ new')%list.
    rewrite Hs', Hs, app_assoc. split; [reflexivity|].
    by apply Forall_app.
  - split; [exact Hh|]. by exists new.
Qed.

Lemma keeps_try P {A} (m : M A) (h : exn -> M A) :
  keeps P m -> (forall e, keeps P (h e)) -> keeps P (try_except m h).
Proof.
  intros Hm Hh s. destruct (Hm s) as (Hp & new & Hs & HP).
  unfold try_except. destruct (m s) as [[a|e] s1]; simpl in *.
  - split; [exact Hp|]. by exists new.
  - destruct (Hh e s1) as (Hp' & new' & Hs' & HP').
    split; [congruence|]. exists (new ++ new')%list.
    rewrite Hs', Hs, app_assoc. split; [reflexivity|].
    by apply Forall_app.
Qed.

Lemma keeps_http_get (P : request -> Prop) (url : string)
    (hdrs params : dict string) :
  P (Request "GET" url hdrs params []) -> keeps P (http_get url hdrs params).
Proof.
  intros HP s. unfold http_get, call_world. simpl.
  destruct (requests_get _ _) as [r w]. simpl.
  split; [reflexivity|]. eexists; split; [reflexivity|]. by constructor.
Qed.

End MonadFacts.

Section MonadMore.
Context `{Platform}.

Lemma same_effects_refl (s : State) : same_effects s s.
Proof. by repeat split. Qed.

Lemma same_effects_trans (s1 s2 s3 : State) :
  same_effects s1 s2 -> same_effects s2 s3 -> same_effects s1 s3.
Proof.
  intros (? & ? & ? & ? & ?) (? & ? & ? & ? & ?). repeat split; congruence.
Qed.

Lemma same_effects_eprint (line : string) (s : State) :
  same_effects s (eprint line s).2.
Proof. by repeat split. Qed.

Lemma same_effects_set_world (w : World) (s : State) :
  same_effects s (set_world w s).
Proof. by repeat split. Qed.

Lemma world_eprint (line : string) (s : State) :
  world (eprint line s).2 = world s.
Proof. reflexivity. Qed.

Lemma bind_lift {A B} (r : result A) (k : A -> M B) (s : State) :
  bind (lift r) k s
  = match r with Ok a => k a s | Raise e => (Raise e, s) end.
Proof. by destruct r. Qed.

Lemma bind_http_post {B} (url : string) (data hdrs : dict string)
    (k : response -> M B) (s : State) :
  bind (http_post url data hdrs) k s
  = match requests_post (Request "POST" url hdrs [] data) (world s) with
    | (Ok r, w) =>
        k r (set_world w (log_request (Request "POST" url hdrs [] data) s))
    | (Raise e, w) =>
        (Raise e,
         set_world w (log_request (Request "POST" url hdrs [] data) s))
    end.
Proof.
  unfold bind, http_post, call_world. rewrite world_log_request.
  by destruct (requests_post _ _) as [[r|e] w].
Qed.

Lemma try_except_eq {A} (m : M A) (h : exn -> M A) (s : State) :
  try_except m h s
  = match m s with
    | (Ok a, s') => (Ok a, s')
    | (Raise e, s') => h e s'
    end.
Proof. reflexivity. Qed.

Lemma try_except_raise {A} (m : M A) (h : exn -> M A) (s s' : State)
    (e : exn) :
  m s = (Raise e, s') -> try_except m h s = h e s'.
Proof. unfold try_except. by intros ->. Qed.

Lemma bind_ret {A B} (a : A) (k : A -> M B) (s : State) :
  bind (ret a) k s = k a s.
Proof. reflexivity. Qed.

Lemma bind_call_world {A B} (f : World -> result A * World) (k : A -> M B)
    (s : State) :
  bind (call_world f) k s
  = match f (world s) with
    | (Ok a, w) => k a (set_world w s)
    | (Raise e, w) => (Raise e, set_world w s)
    end.
Proof. unfold bind, call_world. by destruct (f (world s)) as [[a|e] w]. Qed.

Lemma world_printed (lines : list string) (s : State) :
  world (printed lines s) = world s.
Proof.
  revert s; induction lines as [|l lines IH]; intros s; [done|].
  simpl. by rewrite IH.
Qed.

End MonadMore.

(** Breaks a computation into its steps, leaving the requests to check. *)
Ltac keeps_steps :=
  repeat first
    [ apply keeps_ret | apply keeps_raise | apply keeps_lift
    | apply keeps_print
    | apply keeps_bind; [|intros ?]
    | apply keeps_try; [|intros ?]
    | apply keeps_http_get
    | match goal with
      | |- keeps _ (if ?b then _ else _) => destruct b
      | |- keeps _ (match ?x with _ => _ end) => destruct x
      end ].

(** ** auth.py *)

Section AuthFacts.
Context `{Platform}.

Lemma get_access_token_ok (self : nat) (s : State) (a : GraphAuth) :
  heap s !! self = Some a -> truthy (access_token a) = true ->
  get_access_token self s = (Ok (access_token a), s).
Proof.
  intros Ha Ht. unfold get_access_token, bind, read_auth. by rewrite Ha, Ht.
Qed.

Lemma get_access_token_falsy (self : nat) (s : State) (a : GraphAuth) :
  heap s !! self = Some a -> truthy (access_token a) = false ->
  get_access_token self s = (Raise NotAuthenticatedError, s).
Proof.
  intros Ha Ht. unfold get_access_token, bind, read_auth. by rewrite Ha, Ht.
Qed.

Lemma GraphAuth_init_eq (s : State) :
  exists a,
    GraphAuth_init s = (Ok (length (heap s)), set_heap (heap s ++ [a]) s)
    /\ access_token a = VNone.
Proof. eexists; split; reflexivity. Qed.

(** A grant that carries an access token is stored and returned. *)
Lemma authenticate_with_password_ok (self : nat) (s : State) (a : GraphAuth)
    (grant : dict value) (w : World) (tok : value) :
  heap s !! self = Some a ->
  acquire_token_by_username_password (app a) (USERNAME (config a))
    (PASSWORD (config a)) (SCOPE (config a)) (world s) = (Ok grant, w) ->
  dict_lookup "access_token" grant = Some tok ->
  authenticate_with_password self s =
  (Ok tok,
   set_heap (<[self := {| config := config a; app := app a;
                          access_token := tok |}]> (heap s))
     (set_world w s)).
Proof.
  intros Ha Hg Ht.
  unfold authenticate_with_password, try_except, bind, read_auth, call_world,
    lift, set_access_token, dict_has, dict_getitem.
  rewrite Ha, Hg. simpl. rewrite Ht.
  change (heap (set_world w s)) with (heap s). rewrite Ha. simpl.
  rewrite list_lookup_insert_eq by (eapply lookup_lt_Some; eauto).
  reflexivity.
Qed.

(** An authentication that raises leaves every object as it was. *)
Lemma authenticate_with_password_raise (self : nat) (s s' : State) (e : exn) :
  authenticate_with_password self s = (Raise e, s') -> heap s' = heap s.
Proof.
  unfold authenticate_with_password, try_except, bind, read_auth, call_world,
    lift, set_access_token, dict_has, dict_getitem, raise, ret.
  destruct (heap s !! self) as [a|] eqn:Ha; [|by intros [= _ <-]].
  destruct (acquire_token_by_username_password _ _ _ _ _) as [[grant|e'] w];
    simpl; [|by intros [= _ <-]].
  destruct (dict_lookup "access_token" grant) as [tok|]; simpl;
    [|by intros [= _ <-]].
  change (heap (set_world w s)) with (heap s). rewrite Ha. simpl.
  rewrite list_lookup_insert_eq by (eapply lookup_lt_Some; eauto).
  discriminate.
Qed.

(** C5, as the code has it.  A new authenticator has no token, and
    [get_access_token] then raises NotAuthenticatedError; an authentication
    that fails leaves it so; after [authenticate_with_password] succeeded on
    a grant with the NON-EMPTY token string [tok], [get_access_token]
    returns exactly [tok]. *)
Theorem access_token_after_authentication :
  (forall s : State,
      exists s1, GraphAuth_init s = (Ok (length (heap s)), s1)
                 /\ get_access_token (length (heap s)) s1
                    = (Raise NotAuthenticatedError, s1))
  /\ (forall (self : nat) (s s' : State) (a : GraphAuth) (e : exn),
         heap s !! self = Some a -> access_token a = VNone ->
         authenticate_with_password self s = (Raise e, s') ->
         get_access_token self s' = (Raise NotAuthenticatedError, s'))
  /\ (forall (self : nat) (s : State) (a : GraphAuth) (grant : dict value)
             (w : World) (tok : string),
         heap s !! self = Some a ->
         acquire_token_by_username_password (app a) (USERNAME (config a))
           (PASSWORD (config a)) (SCOPE (config a)) (world s) = (Ok grant, w) ->
         dict_lookup "access_token" grant = Some (VStr tok) ->
         tok <> "" ->
         exists s',
           authenticate_with_password self s = (Ok (VStr tok), s')
           /\ get_access_token self s' = (Ok (VStr tok), s')).
Proof.
  repeat split.
  - intros s. destruct (GraphAuth_init_eq s) as (a & -> & Ha).
    eexists; split; [reflexivity|].
    eapply get_access_token_falsy.
    + simpl. apply list_lookup_middle. reflexivity.
    + by rewrite Ha.
  - intros self s s' a e Ha Hnone Hr.
    apply authenticate_with_password_raise in Hr.
    eapply get_access_token_falsy; [by rewrite Hr|by rewrite Hnone].
  - intros self s a grant w tok Ha Hg Ht Hne.
    erewrite authenticate_with_password_ok by eauto.
    eexists; split; [reflexivity|].
    set (a' := {| config := config a; app := app a; access_token := VStr tok |}).
    change (VStr tok) with (access_token a').
    apply get_access_token_ok.
    + simpl. apply list_lookup_insert_eq. eapply lookup_lt_Some; eauto.
    + simpl. destruct (String.eqb tok "") eqn:E; [|reflexivity].
      apply String.eqb_eq in E. contradiction.
Qed.

End AuthFacts.

Section AuthOnTestDouble.
#[local] Existing Instance default_platform.

(** C5, witness: on the test double, the new authenticator has no token,
    and after the first grant, which returns [tok0], the token read back is
    [tok0]. *)
Lemma access_token_after_authentication_witness :
  exists s1 s2 : State,
    GraphAuth_init (initial_state 0) = (Ok 0, s1)
    /\ get_access_token 0 s1 = (Raise NotAuthenticatedError, s1)
    /\ authenticate_with_password 0 s1 = (Ok (VStr "tok0"), s2)
    /\ get_access_token 0 s2 = (Ok (VStr "tok0"), s2).
Proof.
  destruct access_token_after_authentication as (Hinit & _ & Hok).
  destruct (Hinit (@initial_state default_platform 0)) as (s1 & Hi & Hn).
  exists s1.
  assert (Hs1 : s1 = (GraphAuth_init (@initial_state default_platform 0)).2)
    by (by rewrite Hi).
  destruct (Hok 0 s1 (Build_GraphAuth load_config
                        (MsalApp (CLIENT_ID load_config)
                           (CLIENT_SECRET load_config) (authority load_config))
                        VNone)
              [("access_token", VStr "tok0")] 1 "tok0")
    as (s2 & Ha & Hg).
  - subst s1. reflexivity.
  - subst s1. reflexivity.
  - reflexivity.
  - discriminate.
  - exists s2. repeat split; assumption.
Defined.

End AuthOnTestDouble.

Section AuthOnEmptyToken.
#[local] Existing Instance empty_token_platform.

(** C5, counterexample to the claim as stated: the grant succeeds with an
    empty access token, [authenticate_with_password] returns it, and
    [get_access_token] still raises NotAuthenticatedError instead of
    returning the token of the grant. *)
Lemma empty_token_is_not_returned :
  exists s1 s2 : State,
    GraphAuth_init (initial_state 0) = (Ok 0, s1)
    /\ authenticate_with_password 0 s1 = (Ok (VStr ""), s2)
    /\ get_access_token 0 s2 = (Raise NotAuthenticatedError, s2)
    /\ get_access_token 0 s2 <> (Ok (VStr ""), s2).
Proof.
  eexists. eexists.
  split; [reflexivity|]. split; [reflexivity|]. split; [reflexivity|].
  discriminate.
Qed.

End AuthOnEmptyToken.

(** ** graph_client.py *)

Section GraphClientFacts.
Context `{Platform}.

Lemma sends_http_get (url : string) (hdrs params : dict string) :
  sends (http_get url hdrs params).
Proof.
  intros s. unfold http_get, call_world. simpl.
  destruct (requests_get _ _) as [r w]. simpl.
  by exists (Request "GET" url hdrs params []), [].
Qed.

Lemma sends_bind P {A B} (m : M A) (k : A -> M B) :
  sends m -> (forall a, keeps P (k a)) -> sends (bind m k).
Proof.
  intros Hm Hk s. destruct (Hm s) as (r & new & Hs).
  unfold bind. destruct (m s) as [[a|e] s1]; simpl in *.
  - destruct (Hk a s1) as (_ & new' & Hs' & _).
    exists r, (new ++ new')%list. rewrite Hs', Hs, <- app_assoc. reflexivity.
  - by exists r, new.
Qed.

Lemma sends_try P {A} (m : M A) (h : exn -> M A) :
  sends m -> (forall e, keeps P (h e)) -> sends (try_except m h).
Proof.
  intros Hm Hh s. destruct (Hm s) as (r & new & Hs).
  unfold try_except. destruct (m s) as [[a|e] s1]; simpl in *.
  - by exists r, new.
  - destruct (Hh e s1) as (_ & new' & Hs' & _).
    exists r, (new ++ new')%list. rewrite Hs', Hs, <- app_assoc. reflexivity.
Qed.

Lemma starts_with_app (p s : string) : starts_with p (p +:+ s) = true.
Proof. unfold starts_with. by rewrite strip_prefix_app. Qed.

Lemma refresh_headers_ok (self : GraphClient) (s : State) (tok : value) :
  current_token s self = Some tok -> truthy tok = true ->
  _refresh_headers self s = (Ok (with_token self tok), s).
Proof.
  unfold current_token. destruct (heap s !! auth self) as [a|] eqn:Ha;
    [|discriminate].
  intros [= <-] Ht. unfold _refresh_headers.
  erewrite bind_ok by (eapply get_access_token_ok; eauto). reflexivity.
Qed.

(** Without a token [_refresh_headers] raises, and nothing has changed. *)
Lemma refresh_headers_raise (self : GraphClient) (s : State) :
  (forall tok, current_token s self = Some tok -> truthy tok = false) ->
  exists e, _refresh_headers self s = (Raise e, s).
Proof.
  unfold current_token, _refresh_headers, get_access_token, bind, read_auth.
  destruct (heap s !! auth self) as [a|] eqn:Ha.
  - intros Hf. rewrite (Hf _ eq_refl). by eexists.
  - intros _. by eexists.
Qed.

Lemma bind_refresh_cases {B} (self : GraphClient)
    (k : GraphClient -> M B) (s : State) :
  (exists tok, current_token s self = Some tok /\ truthy tok = true
               /\ bind (_refresh_headers self) k s = k (with_token self tok) s)
  \/ ((forall tok, current_token s self = Some tok -> truthy tok = false)
      /\ exists e, bind (_refresh_headers self) k s = (Raise e, s)).
Proof.
  destruct (current_token s self) as [tok|] eqn:Hc.
  - destruct (truthy tok) eqn:Ht.
    + left. exists tok. repeat split; auto.
      apply bind_ok. by apply refresh_headers_ok.
    + right. split; [by intros ? [= <-]|].
      destruct (refresh_headers_raise self s) as (e & He).
      * rewrite Hc. by intros ? [= <-].
      * exists e. by apply bind_raise.
  - right. split; [discriminate|].
    destruct (refresh_headers_raise self s) as (e & He).
    + rewrite Hc. discriminate.
    + exists e. by apply bind_raise.
Qed.

Lemma try_except_total {A} (m : M A) (h : exn -> M A) :
  (forall e s, exists a s', h e s = (Ok a, s')) ->
  forall s, exists a s', try_except m h s = (Ok a, s').
Proof.
  intros Hh s. unfold try_except. destruct (m s) as [[a|e] s1]; eauto.
Qed.

(** Every operation of the client, once its token is read, returns, issues
    at least one request, and issues only requests that carry the headers
    of the refreshed client to an address under its base; without a token
    it raises before anything is sent. *)
Lemma run_call_cases (call : api_call) (self : GraphClient) (s : State) :
  (exists tok,
      current_token s self = Some tok /\ truthy tok = true
      /\ (exists v, (run_call call self s).1 = Ok (with_token self tok, v))
      /\ heap (run_call call self s).2 = heap s
      /\ exists r new,
           sent (run_call call self s).2 = (sent s ++ r :: new)%list
           /\ Forall (from_client (with_token self tok)) (r :: new))
  \/ ((forall tok, current_token s self = Some tok -> truthy tok = false)
      /\ exists e, run_call call self s = (Raise e, s)).
Proof.
  destruct call as [meeting_id|meeting_id report_id|filter_query];
    unfold run_call, get_online_meeting_attendance_report,
      get_meeting_attendance_records, list_online_meetings;
    (match goal with
     | |- context [bind (_refresh_headers self) ?k s] =>
         destruct (bind_refresh_cases self k s)
           as [(tok & Hc & Ht & Hb)|(Hf & e & He)]
     end;
     [left; exists tok; rewrite Hb; clear Hb
     |right; split; [exact Hf|by exists e]]);
    (split; [exact Hc|]); (split; [exact Ht|]);
    set (c := with_token self tok).
  all: match goal with
       | |- context [bind ?m ?k ?s0] =>
           assert (Hk : keeps (from_client c) (bind m k))
             by (keeps_steps; split; try reflexivity; apply starts_with_app);
           assert (Hs : sends (bind m k))
             by (apply (sends_bind (from_client c));
                 [apply (sends_try (from_client c));
                  [apply (sends_bind (from_client c));
                   [apply sends_http_get|intros ?]
                  |intros ?]
                 |intros ?];
                 keeps_steps; split; try reflexivity; apply starts_with_app);
           assert (Hv : exists v s', bind m k s0 = (Ok (c, v), s'))
       end.
  all: try (unfold bind at 1;
            match goal with
            | |- context [try_except ?m ?h ?s0] =>
                destruct (try_except_total m h) with (s := s0) as (v & s' & ->);
                [intros; unfold bind, print, ret; by eexists _, _
                |by exists v, s']
            end).
  all: destruct Hv as (v & s' & Hv);
    match goal with
    | |- context [heap _ = heap ?s0] =>
        destruct (Hk s0) as (Hh & new & Hn & HP);
        destruct (Hs s0) as (r & new' & Hn')
    end;
    (split; [exists v; by rewrite Hv|]); (split; [exact Hh|]);
    exists r, new'; split; [exact Hn'|];
    rewrite Hn' in Hn; apply app_inv_head in Hn; by rewrite Hn.
Qed.

End GraphClientFacts.

Section GraphClientClaims.
Context `{Platform}.

(** C9. Whatever headers the client was built with, every request that an
    operation of the client issues carries [Authorization: Bearer <tok>]
    for the token [tok] the authenticator holds when the operation is
    called; the operation does not touch the authenticator, and with a
    token in place it does issue a request. *)
Theorem authorization_header_is_current (call : api_call)
    (self : GraphClient) (s : State) :
  heap (run_call call self s).2 = heap s
  /\ exists new,
       sent (run_call call self s).2 = (sent s ++ new)%list
       /\ Forall (fun req =>
                    exists tok,
                      current_token s self = Some tok
                      /\ dict_lookup "Authorization" (req_headers req)
                         = Some ("Bearer " +:+ py_str tok)) new
       /\ (forall tok, current_token s self = Some tok ->
                       truthy tok = true -> new <> []).
Proof.
  destruct (run_call_cases call self s)
    as [(tok & Hc & Ht & _ & Hh & r & new & Hs & HP)|(Hf & e & ->)].
  - split; [exact Hh|]. exists (r :: new). split; [exact Hs|]. split.
    + eapply Forall_impl; [exact HP|]. intros req [Hr _].
      exists tok. split; [exact Hc|]. rewrite Hr. simpl.
      apply dict_lookup_set_eq.
    + discriminate.
  - split; [reflexivity|]. exists []. simpl. rewrite app_nil_r.
    split; [reflexivity|]. split; [constructor|].
    intros tok Hc Ht. rewrite (Hf tok Hc) in Ht. discriminate.
Qed.

Lemma GraphClient_init_base (auth_ref : nat) (s0 s1 : State)
    (self : GraphClient) :
  GraphClient_init auth_ref s0 = (Ok self, s1) ->
  base_url self = "https://graph.microsoft.com/v1.0".
Proof.
  unfold GraphClient_init. intros Hb.
  apply bind_inv_ok in Hb as (tok & s' & _ & Hr).
  by injection Hr as <- _.
Qed.

(** C2, as the code has it.  A client built by [GraphClient.__init__] has
    the base [https://graph.microsoft.com/v1.0], whatever the environment
    says; every request of every operation goes to an address under that
    base, and the client keeps it. *)
Theorem requests_go_to_fixed_base (auth_ref : nat) (s0 s1 : State)
    (self : GraphClient) (call : api_call) (s : State) :
  GraphClient_init auth_ref s0 = (Ok self, s1) ->
  base_url self = "https://graph.microsoft.com/v1.0"
  /\ (forall self' v, (run_call call self s).1 = Ok (self', v) ->
                      base_url self' = "https://graph.microsoft.com/v1.0")
  /\ exists new,
       sent (run_call call self s).2 = (sent s ++ new)%list
       /\ Forall (fun req =>
                    starts_with "https://graph.microsoft.com/v1.0"
                      (req_url req) = true) new.
Proof.
  intros Hinit. pose proof (GraphClient_init_base _ _ _ _ Hinit) as Hbase.
  split; [exact Hbase|].
  destruct (run_call_cases call self s)
    as [(tok & Hc & Ht & (v & Hv) & Hh & r & new & Hs & HP)|(Hf & e & ->)].
  - split.
    + intros self' v'. rewrite Hv. by intros [= <- _].
    + exists (r :: new). split; [exact Hs|].
      eapply Forall_impl; [exact HP|]. intros req [_ Hr].
      simpl in Hr. by rewrite Hbase in Hr.
  - split; [discriminate|]. exists []. simpl. rewrite app_nil_r.
    split; [reflexivity|constructor].
Qed.

Lemma append_inj_l (p a b : string) : p +:+ a = p +:+ b -> a = b.
Proof.
  induction p as [|c p IH]; simpl; [done|]. intros [= Hp]. by apply IH.
Qed.

(** C3, as the code has it.  When the plain address answers 404 and the
    quoted address then answers 200 with a JSON body, the operation issues
    exactly three requests: the plain one, the quoted one (once), and the
    one for the collection of attendance reports.  What it returns is the
    parsed body of that LAST answer when it is a 200 with a JSON body, and
    [None] otherwise; the body of the quoted answer is parsed and dropped. *)
Theorem quoted_id_fallback (self : GraphClient) (meeting_id tok : value)
    (s : State) (r1 r2 : response) (w1 w2 w3 : World) (meeting_data : value)
    (answer : result response) :
  let c := with_token self tok in
  let plain := Request "GET" (meeting_url c meeting_id) (headers c) [] [] in
  let quoted :=
    Request "GET" (quoted_meeting_url c meeting_id) (headers c) [] [] in
  let collection :=
    Request "GET" (attendance_url c meeting_id) (headers c) [] [] in
  current_token s self = Some tok -> truthy tok = true ->
  requests_get plain (world s) = (Ok r1, w1) -> status_code r1 = 404%Z ->
  requests_get quoted w1 = (Ok r2, w2) -> status_code r2 = 200%Z ->
  json_body r2 = Some meeting_data ->
  requests_get collection w2 = (answer, w3) ->
  let out := get_online_meeting_attendance_report self meeting_id s in
  out.1 = Ok (c, collection_payload answer)
  /\ issued s out.2 = [plain; quoted; collection]
  /\ length (List.filter
               (fun req => String.eqb (req_url req) (req_url quoted))
               (issued s out.2)) = 1.
Proof.
  intros c plain quoted collection Hc Ht H1 Hs1 H2 Hs2 Hj H3 out.
  assert (Hout : exists s',
             out = (Ok (c, collection_payload answer), s')
             /\ sent s' = (sent s ++ [plain; quoted; collection])%list).
  { subst out. unfold get_online_meeting_attendance_report.
    erewrite bind_ok by (by apply refresh_headers_ok).
    fold c. unfold bind at 1, try_except.
    unfold bind at 1, http_get at 1, call_world.
    rewrite world_log_request. fold plain. rewrite H1, Hs1.
    cbn [Z.eqb Pos.eqb].
    unfold bind at 1, http_get at 1, call_world.
    rewrite world_log_request, world_set_world. fold quoted. rewrite H2, Hs2.
    cbn [Z.eqb Pos.eqb].
    unfold bind at 1, lift at 1, response_json at 1. rewrite Hj.
    unfold bind at 1, http_get at 1, call_world.
    rewrite world_log_request, world_set_world. fold collection. rewrite H3.
    destruct answer as [ra|e]; simpl.
    - destruct (Z.eqb (status_code ra) 200) eqn:E200.
      + unfold lift, response_json.
        destruct (json_body ra); simpl;
          (eexists; split; [reflexivity|]); simpl;
          by rewrite <- !app_assoc.
      + destruct (Z.eqb (status_code ra) 404); simpl;
          (eexists; split; [reflexivity|]); simpl;
          by rewrite <- !app_assoc.
    - eexists; split; [reflexivity|]. simpl. by rewrite <- !app_assoc. }
  destruct Hout as (s' & Hout & Hsent).
  assert (Hi : issued s out.2 = [plain; quoted; collection]).
  { rewrite Hout. unfold issued. simpl. rewrite Hsent.
    by rewrite drop_app_length. }
  split; [by rewrite Hout|]. split; [exact Hi|].
  assert (E1 : String.eqb (req_url plain) (req_url quoted) = false).
  { apply String.eqb_neq. intros E. apply append_inj_l in E. discriminate. }
  assert (E2 : String.eqb (req_url collection) (req_url quoted) = false).
  { apply String.eqb_neq. intros E. apply append_inj_l in E. discriminate. }
  rewrite Hi. cbn [List.filter]. rewrite E1, E2, String.eqb_refl. reflexivity.
Qed.

End GraphClientClaims.

Section ClientOnTestDouble.
#[local] Existing Instance default_platform.

(** C9, witness: the client is built while the token is [tok0]; a second
    grant replaces it by [tok1]; the request of the next operation carries
    [Bearer tok1]. *)
Lemma authorization_header_is_current_witness :
  exists (c : GraphClient) (s : State),
    connect_then_reauthenticate (initial_state 0) = (Ok c, s)
    /\ dict_lookup "Authorization" (headers c) = Some "Bearer tok0"
    /\ current_token s c = Some (VStr "tok1")
    /\ exists new,
         sent (run_call (ListOnlineMeetings None) c s).2 = (sent s ++ new)%list
         /\ new <> []
         /\ Forall (fun req =>
                      dict_lookup "Authorization" (req_headers req)
                      = Some "Bearer tok1") new.
Proof.
  eexists. eexists. split; [reflexivity|]. split; [reflexivity|].
  split; [reflexivity|].
  match goal with
  | |- context [run_call ?call ?c ?s] =>
      destruct (authorization_header_is_current call c s)
        as (_ & new & Hs & HP & Hne)
  end.
  exists new. split; [exact Hs|]. split.
  - apply (Hne (VStr "tok1")); reflexivity.
  - eapply Forall_impl; [exact HP|]. intros req (tok & Hc & Hr).
    injection Hc as <-. exact Hr.
Defined.

(** C3, witness: the server of the test double answers 404 to the plain
    address and 200 to the quoted one; the result is the collection of
    reports. *)
Lemma quoted_id_fallback_witness :
  exists (c : GraphClient) (s : State),
    connect (initial_state 0) = (Ok c, s)
    /\ let out :=
         get_online_meeting_attendance_report c (VStr "19:meeting_ABC123") s in
       out.1 = Ok (c, report_collection)
       /\ map req_url (issued s out.2)
          = [ "https://graph.microsoft.com/v1.0/me/onlineMeetings/19:meeting_ABC123";
              "https://graph.microsoft.com/v1.0/me/onlineMeetings('19:meeting_ABC123')";
              "https://graph.microsoft.com/v1.0/me/onlineMeetings/19:meeting_ABC123/attendanceReports" ].
Proof.
  eexists. eexists. split; [reflexivity|]. intros out.
  match goal with
  | out := get_online_meeting_attendance_report ?c ?m ?s |- _ =>
      destruct (quoted_id_fallback c m (VStr "tok0") s
                  (Response 404 "Not Found" None)
                  (Response 200 "" (Some online_meeting))
                  1 1 1 online_meeting (json_ok report_collection))
        as (Hr & Hi & _); try reflexivity
  end.
  subst out. rewrite Hi. split; [exact Hr|reflexivity].
Defined.

(** C3, counterexample to the claim as stated: the plain address answers
    404, the quoted address answers 200 with the meeting as its body, and
    the operation returns the collection of reports, not that body. *)
Lemma quoted_body_is_not_returned :
  exists (c : GraphClient) (s : State),
    connect (initial_state 0) = (Ok c, s)
    /\ requests_get
         (Request "GET"
            "https://graph.microsoft.com/v1.0/me/onlineMeetings/19:meeting_ABC123"
            (headers c) [] []) (world s)
       = (Ok (Response 404 "Not Found" None), world s)
    /\ requests_get
         (Request "GET"
            "https://graph.microsoft.com/v1.0/me/onlineMeetings('19:meeting_ABC123')"
            (headers c) [] []) (world s)
       = (Ok (Response 200 "" (Some online_meeting)), world s)
    /\ (get_online_meeting_attendance_report c (VStr "19:meeting_ABC123") s).1
       = Ok (c, report_collection)
    /\ (get_online_meeting_attendance_report c (VStr "19:meeting_ABC123") s).1
       <> Ok (c, online_meeting).
Proof.
  eexists. eexists.
  split; [reflexivity|]. split; [reflexivity|]. split; [reflexivity|].
  split; [reflexivity|]. discriminate.
Qed.

End ClientOnTestDouble.

Section ClientOnOverride.
#[local] Existing Instance override_platform.

(** C2, witness: with [GRAPH_API_ENDPOINT] set to another address, the
    requests of the client still go under the fixed base. *)
Lemma requests_go_to_fixed_base_witness :
  exists (c : GraphClient) (s : State),
    connect (initial_state 0) = (Ok c, s)
    /\ GRAPH_API_ENDPOINT load_config = "https://example.test/beta"
    /\ base_url c = "https://graph.microsoft.com/v1.0"
    /\ exists new,
         sent (run_call (ListOnlineMeetings None) c s).2 = (sent s ++ new)%list
         /\ Forall (fun req =>
                      starts_with "https://graph.microsoft.com/v1.0"
                        (req_url req) = true) new.
Proof.
  eexists. eexists. split; [reflexivity|]. split; [reflexivity|].
  match goal with
  | |- context [run_call ?call ?c ?s] =>
      destruct (requests_go_to_fixed_base 0
                  (authenticate_with_password 0
                     (GraphAuth_init (@initial_state override_platform 0)).2).2
                  s c call s eq_refl)
        as (Hb & _ & Hnew)
  end.
  split; [exact Hb|exact Hnew].
Defined.

(** C2, at the failing input: [GRAPH_API_ENDPOINT] is set to
    [https://example.test/beta], and the request of
    [list_online_meetings] goes to
    [https://graph.microsoft.com/v1.0/me/onlineMeetings], which is not
    under the configured address. *)
Lemma configured_endpoint_is_ignored :
  exists (c : GraphClient) (s : State) (req : request),
    connect (initial_state 0) = (Ok c, s)
    /\ environ !! "GRAPH_API_ENDPOINT" = Some "https://example.test/beta"
    /\ GRAPH_API_ENDPOINT load_config = "https://example.test/beta"
    /\ issued s (run_call (ListOnlineMeetings None) c s).2 = [req]
    /\ req_url req = "https://graph.microsoft.com/v1.0/me/onlineMeetings"
    /\ starts_with (GRAPH_API_ENDPOINT load_config) (req_url req) = false.
Proof.
  eexists. eexists. eexists.
  split; [reflexivity|]. split; [reflexivity|]. split; [reflexivity|].
  split; [reflexivity|]. split; reflexivity.
Qed.

End ClientOnOverride.

(** ** main.py *)

Section MainFacts.
Context `{Platform}.

(** The loop of [process_email_html] computes the concatenation of what
    each report contributes, after what was accumulated before. *)
Lemma fetch_records_flat (reports : list value) :
  forall (client : GraphClient) (meeting_id : value) (acc : list value)
         (s : State),
    fetch_records client meeting_id reports acc s
    = (x <- fetch_each client meeting_id reports ;;
       ret (x.1, (acc ++ concat x.2)%list)) s.
Proof.
  induction reports as [|report rest IH]; intros client meeting_id acc s.
  - simpl. unfold bind, ret. simpl. by rewrite app_nil_r.
  - simpl. unfold fetch_one, bind, lift, print, ret.
    repeat first
      [ reflexivity
      | rewrite IH; unfold bind, ret
      | progress cbn beta iota
      | match goal with
        | |- context [match ?x with _ => _ end] =>
            lazymatch x with
            | context [match _ with _ => _ end] => fail
            | _ => destruct x
            end
        end ].
    all: simpl; by rewrite app_assoc.
Qed.

Lemma bind_print {B} (line : string) (k : unit -> M B) (s : State) :
  bind (print line) k s = k tt (printed [line] s).
Proof. reflexivity. Qed.

Lemma bind_lift_ok {A B} (a : A) (k : A -> M B) (s : State) :
  bind (lift (Ok a)) k s = k a s.
Proof. reflexivity. Qed.

Lemma bind_assoc {A B C} (m : M A) (k : A -> M B) (k' : B -> M C) (s : State) :
  bind (bind m k) k' s = bind m (fun a => bind (k a) k') s.
Proof. unfold bind. by destruct (m s) as [[a|e] s1]. Qed.

(** The fetch of the records of one report always returns: the [value] of
    a good answer, [None] for any failure of the request. *)
Lemma get_meeting_attendance_records_eq (self : GraphClient)
    (meeting_id report_id tok : value) (s : State)
    (answer : result response) (w : World) :
  let c := with_token self tok in
  current_token s self = Some tok -> truthy tok = true ->
  requests_get
    (Request "GET" (records_url c meeting_id report_id) (headers c) [] [])
    (world s) = (answer, w) ->
  exists s',
    get_meeting_attendance_records self meeting_id report_id s
    = (Ok (c, records_payload answer), s').
Proof.
  intros c Hc Ht Hr. unfold get_meeting_attendance_records.
  erewrite bind_ok by (by apply refresh_headers_ok). fold c.
  unfold bind at 1, try_except, bind at 1, http_get, call_world.
  rewrite world_log_request, Hr.
  destruct answer as [r|e]; simpl; [|by eexists].
  destruct (Z.eqb (status_code r) 200); [|by eexists].
  unfold bind, lift, response_json.
  destruct (json_body r) as [[| | | | |d]|]; simpl; by eexists.
Qed.

(** A report whose fetch gave nothing true contributes no record, and the
    loop goes on. *)
Lemma fetch_one_nothing (client client' : GraphClient)
    (meeting_id report report_id records : value) (s s1 : State) :
  py_get report "id" VNone = Ok report_id ->
  get_meeting_attendance_records client meeting_id report_id
    (printed [nl +:+ "Fetching records for report: " +:+ py_str report_id] s)
  = (Ok (client', records), s1) ->
  truthy records = false ->
  fetch_one client meeting_id report s = (Ok (client', []), s1).
Proof.
  intros Hid Hg Ht. unfold fetch_one. rewrite Hid, bind_lift_ok, bind_print.
  erewrite bind_ok by exact Hg. cbn beta iota. by rewrite Ht.
Qed.

Lemma print_attendee_ok (i : nat) (record : value) (s : State) :
  printable_record record = true ->
  exists s', print_attendee i record s = (Ok tt, s') /\ files s' = files s.
Proof.
  unfold printable_record, print_attendee.
  destruct record as [| | | | |d]; try discriminate.
  simpl. rewrite !bind_lift_ok.
  destruct (dict_get "identity" (VDict []) d) as [| | | | |idn];
    try discriminate.
  simpl. rewrite !bind_lift_ok.
  destruct (dict_get "emailAddress" (VDict []) idn) as [| | | | |em];
    try discriminate.
  intros _. simpl. rewrite !bind_lift_ok. by eexists.
Qed.

Lemma print_attendees_ok (records : list value) :
  forallb printable_record records = true ->
  forall (i : nat) (s : State),
    exists s', print_attendees i records s = (Ok tt, s') /\ files s' = files s.
Proof.
  induction records as [|record rest IH]; simpl; intros Hp i s.
  - by exists s.
  - apply andb_prop in Hp as [Hr Hrest].
    destruct (print_attendee_ok i record s Hr) as (s1 & He & Hf).
    erewrite bind_ok by exact He.
    destruct (IH Hrest (S i) s1) as (s2 & He2 & Hf2).
    exists s2. split; [exact He2|congruence].
Qed.

(** ** The file system *)

Lemma bind_write_file {B} (path : string) (c : file_content)
    (k : unit -> M B) (s : State) :
  open_error path s = None ->
  bind (write_file path c) k s = k tt (write_file path c s).2.
Proof. intros He. unfold bind, write_file. by rewrite He. Qed.

Lemma write_file_refused {B} (path : string) (c : file_content)
    (k : unit -> M B) (s : State) (e : exn) :
  open_error path s = Some e ->
  bind (write_file path c) k s = (Raise e, s).
Proof. intros He. unfold bind, write_file. by rewrite He. Qed.

Lemma write_file_files (path : string) (c : file_content) (s : State) :
  open_error path s = None ->
  files (write_file path c s).2 = dict_set path c (files s).
Proof. intros He. unfold write_file. by rewrite He. Qed.

(** Whether a path can be opened for writing depends on the directories
    only. *)
Lemma open_error_dirs (path : string) (s s' : State) :
  dirs s' = dirs s -> open_error path s = None -> open_error path s' = None.
Proof.
  unfold open_error, is_dir. intros ->.
  destruct (has_char nul_char path); [done|].
  destruct (String.eqb path ""); [done|].
  destruct (existsb (String.eqb path) (dirs s)); [done|].
  destruct (negb (String.eqb (dirname path) "")
            && negb (existsb (String.eqb (dirname path)) (dirs s))); done.
Qed.

Lemma open_error_same (path : string) (s s' : State) :
  dirs s' = dirs s -> files s' = files s ->
  open_error path s' = open_error path s.
Proof. unfold open_error, is_dir, is_file. by intros -> ->. Qed.

Lemma makedirs_files (d : string) (s : State) :
  files (makedirs d s).2 = files s.
Proof.
  unfold makedirs. destruct (makedirs_error d s); [done|].
  by destruct (is_dir d s).
Qed.

Lemma makedirs_frame (d : string) (s : State) :
  world (makedirs d s).2 = world s /\ heap (makedirs d s).2 = heap s
  /\ sent (makedirs d s).2 = sent s /\ stdout (makedirs d s).2 = stdout s.
Proof.
  unfold makedirs. destruct (makedirs_error d s); [done|].
  by destruct (is_dir d s).
Qed.

(** A directory that was made is there, and making it again does
    nothing. *)
Lemma makedirs_is_dir (d : string) (s : State) :
  makedirs_error d s = None -> is_dir d (makedirs d s).2 = true.
Proof.
  unfold makedirs. intros ->. cbn [snd].
  destruct (is_dir d s) eqn:Hd; [exact Hd|].
  unfold is_dir in *. cbn [dirs]. rewrite existsb_app, Hd. cbn [orb].
  rewrite List.filter_app, existsb_app. cbn [List.filter].
  rewrite Hd. cbn [negb existsb].
  by rewrite String.eqb_refl, orb_true_r.
Qed.

Lemma makedirs_again (d : string) (s : State) :
  makedirs_error d s = None ->
  makedirs_error d (makedirs d s).2 = None
  /\ makedirs d (makedirs d s).2 = (Ok tt, (makedirs d s).2).
Proof.
  intros Hmk. pose proof (makedirs_is_dir d s Hmk) as Hd.
  assert (He : makedirs_error d (makedirs d s).2 = None).
  { revert Hmk. unfold makedirs_error. rewrite Hd.
    destruct (has_char nul_char d); [done|].
    by destruct (String.eqb d ""). }
  split; [exact He|]. unfold makedirs at 1. by rewrite He, Hd.
Qed.

(** [save_attendance_report] for a record with a Meeting ID: once the
    directory is there, the outcome is that of opening the file. *)
Lemma save_attendance_report_eq (meeting_info attendance_data : dict value)
    (output_dir m : string) (s : State) (now now' : datetime) (w w' : World) :
  dict_lookup "meeting_id" meeting_info = Some (VStr m) ->
  makedirs_error output_dir s = None ->
  datetime_now (world s) = (now, w) -> datetime_now w = (now', w') ->
  let filename := report_path output_dir m (strftime now "%Y%m%d_%H%M%S") in
  let s1 := set_world w' (makedirs output_dir s).2 in
  save_attendance_report meeting_info attendance_data output_dir s
  = match open_error filename s1 with
    | Some e => (Raise e, s1)
    | None =>
        (Ok filename,
         printed [ "Attendance report saved to: " +:+ filename ]
           (write_file filename
              (saved_report meeting_info attendance_data (isoformat now'))
              s1).2)
    end.
Proof.
  intros Hm Hmk Hnow Hnow'. cbv zeta.
  unfold save_attendance_report, dict_get. rewrite Hm.
  assert (Hmd : makedirs output_dir s = (Ok tt, (makedirs output_dir s).2))
    by (unfold makedirs; by rewrite Hmk).
  erewrite bind_ok by exact Hmd.
  destruct (makedirs_frame output_dir s) as (Hw0 & _).
  set (s0 := (makedirs output_dir s).2) in *. clearbody s0.
  unfold bind at 1, from_world at 1. rewrite Hw0, Hnow.
  simpl py_replace. rewrite bind_lift_ok.
  unfold bind at 1, from_world at 1. cbn [world set_world]. rewrite Hnow'.
  fold (report_path output_dir m (strftime now "%Y%m%d_%H%M%S")).
  fold (saved_report meeting_info attendance_data (isoformat now')).
  match goal with
  | |- bind (write_file ?p ?c) ?k ?st = match open_error ?p ?st' with _ => _ end =>
      change st with st'; destruct (open_error p st') as [e|] eqn:Ho
  end.
  - by erewrite write_file_refused.
  - rewrite bind_write_file by exact Ho. by rewrite bind_print.
Qed.

(** With a Meeting ID in the record, a directory that can be made and a
    file that can be opened, the report is written. *)
Lemma save_attendance_report_ok (meeting_info attendance_data : dict value)
    (output_dir m : string) (s : State) (now : datetime) (w : World) :
  dict_lookup "meeting_id" meeting_info = Some (VStr m) ->
  makedirs_error output_dir s = None ->
  datetime_now (world s) = (now, w) ->
  let filename := report_path output_dir m (strftime now "%Y%m%d_%H%M%S") in
  open_error filename (makedirs output_dir s).2 = None ->
  exists extracted_at s',
    save_attendance_report meeting_info attendance_data output_dir s
    = (Ok filename, s')
    /\ dict_lookup filename (files s')
       = Some (saved_report meeting_info attendance_data extracted_at)
    /\ dirs s' = dirs (makedirs output_dir s).2.
Proof.
  intros Hm Hmk Hnow filename Ho.
  destruct (datetime_now w) as [now' w'] eqn:Hnow'.
  rewrite (save_attendance_report_eq _ _ _ _ _ _ _ _ _ Hm Hmk Hnow Hnow').
  cbv zeta. fold filename.
  assert (Ho' : open_error filename (set_world w' (makedirs output_dir s).2)
                = None) by (eapply open_error_dirs; [|exact Ho]; reflexivity).
  rewrite Ho'. eexists _, _. split; [reflexivity|].
  unfold printed. cbn [fold_left print snd files dirs].
  rewrite write_file_files by exact Ho'. split; [apply dict_lookup_set_eq|].
  unfold write_file. by rewrite Ho'.
Qed.

(** Without a Meeting ID ([meeting_id] is bound to [None]), saving raises
    and nothing is written: the exception is that of [None.replace], unless
    the directory could not be made. *)
Lemma save_attendance_report_raises (meeting_info attendance_data : dict value)
    (output_dir : string) (s : State) :
  dict_lookup "meeting_id" meeting_info = Some VNone ->
  exists e s',
    save_attendance_report meeting_info attendance_data output_dir s
    = (Raise e, s')
    /\ files s' = files s
    /\ (makedirs_error output_dir s = None ->
        e = Exn AttributeError "'NoneType' object has no attribute 'replace'").
Proof.
  intros Hm. unfold save_attendance_report, dict_get. rewrite Hm.
  destruct (makedirs_error output_dir s) as [e|] eqn:Hmk.
  { unfold bind at 1. unfold makedirs. rewrite Hmk.
    eexists _, _. split; [reflexivity|]. split; [reflexivity|]. done. }
  assert (Hmd : makedirs output_dir s = (Ok tt, (makedirs output_dir s).2))
    by (unfold makedirs; by rewrite Hmk).
  erewrite bind_ok by exact Hmd.
  pose proof (makedirs_files output_dir s) as Hf0.
  set (s0 := (makedirs output_dir s).2) in *. clearbody s0.
  unfold bind, from_world, lift. simpl.
  destruct (datetime_now (world s0)) as [now w]. simpl.
  eexists _, _. split; [reflexivity|]. split; [exact Hf0|]. done.
Qed.

End MainFacts.

Section MainClaims.
Context `{Platform}.

(** The run once the loop has ended with the contributions [per]. *)
Lemma process_attendance_report_ok (mi : dict value)
    (client client' : GraphClient) (meeting_id : value) (d : dict value)
    (items : list value) (per : list (list value)) (s s2 : State)
    (m : string) (now : datetime) (w : World) :
  dict_get "value" (VList []) d = VList items -> items <> [] ->
  fetch_each client meeting_id items
    (printed [ "✓ Attendance report retrieved successfully";
               "Found " +:+ pretty (length items) +:+ " attendance report(s)" ]
       s)
  = (Ok (client', per), s2) ->
  dict_lookup "meeting_id" mi = Some (VStr m) ->
  forallb printable_record (concat per) = true ->
  makedirs_error "attendance_reports" s2 = None ->
  datetime_now (world s2) = (now, w) ->
  let filename :=
    report_path "attendance_reports" m (strftime now "%Y%m%d_%H%M%S") in
  open_error filename (makedirs "attendance_reports" s2).2 = None ->
  exists extracted_at s',
    process_attendance_report mi client meeting_id (VDict d) s
    = (Ok (Some filename), s')
    /\ dict_lookup filename (files s')
       = Some (FJson
                 (VDict [ ("meeting_info", VDict mi);
                          ("attendance_data",
                           VDict [ ("reports", VList items);
                                   ("attendance_records",
                                    VList (concat per)) ]);
                          ("extracted_at", VStr extracted_at) ])).
Proof.
  intros Hv Hne Hfetch Hm Hp Hmk Hnow filename Hopen.
  unfold process_attendance_report.
  assert (Hd : truthy (VDict d) = true).
  { destruct d; [|reflexivity]. simpl in Hv. injection Hv as <-. done. }
  assert (Hi : truthy (VList items) = true) by (by destruct items).
  rewrite Hd, bind_print. simpl py_get. rewrite Hv, bind_lift_ok, Hi.
  simpl py_len. rewrite bind_lift_ok, bind_print.
  simpl py_iter. rewrite bind_lift_ok.
  set (st0 := printed _ s) in Hfetch.
  match goal with
  | |- context [bind (fetch_records client meeting_id items []) ?k ?st] =>
      change st with st0;
      replace (bind (fetch_records client meeting_id items []) k st0)
        with (k (client', concat per) s2)
  end.
  2:{ symmetry. unfold bind at 1. rewrite fetch_records_flat. unfold bind at 1.
      rewrite Hfetch. reflexivity. }
  cbn beta iota.
  destruct (save_attendance_report_ok mi
              [ ("reports", VList items);
                ("attendance_records", VList (concat per)) ]
              "attendance_reports" m s2 now w Hm Hmk Hnow Hopen)
    as (extracted_at & s3 & Hsave & Hfile & _).
  fold filename in Hsave, Hfile.
  erewrite bind_ok by exact Hsave.
  rewrite !bind_print.
  exists extracted_at.
  remember (concat per) as all_records eqn:Hall.
  destruct all_records as [|record rest].
  - eexists; split; [reflexivity|]. exact Hfile.
  - cbn iota. rewrite bind_assoc, bind_print.
    match goal with
    | |- context [bind (print_attendees 1 ?recs) _ ?st] =>
        destruct (print_attendees_ok recs Hp 1 st) as (s4 & Hpr & Hf)
    end.
    erewrite bind_ok by exact Hpr.
    eexists; split; [reflexivity|]. rewrite Hf. exact Hfile.
Qed.

(** X1 (the part of C6 that holds).  For every collection of reports, the
    loop of [process_email_html] builds the concatenation of what each
    report contributes (1).  The fetch
    of the records of a report always returns: the [value] of a good
    answer, [None] for a failed request (2); a report whose fetch gave
    nothing true (a failure, or no record) contributes nothing and the loop
    goes on (3).  Once the loop has ended, whatever each report
    contributed, the run saves the reports with the merged records and
    returns the file name (4); it does so for an email whose Meeting ID
    was found, for records the summary can print, and when the directory
    [attendance_reports] can be made and the file can be opened in it. *)
Theorem records_are_merged_and_failures_tolerated :
  (forall (reports : list value) (client : GraphClient) (meeting_id : value)
          (acc : list value) (s : State),
      fetch_records client meeting_id reports acc s
      = (x <- fetch_each client meeting_id reports ;;
         ret (x.1, (acc ++ concat x.2)%list)) s)
  /\ (forall (self : GraphClient) (meeting_id report_id tok : value)
             (s : State) (answer : result response) (w : World),
         current_token s self = Some tok -> truthy tok = true ->
         requests_get
           (Request "GET"
              (records_url (with_token self tok) meeting_id report_id)
              (headers (with_token self tok)) [] [])
           (world s) = (answer, w) ->
         exists s',
           get_meeting_attendance_records self meeting_id report_id s
           = (Ok (with_token self tok, records_payload answer), s'))
  /\ (forall (client client' : GraphClient)
             (meeting_id report report_id records : value) (s s1 : State),
         py_get report "id" VNone = Ok report_id ->
         get_meeting_attendance_records client meeting_id report_id
           (printed [ nl +:+ "Fetching records for report: "
                      +:+ py_str report_id ] s)
         = (Ok (client', records), s1) ->
         truthy records = false ->
         fetch_one client meeting_id report s = (Ok (client', []), s1))
  /\ (forall (mi : dict value) (client client' : GraphClient)
             (meeting_id : value) (d : dict value) (items : list value)
             (per : list (list value)) (s s2 : State) (m : string)
             (now : datetime) (w : World),
         dict_get "value" (VList []) d = VList items -> items <> [] ->
         fetch_each client meeting_id items
           (printed [ "✓ Attendance report retrieved successfully";
                      "Found " +:+ pretty (length items)
                      +:+ " attendance report(s)" ] s)
         = (Ok (client', per), s2) ->
         dict_lookup "meeting_id" mi = Some (VStr m) ->
         forallb printable_record (concat per) = true ->
         makedirs_error "attendance_reports" s2 = None ->
         datetime_now (world s2) = (now, w) ->
         let filename :=
           report_path "attendance_reports" m
             (strftime now "%Y%m%d_%H%M%S") in
         open_error filename (makedirs "attendance_reports" s2).2 = None ->
         exists extracted_at s',
           process_attendance_report mi client meeting_id (VDict d) s
           = (Ok (Some filename), s')
           /\ dict_lookup filename (files s')
              = Some (FJson
                        (VDict [ ("meeting_info", VDict mi);
                                 ("attendance_data",
                                  VDict [ ("reports", VList items);
                                          ("attendance_records",
                                           VList (concat per)) ]);
                                 ("extracted_at", VStr extracted_at) ]))).
Proof.
  split; [exact fetch_records_flat|].
  split; [exact get_meeting_attendance_records_eq|].
  split; [exact fetch_one_nothing|].
  exact process_attendance_report_ok.
Qed.

(** X2 (behind C4).  When the Meeting ID was not found,
    [process_email_html] never returns a file name: the only path to one
    goes through [save_attendance_report], which raises. *)
Lemma no_file_without_meeting_id (html_body : string)
    (use_password_auth : bool) (s s' : State) (mi : dict value)
    (filename : string) :
  extract_meeting_info html_body = Ok mi ->
  dict_lookup "meeting_id" mi = Some VNone ->
  process_email_html html_body use_password_auth s <> (Ok (Some filename), s').
Proof.
  intros He Hm Hp. unfold process_email_html in Hp.
  rewrite He, bind_print, bind_lift_ok, !bind_print in Hp.
  destruct (negb (truthy (dict_get "thread_id" VNone mi))).
  { rewrite bind_print in Hp. discriminate. }
  rewrite bind_print in Hp.
  apply bind_inv_ok in Hp as (auth & s1 & _ & Hp).
  apply bind_inv_ok in Hp as (authenticated & s2 & _ & Hp).
  destruct authenticated; simpl in Hp; [|discriminate].
  apply bind_inv_ok in Hp as (client & s3 & _ & Hp).
  rewrite bind_print in Hp.
  apply bind_inv_ok in Hp as ([client' report] & s4 & _ & Hp).
  unfold process_attendance_report in Hp.
  destruct (truthy report).
  2:{ rewrite !bind_print in Hp. discriminate. }
  rewrite bind_print in Hp.
  apply bind_inv_ok in Hp as (reports & s5 & _ & Hp).
  destruct (truthy reports).
  2:{ rewrite bind_print in Hp. discriminate. }
  apply bind_inv_ok in Hp as (n & s6 & _ & Hp).
  rewrite bind_print in Hp.
  apply bind_inv_ok in Hp as (items & s7 & _ & Hp).
  apply bind_inv_ok in Hp as ([client'' all_records] & s8 & _ & Hp).
  apply bind_inv_ok in Hp as (fn & s9 & Hsave & _).
  destruct (save_attendance_report_raises mi
              [ ("reports", reports);
                ("attendance_records", VList all_records) ]
              "attendance_reports" s8 Hm) as (e & s10 & Hr & _).
  rewrite Hr in Hsave. discriminate.
Qed.

(** C7, where the code leaves the claim.  The parse of the email is the
    first statement of [extract_meeting_info] and no handler is around
    it: an exception of the parser (BeautifulSoup raises
    ParserRejectedMarkup for markup that [html.parser] refuses) leaves
    [extract_meeting_info], and [process_email_html] after it, whose
    first line of output is then its last. *)
Theorem parser_exception_escapes (html_body : string) (e : exn)
    (use_password_auth : bool) (s : State) :
  BeautifulSoup html_body = Raise e ->
  extract_meeting_info html_body = Raise e
  /\ process_email_html html_body use_password_auth s
     = (Raise e, printed ["Parsing email HTML..."] s).
Proof.
  intros Hsoup.
  pose proof (extract_meeting_info_rejected html_body e Hsoup) as He.
  split; [exact He|].
  unfold process_email_html. by rewrite bind_print, bind_lift, He.
Qed.

End MainClaims.

Section MainOnTestDouble.
#[local] Existing Instance default_platform.

(** What the parser makes of the invitation of the test double. *)
Example invitation_extracted :
  extract_meeting_info invitation_html
  = Ok [ ("meeting_id", VStr "12345678901234");
         ("passcode", VStr "EXAMPLE");
         ("join_link", VStr sample_join_link);
         ("thread_id", VStr "19:meeting_ABC123");
         ("organizer_id", VStr "ORG1");
         ("tenant_id", VStr "TENANT1%22%2c%22Oid%22%3a%22ORG1") ].
Proof. reflexivity. Qed.

(** X1, witness: two reports, whose fetches give three records and none.
    The merged list has the three records, and the run returns the name of
    the file it wrote them to. *)
Lemma records_are_merged_and_failures_tolerated_witness :
  let c := connected_client in
  let s := connected_state in
  let m := VStr "19:meeting_ABC123" in
  (get_meeting_attendance_records c m (VStr "r1") s).1
  = Ok (c, VList three_attendees)
  /\ (get_meeting_attendance_records c m (VStr "r2") s).1 = Ok (c, VList [])
  /\ length three_attendees = 3
  /\ exists extracted_at s',
       let filename :=
         "attendance_reports/attendance_12345678901234_20240101_120000.json" in
       process_attendance_report sample_meeting_info c m report_collection s
       = (Ok (Some filename), s')
       /\ dict_lookup filename (files s')
          = Some (FJson
                    (VDict [ ("meeting_info", VDict sample_meeting_info);
                             ("attendance_data",
                              VDict [ ("reports",
                                       VList [ VDict [ ("id", VStr "r1") ];
                                               VDict [ ("id", VStr "r2") ] ]);
                                      ("attendance_records",
                                       VList three_attendees) ]);
                             ("extracted_at", VStr extracted_at) ])).
Proof.
  intros c s m.
  split; [vm_compute; reflexivity|]. split; [vm_compute; reflexivity|].
  split; [reflexivity|].
  destruct records_are_merged_and_failures_tolerated as (_ & _ & _ & Hrun).
  pose (items := [ VDict [ ("id", VStr "r1") ]; VDict [ ("id", VStr "r2") ] ]).
  pose (st := printed [ "✓ Attendance report retrieved successfully";
                        "Found " +:+ pretty (length items)
                        +:+ " attendance report(s)" ] s).
  apply (Hrun sample_meeting_info c c m [ ("value", VList items) ] items
           [ three_attendees; [] ] s (fetch_each c m items st).2
           "12345678901234" tt 1).
  - reflexivity.
  - discriminate.
  - apply pair_from_fst. vm_compute. reflexivity.
  - reflexivity.
  - vm_compute. reflexivity.
  - vm_compute. reflexivity.
  - vm_compute. reflexivity.
  - vm_compute. reflexivity.
Defined.

(** C6, at the failing input: the fetches of the two reports give three
    records and none, and the run does not succeed: the Meeting ID of the
    email is [None], saving raises AttributeError, and no report is
    written. *)
Theorem run_fails_without_meeting_id :
  let c := connected_client in
  let s := connected_state in
  let m := VStr "19:meeting_ABC123" in
  let out :=
    process_attendance_report meeting_info_without_id c m report_collection s in
  (get_meeting_attendance_records c m (VStr "r1") s).1
  = Ok (c, VList three_attendees)
  /\ (get_meeting_attendance_records c m (VStr "r2") s).1 = Ok (c, VList [])
  /\ (fetch_records c m
        [ VDict [ ("id", VStr "r1") ]; VDict [ ("id", VStr "r2") ] ] [] s).1
     = Ok (c, three_attendees)
  /\ length three_attendees = 3
  /\ out.1 = Raise (Exn AttributeError
                      "'NoneType' object has no attribute 'replace'")
  /\ (forall filename, out.1 <> Ok (Some filename))
  /\ files out.2 = [].
Proof. vm_compute. repeat split; discriminate. Qed.

(** X2, witness: the invitation without its Meeting ID line never gives a
    file name. *)
Lemma no_file_without_meeting_id_witness :
  extract_meeting_info invitation_without_meeting_id_html
  = Ok meeting_info_without_id
  /\ dict_lookup "meeting_id" meeting_info_without_id = Some VNone
  /\ (forall (filename : string) (s' : State),
        process_email_html invitation_without_meeting_id_html true
          (initial_state 0)
        <> (Ok (Some filename), s')).
Proof.
  split; [reflexivity|]. split; [reflexivity|].
  intros filename s'.
  apply (no_file_without_meeting_id invitation_without_meeting_id_html true
           (@initial_state default_platform 0) s' meeting_info_without_id
           filename); reflexivity.
Defined.

(** C7, witness: the parser of the test double refuses a marked section
    with an unknown keyword, as [html.parser] does; the exception leaves
    the parser and the run. *)
Lemma parser_exception_escapes_witness :
  let e := Exn ParserRejectedMarkup
             "unknown status keyword 'foo' in marked section" in
  extract_meeting_info rejected_markup = Raise e
  /\ (process_email_html rejected_markup true (initial_state 0)).1 = Raise e.
Proof.
  intros e.
  destruct (parser_exception_escapes rejected_markup e true
              (@initial_state default_platform 0) eq_refl) as [He Hp].
  split; [exact He|]. by rewrite Hp.
Defined.

(** C4, at the failing input: an invitation with its join link and without
    its Meeting ID line.  The thread is extracted, the Meeting ID is
    [None], the reports and records are fetched (five requests), and
    [save_attendance_report] raises AttributeError: [process_email_html]
    lets it through, and no file is written. *)
Theorem process_email_html_raises :
  let out :=
    process_email_html invitation_without_meeting_id_html true
      (initial_state 0) in
  extract_meeting_info invitation_without_meeting_id_html
  = Ok meeting_info_without_id
  /\ out.1 = Raise (Exn AttributeError
                      "'NoneType' object has no attribute 'replace'")
  /\ length (sent out.2) = 5
  /\ files out.2 = [].
Proof. vm_compute. repeat split. Qed.

End MainOnTestDouble.

(** ** refresh_token.py *)

Section RefreshFacts.
Context `{Platform}.

Lemma bind_eprint {B} (line : string) (k : unit -> M B) (s : State) :
  bind (eprint line) k s = k tt (eprint line s).2.
Proof. reflexivity. Qed.

Lemma try_except_ok {A} (m : M A) (h : exn -> M A) (s s' : State) (a : A) :
  m s = (Ok a, s') -> try_except m h s = (Ok a, s').
Proof. unfold try_except. by intros ->. Qed.

Lemma refresh_handler_none (e : exn) (s1 : State) :
  exists s2, refresh_handler e s1 = (Ok VNone, s2) /\ same_effects s1 s2
             /\ world s2 = world s1.
Proof.
  destruct e as [cls msg|msg resp]; unfold refresh_handler;
    [|destruct (response_json resp)];
    (eexists; split; [reflexivity|]; by repeat split).
Qed.

(** The request and what follows it, from any state [s0]: what the answer
    of the token endpoint and the file system make of the refresh. *)
Lemma refresh_exchange (g : refresh_settings) (refresh_token : string)
    (s0 : State) (answer : result response) (w : World) :
  requests_post (refresh_request g refresh_token) (world s0) = (answer, w) ->
  exists v s',
    try_except
      (response <- http_post (token_url g)
         [ ("grant_type", "refresh_token");
           ("client_id", rt_CLIENT_ID g);
           ("client_secret", rt_CLIENT_SECRET g);
           ("refresh_token", refresh_token);
           ("scope", rt_SCOPE g) ]
         [ ("Content-Type", "application/x-www-form-urlencoded") ] ;;
       lift (raise_for_status response) ;;;
       result <- lift (response_json response) ;;
       has_access_token <- lift (py_in "access_token" result) ;;
       if has_access_token then
         access_token <- lift (py_getitem result "access_token") ;;
         new_refresh_token <-
           lift (py_get result "refresh_token" (VStr refresh_token)) ;;
         print long_rule ;;;
         print "SUCCESS - NEW ACCESS TOKEN OBTAINED" ;;;
         print long_rule ;;;
         print (nl +:+ "Bearer Token: " +:+ py_str access_token) ;;;
         token_type <- lift (py_get result "token_type" (VStr "Bearer")) ;;
         print (nl +:+ "Token Type: " +:+ py_str token_type) ;;;
         expires_in <- lift (py_get result "expires_in" (VStr "N/A")) ;;
         print ("Expires In: " +:+ py_str expires_in +:+ " seconds") ;;;
         has_refresh_token <- lift (py_in "refresh_token" result) ;;
         (if has_refresh_token
          then print (nl +:+ "New Refresh Token: " +:+ py_str new_refresh_token)
          else ret tt) ;;;
         output <- lift (refresh_output g result access_token new_refresh_token) ;;
         output_token_type <- lift (dict_getitem "token_type" output) ;;
         output_expires_in <- lift (dict_getitem "expires_in" output) ;;
         write_file "access_token.txt"
           (FText ("Bearer Token: " +:+ py_str access_token +:+ nl
                   +:+ "Token Type: " +:+ py_str output_token_type +:+ nl
                   +:+ "Expires In: " +:+ py_str output_expires_in
                   +:+ " seconds" +:+ nl
                   +:+ nl +:+ "Refresh Token: " +:+ py_str new_refresh_token
                   +:+ nl)) ;;;
         eprint (nl +:+ "✓ Token saved to: access_token.txt") ;;;
         ret result
       else
         eprint "Error: No access_token in response" ;;;
         eprint ("Response: " +:+ json_dumps result) ;;;
         ret VNone)
      refresh_handler s0
    = (Ok v, s')
    /\ sent s' = (sent s0 ++ [refresh_request g refresh_token])%list
    /\ heap s' = heap s0 /\ dirs s' = dirs s0 /\ world s' = w
    /\ match granted_by answer with
       | Some d =>
           stdout s' = (stdout s0 ++ success_lines refresh_token d)%list
           /\ match open_error "access_token.txt" s0 with
              | None =>
                  v = VDict d
                  /\ files s'
                     = dict_set "access_token.txt"
                         (FText (access_token_text refresh_token d)) (files s0)
              | Some _ => v = VNone /\ files s' = files s0
              end
       | None => v = VNone /\ files s' = files s0 /\ stdout s' = stdout s0
       end.
Proof.
  intros Hpost.
  assert (Hraise : forall e,
    let s1 := set_world w (log_request (refresh_request g refresh_token) s0) in
    exists v s',
      refresh_handler e s1 = (Ok v, s')
      /\ sent s' = (sent s0 ++ [refresh_request g refresh_token])%list
      /\ heap s' = heap s0 /\ dirs s' = dirs s0 /\ world s' = w
      /\ v = VNone /\ files s' = files s0 /\ stdout s' = stdout s0).
  { intros e s1.
    destruct (refresh_handler_none e s1)
      as (s2 & -> & (Hs & Hh & Hf & Ho & Hd) & Hw).
    exists VNone, s2. split; [reflexivity|]. split; [by rewrite Hs|].
    split; [by rewrite Hh|]. split; [by rewrite Hd|].
    split; [by rewrite Hw|]. split; [reflexivity|].
    split; [by rewrite Hf|by rewrite Ho]. }
  rewrite try_except_eq, bind_http_post.
  fold (refresh_request g refresh_token). rewrite Hpost.
  destruct answer as [resp|e]; [|exact (Hraise e)].
  rewrite bind_lift. unfold granted_by.
  destruct (raise_for_status resp) as [[]|e]; [|exact (Hraise e)].
  rewrite bind_lift. unfold response_json.
  destruct (json_body resp) as [result|];
    [|exact (Hraise (Exn ValueError "Expecting value"))].
  rewrite bind_lift.
  destruct (py_in "access_token" result) as [[|]|e] eqn:Hin;
    [| |destruct result as [| |n|str|l|d]; try discriminate; exact (Hraise e)].
  - rewrite bind_lift.
    destruct (py_getitem result "access_token") as [access|e] eqn:Hget;
      [|destruct result as [| |n|str|l|d]; try exact (Hraise e);
        cbn [py_in] in Hin; injection Hin as Hin;
        cbn [py_getitem] in Hget; unfold dict_getitem in Hget;
        unfold dict_has in Hin;
        destruct (dict_lookup "access_token" d); discriminate].
    destruct result as [| |n|str|l|d]; try discriminate.
    cbn [py_in] in Hin. injection Hin as Hin. rewrite Hin.
    cbn [py_getitem] in Hget. unfold dict_getitem in Hget.
    destruct (dict_lookup "access_token" d) as [a|] eqn:Ha; [|discriminate].
    injection Hget as ->.
    cbn [py_get]. rewrite bind_lift_ok.
    rewrite !bind_print, bind_lift_ok, bind_print, bind_lift_ok, bind_print.
    cbn [py_in]. rewrite bind_lift_ok.
    unfold refresh_output. cbn [py_get mbind result_bind].
    assert (access_token_text refresh_token d
            = "Bearer Token: " +:+ py_str access +:+ nl
              +:+ "Token Type: "
              +:+ py_str (dict_get "token_type" (VStr "Bearer") d)
              +:+ nl +:+ "Expires In: "
              +:+ py_str (dict_get "expires_in" VNone d)
              +:+ " seconds" +:+ nl +:+ nl +:+ "Refresh Token: "
              +:+ py_str (dict_get "refresh_token"
                            (VStr refresh_token) d) +:+ nl) as Htext.
    { unfold access_token_text, dict_get at 1. by rewrite Ha. }
    assert (Hacc : dict_get "access_token" VNone d = access)
      by (unfold dict_get; by rewrite Ha).
    assert (forall (k : unit -> M value) st,
               bind (if dict_has "refresh_token" d
                     then print (nl +:+ "New Refresh Token: "
                                 +:+ py_str (dict_get "refresh_token"
                                               (VStr refresh_token) d))
                     else ret tt) k st
               = k tt (if dict_has "refresh_token" d
                       then printed [nl +:+ "New Refresh Token: "
                                     +:+ py_str (dict_get "refresh_token"
                                                   (VStr refresh_token) d)] st
                       else st)) as ->
      by (intros; by destruct (dict_has "refresh_token" d)).
    rewrite bind_lift_ok.
    change (dict_getitem "token_type" _)
      with (@Ok value (dict_get "token_type" (VStr "Bearer") d)).
    rewrite bind_lift_ok.
    change (dict_getitem "expires_in" _)
      with (@Ok value (dict_get "expires_in" VNone d)).
    rewrite bind_lift_ok. rewrite <- Htext.
    match goal with
    | |- context [bind (write_file ?p ?c) ?k ?st] =>
        set (s1 := st);
        assert (Hs1 : sent s1 = (sent s0 ++ [refresh_request g refresh_token])%list
                      /\ heap s1 = heap s0 /\ dirs s1 = dirs s0
                      /\ world s1 = w /\ files s1 = files s0
                      /\ stdout s1
                         = (stdout s0 ++ success_lines refresh_token d)%list)
          by (subst s1; unfold success_lines; rewrite Hacc;
              destruct (dict_has "refresh_token" d);
              cbn [sent heap dirs world files stdout printed fold_left print
                   snd set_world log_request];
              repeat split; by rewrite <- ?app_assoc);
        clearbody s1
    end.
    destruct Hs1 as (Hse & Hhe & Hdi & Hwo & Hfi & Hso).
    assert (Hop : open_error "access_token.txt" s1
                  = open_error "access_token.txt" s0)
      by (by apply open_error_same).
    destruct (open_error "access_token.txt" s0) as [e|] eqn:Ho.
    + erewrite write_file_refused by exact Hop.
      destruct (refresh_handler_none e s1)
        as (s2 & -> & (Hs & Hh & Hf & Hout & Hd) & Hw).
      exists VNone, s2. split; [reflexivity|].
      split; [by rewrite Hs|]. split; [by rewrite Hh|].
      split; [by rewrite Hd|]. split; [by rewrite Hw|].
      split; [by rewrite Hout|]. split; [reflexivity|]. by rewrite Hf.
    + rewrite bind_write_file by exact Hop. rewrite bind_eprint.
      eexists _, _. split; [reflexivity|].
      cbn [sent heap dirs world files stdout eprint snd].
      unfold write_file. rewrite Hop.
      cbn [sent heap dirs world files stdout snd].
      rewrite Hfi. done.
  - destruct result as [| |n|str|l|d]; try discriminate;
      cbn [py_in] in Hin; injection Hin as Hin; try rewrite Hin;
      rewrite !bind_eprint; eexists _, _; (split; [reflexivity|]);
      by repeat split.
Qed.

(** Every outcome of [refresh_access_token], by the answer of the token
    endpoint and by whether [access_token.txt] can be opened. *)
Lemma refresh_access_token_outcome (g : refresh_settings)
    (refresh_token : string) (s : State) (answer : result response)
    (w : World) :
  requests_post (refresh_request g refresh_token) (world s) = (answer, w) ->
  exists v s',
    refresh_access_token g refresh_token s = (Ok v, s')
    /\ sent s' = (sent s ++ [refresh_request g refresh_token])%list
    /\ heap s' = heap s /\ dirs s' = dirs s /\ world s' = w
    /\ match granted_by answer with
       | Some d =>
           stdout s' = (stdout s ++ success_lines refresh_token d)%list
           /\ match open_error "access_token.txt" s with
              | None =>
                  v = VDict d
                  /\ files s'
                     = dict_set "access_token.txt"
                         (FText (access_token_text refresh_token d)) (files s)
              | Some _ => v = VNone /\ files s' = files s
              end
       | None => v = VNone /\ files s' = files s /\ stdout s' = stdout s
       end.
Proof.
  intros Hpost.
  unfold refresh_access_token. rewrite !bind_eprint.
  fold refresh_handler.
  match goal with
  | |- context [try_except _ _ ?st] =>
      destruct (refresh_exchange g refresh_token st answer w Hpost)
        as (v & s' & Hrun & Hs & Hh & Hd & Hw & Hcases);
      assert (Hop : open_error "access_token.txt" st
                    = open_error "access_token.txt" s)
        by (by apply open_error_same)
  end.
  rewrite Hop in Hcases.
  exists v, s'. split; [exact Hrun|]. split; [exact Hs|]. split; [exact Hh|].
  split; [exact Hd|]. split; [exact Hw|]. exact Hcases.
Qed.

(** C10. When the token endpoint answers the refresh with a dictionary that
    has an [access_token] and no [refresh_token], the refresh token
    [refresh_access_token] was called with is the one in the [output]
    dictionary, and the standard output has no line for a new refresh
    token.  When [access_token.txt] can be opened, the function returns the
    dictionary of the answer, and the refresh token it was called with is
    the one written, unchanged, on the last line of the file.  When the
    file cannot be opened, the handler of the function takes the exception:
    the result is [None] and no file is written. *)
Theorem refresh_keeps_supplied_token (g : refresh_settings)
    (refresh_token : string) (s : State) (resp : response) (w : World)
    (d : dict value) (access_token : value) :
  requests_post
    (Request "POST" (token_url g)
       [ ("Content-Type", "application/x-www-form-urlencoded") ] []
       [ ("grant_type", "refresh_token");
         ("client_id", rt_CLIENT_ID g);
         ("client_secret", rt_CLIENT_SECRET g);
         ("refresh_token", refresh_token);
         ("scope", rt_SCOPE g) ])
    (world s) = (Ok resp, w) ->
  raise_for_status resp = Ok tt ->
  json_body resp = Some (VDict d) ->
  dict_lookup "access_token" d = Some access_token ->
  dict_lookup "refresh_token" d = None ->
  let out := refresh_access_token g refresh_token s in
  (exists output,
      refresh_output g (VDict d) access_token
        (dict_get "refresh_token" (VStr refresh_token) d) = Ok output
      /\ dict_lookup "refresh_token" output = Some (VStr refresh_token))
  /\ stdout out.2
     = (stdout s ++
        [ long_rule; "SUCCESS - NEW ACCESS TOKEN OBTAINED"; long_rule;
          nl +:+ "Bearer Token: " +:+ py_str access_token;
          nl +:+ "Token Type: "
          +:+ py_str (dict_get "token_type" (VStr "Bearer") d);
          "Expires In: "
          +:+ py_str (dict_get "expires_in" (VStr "N/A") d) +:+ " seconds" ])%list
  /\ (open_error "access_token.txt" s = None ->
      out.1 = Ok (VDict d)
      /\ dict_lookup "access_token.txt" (files out.2)
         = Some (FText
                   ("Bearer Token: " +:+ py_str access_token +:+ nl
                    +:+ "Token Type: "
                    +:+ py_str (dict_get "token_type" (VStr "Bearer") d) +:+ nl
                    +:+ "Expires In: "
                    +:+ py_str (dict_get "expires_in" VNone d)
                    +:+ " seconds" +:+ nl
                    +:+ nl +:+ "Refresh Token: " +:+ refresh_token +:+ nl)))
  /\ (open_error "access_token.txt" s <> None ->
      out.1 = Ok VNone /\ files out.2 = files s).
Proof.
  intros Hpost Hstatus Hjson Hat Hrt out.
  split.
  { unfold refresh_output, dict_get. rewrite Hrt. simpl. by eexists. }
  destruct (refresh_access_token_outcome g refresh_token s (Ok resp) w Hpost)
    as (v & s' & Hrun & _ & _ & _ & _ & Hcases).
  subst out. rewrite Hrun. cbn [fst snd].
  unfold granted_by in Hcases. rewrite Hstatus, Hjson in Hcases.
  unfold dict_has at 1 in Hcases. rewrite Hat in Hcases.
  destruct Hcases as [Hso Hcases].
  unfold success_lines, dict_has in Hso. rewrite Hrt in Hso.
  unfold dict_get at 1 in Hso. rewrite Hat, app_nil_r in Hso.
  split; [exact Hso|].
  destruct (open_error "access_token.txt" s) as [e|].
  - destruct Hcases as [-> Hf]. split; [intros [=]|]. intros _.
    split; [reflexivity|exact Hf].
  - destruct Hcases as [-> Hf]. split; [|intros Hn; by destruct Hn]. intros _.
    split; [reflexivity|]. rewrite Hf, dict_lookup_set_eq.
    unfold access_token_text, dict_get. by rewrite Hat, Hrt.
Qed.

End RefreshFacts.

Section RefreshOnTestDouble.
#[local] Existing Instance default_platform.

(** C10, witness: the token endpoint of the test double answers with an
    access token and no refresh token; the refresh token [RT1] the
    function was called with is the one written to the file. *)
Lemma refresh_keeps_supplied_token_witness :
  let g := {| rt_TENANT_ID := "tenant"; rt_CLIENT_ID := "client";
              rt_CLIENT_SECRET := "secret"; rt_SCOPE := "Calendars.Read" |} in
  let out := refresh_access_token g "RT1" (initial_state 0) in
  out.1 = Ok (VDict [ ("access_token", VStr "AT2"); ("expires_in", VInt 3600) ])
  /\ dict_lookup "access_token.txt" (files out.2)
     = Some (FText ("Bearer Token: AT2" +:+ nl +:+ "Token Type: Bearer" +:+ nl
                    +:+ "Expires In: 3600 seconds" +:+ nl +:+ nl
                    +:+ "Refresh Token: RT1" +:+ nl)).
Proof.
  intros g out.
  destruct (refresh_keeps_supplied_token g "RT1" (@initial_state default_platform 0)
              (Response 200 "" (Some (VDict [ ("access_token", VStr "AT2");
                                             ("expires_in", VInt 3600) ])))
              0 [ ("access_token", VStr "AT2"); ("expires_in", VInt 3600) ]
              (VStr "AT2"))
    as (_ & _ & Hf & _); try reflexivity.
  apply Hf. reflexivity.
Defined.

End RefreshOnTestDouble.

(** * Further properties *)

(** ** Further facts on strings and patterns *)

Lemma str_app_cons (x : ascii) (a b : string) :
  String x a +:+ b = String x (a +:+ b).
Proof. reflexivity. Qed.

Lemma str_app_assoc (a b c : string) : (a +:+ b) +:+ c = a +:+ (b +:+ c).
Proof.
  induction a as [|x a IH]; [reflexivity|]. rewrite !str_app_cons. by rewrite IH.
Qed.

Lemma str_app_nil_r (a : string) : a +:+ "" = a.
Proof.
  induction a as [|x a IH]; [reflexivity|]. rewrite str_app_cons. by rewrite IH.
Qed.

Lemma str_app_length (a b : string) :
  String.length (a +:+ b) = String.length a + String.length b.
Proof.
  induction a as [|x a IH]; [reflexivity|]. rewrite str_app_cons. simpl.
  by rewrite IH.
Qed.

Lemma str_take_drop (j : nat) (s : string) : str_take j s +:+ str_drop j s = s.
Proof.
  revert s; induction j as [|j IH]; intros [|a s]; simpl; try reflexivity.
  rewrite str_app_cons. by rewrite IH.
Qed.

Lemma str_drop_drop (i j : nat) (s : string) :
  str_drop i (str_drop j s) = str_drop (j + i) s.
Proof.
  revert s; induction j as [|j IH]; intros s; simpl; [reflexivity|].
  destruct s as [|a s]; [by destruct i|]. apply IH.
Qed.

Lemma str_drop_length (j : nat) (s : string) :
  String.length (str_drop j s) = String.length s - j.
Proof.
  revert s; induction j as [|j IH]; intros [|a s]; simpl; try reflexivity.
  apply IH.
Qed.

Lemma strip_prefix_inv (p s r : string) :
  strip_prefix p s = Some r -> s = p +:+ r.
Proof.
  revert s; induction p as [|a p IH]; intros s; simpl.
  - by intros [= ->].
  - destruct s as [|b s]; [discriminate|].
    destruct (Ascii.eqb a b) eqn:E; [|discriminate].
    apply Ascii.eqb_eq in E as ->. intros Hp. rewrite str_app_cons.
    by rewrite (IH _ Hp).
Qed.

Lemma starts_with_inv (p s : string) :
  starts_with p s = true -> exists r, s = p +:+ r.
Proof.
  unfold starts_with. destruct (strip_prefix p s) as [r|] eqn:E; [|discriminate].
  intros _. exists r. by apply strip_prefix_inv.
Qed.

(** No character of the greedy run is the excluded one. *)
Lemma has_char_take_span (c : ascii) (j : nat) (s : string) :
  j <= span_not c s -> has_char c (str_take j s) = false.
Proof.
  revert s; induction j as [|j IH]; intros s Hj; [reflexivity|].
  destruct s as [|a s]; [reflexivity|]. simpl in *.
  destruct (Ascii.eqb a c); [lia|]. simpl. apply IH. lia.
Qed.

(** The run is maximal: what follows it is empty or starts with the
    excluded character. *)
Lemma str_drop_span (c : ascii) (s : string) :
  str_drop (span_not c s) s = ""
  \/ exists r, str_drop (span_not c s) s = String c r.
Proof.
  induction s as [|a s IH]; simpl; [by left|].
  destruct (Ascii.eqb a c) eqn:E; simpl; [|exact IH].
  apply Ascii.eqb_eq in E as ->. right. by eexists.
Qed.

Lemma span_not_full (c : ascii) (s : string) :
  has_char c s = false -> span_not c s = String.length s.
Proof.
  induction s as [|a s IH]; simpl; [reflexivity|].
  destruct (Ascii.eqb a c); simpl; [discriminate|]. intros Hs. by rewrite IH.
Qed.

Lemma has_char_app (c : ascii) (a b : string) :
  has_char c (a +:+ b) = has_char c a || has_char c b.
Proof.
  induction a as [|x a IH]; [reflexivity|]. rewrite str_app_cons. simpl.
  by rewrite IH, orb_assoc.
Qed.

(** What [backtrack] returns: the longest capture, of at most [k]
    characters, that the suffix follows. *)
Lemma backtrack_spec (suffix s : string) (k : nat) (g : string) :
  backtrack suffix s k = Some g ->
  exists j, 0 < j /\ j <= k /\ g = str_take j s
            /\ starts_with suffix (str_drop j s) = true
            /\ forall j', j < j' -> j' <= k ->
                 starts_with suffix (str_drop j' s) = false.
Proof.
  induction k as [|k IH]; cbn [backtrack]; [discriminate|].
  destruct (starts_with suffix _) eqn:E.
  - intros [= <-]. exists (S k).
    split; [lia|]. split; [lia|]. split; [reflexivity|]. split; [exact E|].
    intros; lia.
  - intros Hk. destruct (IH Hk) as (j & ? & ? & ? & ? & Hmax).
    exists j. split; [lia|]. split; [lia|]. split; [assumption|].
    split; [assumption|].
    intros j' ? ?. destruct (decide (j' = S k)) as [->|]; [exact E|].
    apply Hmax; lia.
Qed.

Lemma backtrack_some (suffix s : string) (k j : nat) :
  0 < j -> j <= k -> starts_with suffix (str_drop j s) = true ->
  exists g, backtrack suffix s k = Some g.
Proof.
  intros Hj Hk Hs. induction k as [|k IH]; [lia|]. cbn [backtrack].
  destruct (starts_with suffix (str_drop (S k) s)) eqn:E;
    [eexists; reflexivity|].
  apply IH. destruct (decide (j = S k)) as [->|]; [|lia].
  rewrite Hs in E. discriminate.
Qed.

(** An occurrence of [sub] in [s], by its position. *)
Lemma str_contains_drop (sub s : string) :
  str_contains sub s = true ->
  exists i, i <= String.length s /\ starts_with sub (str_drop i s) = true.
Proof.
  induction s as [|a s IH]; simpl.
  - rewrite orb_false_r. intros Hs. exists 0. split; [lia|exact Hs].
  - destruct (starts_with sub (String a s)) eqn:E; simpl.
    + intros _. exists 0. split; [lia|exact E].
    + intros Hs. destruct (IH Hs) as (i & Hi & Hd).
      exists (S i). split; [lia|exact Hd].
Qed.

Lemma starts_with_length (p s : string) :
  starts_with p s = true -> String.length p <= String.length s.
Proof.
  intros Hp. destruct (starts_with_inv _ _ Hp) as (r & ->).
  rewrite str_app_length. lia.
Qed.

(** An anchored match, read back on the subject: the prefix, the capture,
    the suffix and a rest.  The capture is not empty and has no excluded
    character.  With an empty suffix the capture ends where the subject
    ends or at an excluded character; in a subject without any excluded
    character the suffix does not occur again in the rest. *)
Lemma match_here_inv (p : pattern) (s g : string) :
  match_here p s = Some g ->
  exists after,
    s = pre p +:+ g +:+ post p +:+ after
    /\ g <> "" /\ has_char (excl p) g = false
    /\ (post p = "" -> after = "" \/ exists r, after = String (excl p) r)
    /\ (has_char (excl p) s = false -> post p <> "" ->
        str_contains (post p) after = false).
Proof.
  unfold match_here.
  destruct (strip_prefix (pre p) s) as [rest|] eqn:Hpre; [|discriminate].
  apply strip_prefix_inv in Hpre. intros Hb.
  destruct (backtrack_spec _ _ _ _ Hb) as (j & Hj & Hk & -> & Hpost & Hmax).
  destruct (starts_with_inv _ _ Hpost) as (after & Hafter).
  pose proof (span_not_le_length (excl p) rest) as Hlen.
  exists after. split; [|split; [|split; [|split]]].
  - rewrite Hpre. f_equal. rewrite <- Hafter. by rewrite str_take_drop.
  - apply str_take_nonempty; lia.
  - by apply has_char_take_span.
  - intros Hempty. rewrite Hempty in *.
    change ("" +:+ after) with after in Hafter.
    assert (j = span_not (excl p) rest) as ->.
    { destruct (decide (j = span_not (excl p) rest)) as [|Hne]; [done|].
      assert (j < span_not (excl p) rest) as Hlt by lia.
      specialize (Hmax _ Hlt (Nat.le_refl _)). discriminate Hmax. }
    rewrite <- Hafter. apply str_drop_span.
  - intros Hno Hne.
    destruct (str_contains (post p) after) eqn:Hocc; [|reflexivity].
    exfalso. destruct (str_contains_drop _ _ Hocc) as (i & Hi & Hd).
    assert (has_char (excl p) rest = false) as Hrest.
    { rewrite Hpre, has_char_app in Hno. by apply orb_false_elim in Hno as [_ ?]. }
    rewrite (span_not_full _ _ Hrest) in *.
    assert (0 < String.length (post p)) as Hp
      by (destruct (post p); [done|simpl; lia]).
    assert (after = str_drop (String.length (post p)) (str_drop j rest)) as Ha.
    { rewrite Hafter. clear. induction (post p) as [|a q IH]; [done|].
      rewrite str_app_cons. simpl. exact IH. }
    rewrite Ha, !str_drop_drop in Hd.
    pose proof (starts_with_length _ _ Hd) as Hl.
    rewrite str_drop_length in Hl.
    rewrite Hmax in Hd; [discriminate|lia|lia].
Qed.

Lemma re_search_inv (p : pattern) (s g : string) :
  re_search p s = Some g ->
  exists before after,
    s = before +:+ pre p +:+ g +:+ post p +:+ after
    /\ g <> "" /\ has_char (excl p) g = false
    /\ (post p = "" -> after = "" \/ exists r, after = String (excl p) r)
    /\ (has_char (excl p) s = false -> post p <> "" ->
        str_contains (post p) after = false).
Proof.
  induction s as [|a s IH]; simpl.
  - destruct (match_here p "") eqn:E; [|discriminate].
    intros [= <-]. destruct (match_here_inv _ _ _ E) as (after & ?).
    by exists "", after.
  - destruct (match_here p (String a s)) eqn:E.
    + intros [= <-]. destruct (match_here_inv _ _ _ E) as (after & ?).
      by exists "", after.
    + intros Hs. destruct (IH Hs) as (before & after & -> & ? & ? & ? & Hl).
      exists (String a before), after. rewrite str_app_cons.
      split; [done|]. split; [done|]. split; [done|]. split; [done|].
      intros Hno. apply Hl. simpl in Hno. by apply orb_false_elim in Hno as [_ ?].
Qed.

(** The match is the leftmost one: no earlier position matches. *)
Lemma re_search_leftmost (p : pattern) (s g : string) :
  re_search p s = Some g ->
  exists i, match_here p (str_drop i s) = Some g
            /\ i <= String.length s
            /\ forall i', i' < i -> match_here p (str_drop i' s) = None.
Proof.
  induction s as [|a s IH]; simpl.
  - destruct (match_here p "") eqn:E; [|discriminate].
    intros [= <-]. exists 0. split; [exact E|]. split; [lia|]. intros; lia.
  - destruct (match_here p (String a s)) eqn:E.
    + intros [= <-]. exists 0. split; [exact E|]. split; [lia|]. intros; lia.
    + intros Hs. destruct (IH Hs) as (i & Hi & Hl & Hmin).
      exists (S i). split; [exact Hi|]. split; [lia|].
      intros [|i'] Hlt; [exact E|]. apply Hmin. lia.
Qed.

Lemma str_drop_app (a b : string) : str_drop (String.length a) (a +:+ b) = b.
Proof. induction a as [|x a IH]; [reflexivity|]. exact IH. Qed.

Lemma str_contains_app_r (sub a b : string) :
  str_contains sub b = true -> str_contains sub (a +:+ b) = true.
Proof.
  intros Hb. induction a as [|x a IH]; [exact Hb|].
  rewrite str_app_cons. simpl. rewrite IH. apply orb_true_r.
Qed.

Lemma str_drop_app_le (i : nat) (a b : string) :
  i <= String.length a ->
  str_drop i (a +:+ b) = str_drop i a +:+ b.
Proof.
  revert a; induction i as [|i IH]; intros a Hi; [reflexivity|].
  destruct a as [|x a]; simpl in Hi; [lia|]. rewrite str_app_cons. simpl.
  apply IH. lia.
Qed.

Lemma has_char_drop (c : ascii) (i : nat) (s : string) :
  has_char c s = false -> has_char c (str_drop i s) = false.
Proof.
  revert s; induction i as [|i IH]; intros s Hs; [exact Hs|].
  destruct s as [|a s]; [reflexivity|]. simpl in *.
  apply orb_false_elim in Hs as [_ Hs]. by apply IH.
Qed.

Lemma str_contains_drop_r (sub : string) (i : nat) (s : string) :
  str_contains sub (str_drop i s) = true -> str_contains sub s = true.
Proof.
  revert s; induction i as [|i IH]; intros s Hs; [exact Hs|].
  destruct s as [|a s]; [exact Hs|]. simpl in Hs. apply IH in Hs.
  simpl. rewrite Hs. apply orb_true_r.
Qed.

(** ** email_parser.py: where the identifiers come from *)

Section EmailParserMore.
Context `{Platform}.

(** The four link fields of a result of [extract_meeting_info]: all
    [None] without a join anchor, and otherwise what the three searches
    find in the link. *)
Lemma extract_link_fields (html_body : string) (mi : dict value) :
  extract_meeting_info html_body = Ok mi ->
  let field (m : option string) (f : string -> string) :=
    Some (match m with Some g => VStr (f g) | None => VNone end) in
  (dict_lookup "join_link" mi = Some VNone
   /\ dict_lookup "thread_id" mi = Some VNone
   /\ dict_lookup "tenant_id" mi = Some VNone
   /\ dict_lookup "organizer_id" mi = Some VNone)
  \/ exists link,
       dict_lookup "join_link" mi = Some (VStr link)
       /\ dict_lookup "thread_id" mi
          = field (re_search thread_pattern link) (fun g => "19:meeting_" +:+ g)
       /\ dict_lookup "tenant_id" mi = field (re_search context_pattern link) id
       /\ dict_lookup "organizer_id" mi = field (re_search oid_pattern link) id.
Proof.
  intros He. destruct (extract_meeting_info_parsed _ _ He) as [sp Hsp].
  revert He. rewrite extract_meeting_info_eq, Hsp.
  cbn [mbind result_bind]; cbv zeta.
  destruct (labelled_text _ "Meeting ID:") as [t1|];
  destruct (labelled_text _ "Passcode:") as [t2|];
  destruct (find_by_id _ _ _) as [a|];
  intros [= <-];
  try (left; repeat split; reflexivity);
  right; exists (default "" (tag_attr a "href"));
  destruct (re_search oid_pattern _), (re_search context_pattern _),
    (re_search thread_pattern _); repeat split; reflexivity.
Qed.

(** X3. Every identifier [extract_meeting_info] returns is read off the
    join link it returns.  A [thread_id] is [19:meeting_] followed by the
    text that follows [19%3ameeting_] in the link, up to the next percent
    sign or the end of the link.  A [tenant_id] is a non-empty text without
    a double quote that stands in the link between
    [context=%7b%22Tid%22%3a%22] and [%22]; an [organizer_id] one that
    stands between [%22Oid%22%3a%22] and [%22]. *)
Theorem identifiers_occur_in_join_link (html_body : string) (mi : dict value) :
  extract_meeting_info html_body = Ok mi ->
  (forall t, dict_lookup "thread_id" mi = Some (VStr t) ->
     exists link opaque after,
       dict_lookup "join_link" mi = Some (VStr link)
       /\ t = "19:meeting_" +:+ opaque
       /\ found_by thread_pattern link opaque after
       /\ opaque <> "" /\ has_char "%" opaque = false
       /\ (after = "" \/ exists r, after = String "%" r))
  /\ (forall t, dict_lookup "tenant_id" mi = Some (VStr t) ->
     exists link after,
       dict_lookup "join_link" mi = Some (VStr link)
       /\ found_by context_pattern link t after
       /\ t <> "" /\ has_char dquote t = false)
  /\ (forall t, dict_lookup "organizer_id" mi = Some (VStr t) ->
     exists link after,
       dict_lookup "join_link" mi = Some (VStr link)
       /\ found_by oid_pattern link t after
       /\ t <> "" /\ has_char dquote t = false).
Proof.
  intros Hex.
  destruct (extract_link_fields _ _ Hex)
    as [(_ & -> & -> & ->)|(link & Hl & -> & -> & ->)];
    [repeat split; intros; discriminate|].
  split; [|split].
  - destruct (re_search thread_pattern link) as [g|] eqn:Hs; [|discriminate].
    intros t [= <-].
    destruct (re_search_inv _ _ _ Hs) as (before & after & ? & ? & ? & He & _).
    exists link, g, after. split; [exact Hl|]. split; [reflexivity|].
    split; [by exists before|]. split; [assumption|]. split; [assumption|].
    by apply He.
  - destruct (re_search context_pattern link) as [g|] eqn:Hs; [|discriminate].
    intros t [= <-].
    destruct (re_search_inv _ _ _ Hs) as (before & after & ? & ? & ? & _).
    exists link, after. split; [exact Hl|]. split; [by exists before|]. done.
  - destruct (re_search oid_pattern link) as [g|] eqn:Hs; [|discriminate].
    intros t [= <-].
    destruct (re_search_inv _ _ _ Hs) as (before & after & ? & ? & ? & _).
    exists link, after. split; [exact Hl|]. split; [by exists before|]. done.
Qed.


(** In a link without a double quote, a quoted value that another [%22]
    follows is not what the pattern captures. *)
Lemma quoted_value_missed (p : pattern) (link before v rest : string) :
  has_char (excl p) link = false -> post p <> "" ->
  link = before +:+ pre p +:+ v +:+ post p +:+ rest ->
  v <> "" -> str_contains (post p) rest = true ->
  re_search p link <> Some v.
Proof.
  intros Hno Hpost Hlink Hv Hrest Hs.
  destruct (re_search_leftmost _ _ _ Hs) as (i & Hi & Hle & Hmin).
  set (n := String.length before).
  assert (str_drop n link = pre p +:+ v +:+ post p +:+ rest) as Hn
    by (rewrite Hlink; apply str_drop_app).
  assert (i <= n) as Hin.
  { destruct (decide (i <= n)) as [|Hgt]; [done|]. exfalso.
    assert (match_here p (str_drop n link) = None) as Hnone
      by (apply Hmin; lia).
    rewrite Hn in Hnone. unfold match_here in Hnone.
    rewrite strip_prefix_app in Hnone.
    assert (has_char (excl p) (v +:+ post p +:+ rest) = false) as Hv'.
    { pose proof (has_char_drop _ n _ Hno) as Hd. rewrite Hn in Hd.
      rewrite has_char_app in Hd. by apply orb_false_elim in Hd as [_ ?]. }
    rewrite (span_not_full _ _ Hv') in Hnone.
    destruct (backtrack_some (post p) (v +:+ post p +:+ rest)
                (String.length (v +:+ post p +:+ rest)) (String.length v))
      as (g & Hg).
    - destruct v; [done|simpl; lia].
    - rewrite str_app_length. lia.
    - rewrite str_drop_app. apply starts_with_app.
    - congruence. }
  destruct (match_here_inv _ _ _ Hi) as (after & Hd & _ & _ & _ & Hlast).
  specialize (Hlast (has_char_drop _ _ _ Hno) Hpost).
  assert (rest = str_drop (n - i) after) as ->.
  { set (x := pre p +:+ v +:+ post p) in *.
    assert (str_drop n link = x +:+ rest) as Hn'
      by (rewrite Hn; unfold x; by rewrite !str_app_assoc).
    assert (str_drop i link = x +:+ after) as Hi'
      by (rewrite Hd; unfold x; by rewrite !str_app_assoc).
    replace n with (i + (n - i)) in Hn' by lia.
    rewrite <- str_drop_drop, Hi' in Hn'.
    rewrite <- (str_drop_app x rest), <- Hn', str_drop_drop.
    replace (n - i + String.length x) with (String.length x + (n - i)) by lia.
    by rewrite <- str_drop_drop, str_drop_app. }
  apply str_contains_drop_r in Hrest. congruence.
Qed.

(** X4. In a join link without a literal double quote (a percent-encoded
    link has none), the [tenant_id] and the [organizer_id] that
    [extract_meeting_info] returns run up to the LAST [%22] of the link:
    no [%22] occurs after the one that closes the capture.  So a value
    quoted after [context=%7b%22Tid%22%3a%22] that is followed by a further
    [%22] (as it is when an [Oid] pair comes after it) is never returned as
    [tenant_id]. *)
Theorem quoted_values_run_to_last_quote (html_body : string)
    (mi : dict value) (link : string) :
  extract_meeting_info html_body = Ok mi ->
  dict_lookup "join_link" mi = Some (VStr link) ->
  has_char dquote link = false ->
  (forall t, dict_lookup "tenant_id" mi = Some (VStr t) ->
     exists after, found_by context_pattern link t after
                   /\ str_contains "%22" after = false)
  /\ (forall t, dict_lookup "organizer_id" mi = Some (VStr t) ->
     exists after, found_by oid_pattern link t after
                   /\ str_contains "%22" after = false)
  /\ (forall before tid rest,
        link = before +:+ "context=%7b%22Tid%22%3a%22" +:+ tid +:+ "%22"
               +:+ rest ->
        tid <> "" -> str_contains "%22" rest = true ->
        dict_lookup "tenant_id" mi <> Some (VStr tid)).
Proof.
  intros Hex Hlink Hno.
  destruct (extract_link_fields _ _ Hex)
    as [(Hl & _)|(link' & Hl & _ & Ht & Ho)]; [congruence|].
  assert (link' = link) as -> by congruence.
  rewrite Ht, Ho. split; [|split].
  - destruct (re_search context_pattern link) as [g|] eqn:Hs; [|discriminate].
    intros t [= <-].
    destruct (re_search_inv _ _ _ Hs) as (before & after & ? & _ & _ & _ & Hlast).
    exists after. split; [by exists before|]. by apply Hlast.
  - destruct (re_search oid_pattern link) as [g|] eqn:Hs; [|discriminate].
    intros t [= <-].
    destruct (re_search_inv _ _ _ Hs) as (before & after & ? & _ & _ & _ & Hlast).
    exists after. split; [by exists before|]. by apply Hlast.
  - intros before tid rest Hshape Hne Hrest.
    pose proof (quoted_value_missed context_pattern link before tid rest
                  Hno ltac:(discriminate) Hshape Hne Hrest) as Hmiss.
    destruct (re_search context_pattern link) as [g|]; [|discriminate].
    intros [= ->]. by apply Hmiss.
Qed.

End EmailParserMore.

(** ** config.py: the scopes *)

Lemma str_app_nonempty_r (a : string) (x : ascii) :
  a +:+ String x "" <> "".
Proof. destruct a; discriminate. Qed.

(** A white space character takes one, two or three bytes, all of [s]. *)
Lemma space_width_cases (s : string) :
  space_width s = 0
  \/ (exists a r, s = String a r /\ space_width s = 1)
  \/ (exists a b r, s = String a (String b r) /\ space_width s = 2)
  \/ (exists a b c r,
        s = String a (String b (String c r)) /\ space_width s = 3).
Proof.
  destruct s as [|a [|b [|c r]]]; simpl; [by left|..];
    destruct (is_space a); eauto 10;
    try destruct (is_space2 a b); eauto 10;
    try destruct (is_space3 a b c); eauto 10.
Qed.

(** The white space at the head of a text is at the head of every text it
    starts. *)
Lemma space_width_prefix (x y : string) :
  space_width x <> 0 -> space_width (x +:+ y) = space_width x.
Proof.
  destruct x as [|a [|b [|c r]]]; simpl; [done|..];
    rewrite ?str_app_cons; simpl;
    destruct (is_space a); try done;
    try destruct (is_space2 a b); try done;
    try destruct (is_space3 a b c); done.
Qed.

Lemma space_width_clear_prefix (x y : string) :
  space_width (x +:+ y) = 0 -> space_width x = 0.
Proof.
  intros Hxy. destruct (Nat.eq_dec (space_width x) 0) as [|Hx]; [done|].
  rewrite space_width_prefix in Hxy by exact Hx. done.
Qed.

(** No white space character is cut by a space that follows. *)
Lemma space_width_before_space (x rest : string) :
  x <> "" -> space_width x = 0 ->
  rest = "" \/ (exists r, rest = String " " r) ->
  space_width (x +:+ rest) = 0.
Proof.
  intros Hx Hw [->|[r ->]]; [by rewrite str_app_nil_r|].
  destruct x as [|a [|b [|c x]]]; [done|..]; rewrite ?str_app_cons;
    change ("" +:+ String " " r) with (String " " r);
    revert Hw; simpl; destruct (is_space a); try done.
  - intros _. unfold is_space2, is_space3. simpl. by destruct r.
  - destruct (is_space2 a b); [done|]. intros _.
    unfold is_space3. cbn [nat_of_ascii]. simpl.
    by rewrite !andb_false_r.
Qed.

Lemma has_space_false (s : string) :
  (forall i, i < String.length s -> space_width (str_drop i s) = 0) ->
  has_space s = false.
Proof.
  induction s as [|a s IH]; intros Hs; [reflexivity|].
  cbn [has_space]. pose proof (Hs 0 ltac:(simpl; lia)) as H0.
  cbn [str_drop] in H0. rewrite H0. simpl.
  apply IH. intros i Hi. apply (Hs (S i)). simpl. lia.
Qed.

Lemma has_space_head (a : ascii) (s : string) :
  has_space (String a s) = false ->
  space_width (String a s) = 0 /\ has_space s = false.
Proof.
  cbn [has_space]. intros Hs. apply orb_false_elim in Hs as [Ha Hs].
  apply negb_false_iff, Nat.eqb_eq in Ha. done.
Qed.

(** The two steps of [split_ws_aux]. *)
Lemma split_ws_aux_clear (cur : string) (a : ascii) (r : string) :
  space_width (String a r) = 0 ->
  split_ws_aux cur (String a r) = split_ws_aux (cur +:+ String a "") r.
Proof. intros Hw. cbn [split_ws_aux]. by rewrite Hw. Qed.

Lemma split_ws_aux_space (cur s : string) :
  space_width s <> 0 ->
  split_ws_aux cur s
  = end_word cur (split_ws_aux "" (str_drop (space_width s) s)).
Proof.
  intros Hw.
  destruct (space_width_cases s)
    as [?|[(a & r & -> & Hs)|[(a & b & r & -> & Hs)|(a & b & c & r & -> & Hs)]]];
    [done|..]; cbn [split_ws_aux]; by rewrite Hs.
Qed.

(** [split()] yields words only. *)
Lemma split_ws_aux_words (n : nat) :
  forall s cur,
    String.length s <= n ->
    (forall i, i < String.length cur ->
               space_width (str_drop i (cur +:+ s)) = 0) ->
    Forall (fun w => is_word w = true) (split_ws_aux cur s).
Proof.
  induction n as [|n IH]; intros s cur Hn Hcur.
  - destruct s; [|simpl in Hn; lia]. cbn [split_ws_aux].
    destruct cur as [|c cur]; [constructor|]. cbn [end_word].
    constructor; [|constructor]. unfold is_word. cbn [String.eqb negb andb].
    rewrite has_space_false; [reflexivity|].
    intros i Hi. specialize (Hcur i Hi). by rewrite str_app_nil_r in Hcur.
  - destruct s as [|a r].
    { apply (IH "" cur); [simpl; lia|exact Hcur]. }
    assert (Hword : cur <> "" -> is_word cur = true).
    { intros Hne. unfold is_word.
      destruct cur as [|c cur]; [done|]. cbn [String.eqb negb andb].
      rewrite has_space_false; [reflexivity|].
      intros i Hi. specialize (Hcur i Hi).
      rewrite str_drop_app_le in Hcur by lia.
      by apply space_width_clear_prefix in Hcur. }
    destruct (Nat.eq_dec (space_width (String a r)) 0) as [Hw|Hw].
    + rewrite split_ws_aux_clear by exact Hw.
      apply IH; [simpl in Hn; lia|].
      intros i Hi. rewrite str_app_assoc.
      change (String a "" +:+ r) with (String a r).
      rewrite str_app_length in Hi. simpl in Hi.
      destruct (Nat.eq_dec i (String.length cur)) as [->|Hne].
      * by rewrite str_drop_app.
      * apply Hcur. lia.
    + rewrite split_ws_aux_space by exact Hw.
      assert (Hrest : Forall (fun w => is_word w = true)
                        (split_ws_aux ""
                           (str_drop (space_width (String a r)) (String a r)))).
      { apply IH; [|intros i Hi; simpl in Hi; lia].
        rewrite str_drop_length. cbn [String.length] in Hn |- *. lia. }
      destruct cur as [|c cur]; [exact Hrest|].
      cbn [end_word]. constructor; [by apply Hword|exact Hrest].
Qed.

Lemma split_ws_aux_word (w rest : string) :
  has_space w = false ->
  rest = "" \/ (exists r, rest = String " " r) ->
  forall cur, split_ws_aux cur (w +:+ rest) = split_ws_aux (cur +:+ w) rest.
Proof.
  intros Hw Hrest. induction w as [|a w IH]; intros cur.
  - by rewrite str_app_nil_r.
  - apply has_space_head in Hw as [Ha Hw].
    rewrite str_app_cons.
    rewrite split_ws_aux_clear.
    + rewrite IH by exact Hw. by rewrite str_app_assoc.
    + rewrite <- str_app_cons.
      by apply space_width_before_space.
Qed.

(** Words joined by single spaces split back into the same words. *)
Lemma split_ws_join (l : list string) :
  Forall (fun w => is_word w = true) l -> split_ws (join " " l) = l.
Proof.
  unfold split_ws. induction l as [|x l IH]; [reflexivity|].
  intros Hl. inversion Hl as [|? ? Hx Hrest]; subst.
  unfold is_word in Hx. apply andb_prop in Hx as [Hne Hsp].
  apply negb_true_iff in Hne, Hsp.
  destruct l as [|y l].
  - simpl. rewrite <- (str_app_nil_r x) at 1.
    rewrite split_ws_aux_word by (first [exact Hsp | by left]).
    cbn [split_ws_aux]. destruct x; [discriminate|reflexivity].
  - change (join " " (x :: y :: l)) with (x +:+ " " +:+ join " " (y :: l)).
    change (" " +:+ join " " (y :: l)) with (String " " (join " " (y :: l))).
    rewrite split_ws_aux_word by (first [exact Hsp | right; eauto]).
    rewrite split_ws_aux_space by (simpl; done).
    change ("" +:+ x) with x.
    destruct x; [discriminate|]. cbn [end_word]. f_equal.
    by apply IH.
Qed.

Section ConfigFacts.
Context `{Platform}.

(** X5. Whatever the environment holds for [SCOPE], the configured scopes
    are words (non-empty, without whitespace), and the scope text that
    [authorization_url] puts in the address, the scopes joined by single
    spaces, splits back into exactly the configured scopes. *)
Theorem scope_text_round_trip :
  let c := load_config in
  Forall (fun w => is_word w = true) (SCOPE c)
  /\ split_ws (join " " (SCOPE c)) = SCOPE c
  /\ authorization_url c =
     authority c +:+ "/oauth2/v2.0/authorize" +:+ "?client_id=" +:+ CLIENT_ID c
     +:+ "&response_type=code" +:+ "&redirect_uri=" +:+ REDIRECT_URI c
     +:+ "&response_mode=query" +:+ "&scope=" +:+ join " " (SCOPE c)
     +:+ "&prompt=consent".
Proof.
  intros c.
  assert (Forall (fun w => is_word w = true) (SCOPE c)) as Hw.
  { apply (split_ws_aux_words _ _ "" (Nat.le_refl _)).
    intros i Hi. simpl in Hi. lia. }
  split; [exact Hw|]. split; [by apply split_ws_join|reflexivity].
Qed.

End ConfigFacts.

(** ** auth.py: both ways of authenticating *)

Section AuthMore.
Context `{Platform}.

(** The common body of the two methods, by the answer of the token call. *)
Lemma authenticate_cases (self : nat) (s : State) (a : GraphAuth)
    (call : GraphAuth -> World -> result (dict value) * World)
    (prefix : string) :
  heap s !! self = Some a ->
  try_except
    (a <- read_auth self ;;
     result <- call_world (call a) ;;
     if dict_has "access_token" result then
       tok <- lift (dict_getitem "access_token" result) ;;
       set_access_token self tok ;;;
       a' <- read_auth self ;;
       ret (access_token a')
     else
       raise (Exn Exception_
                ("Authentication failed: " +:+ py_str (grant_error result))))
    (fun e => raise (Exn Exception_ (prefix +:+ exn_str e))) s
  = auth_outcome self a prefix s (call a (world s)).
Proof.
  intros Ha.
  unfold try_except, bind, read_auth, call_world, lift, set_access_token,
    dict_has, dict_getitem, raise, ret, auth_outcome.
  rewrite Ha.
  destruct (call a (world s)) as [[grant|e] w]; simpl; [|reflexivity].
  destruct (dict_lookup "access_token" grant) as [tok|]; simpl; [|reflexivity].
  change (heap (set_world w s)) with (heap s). rewrite Ha. simpl.
  rewrite list_lookup_insert_eq by (eapply lookup_lt_Some; eauto).
  reflexivity.
Qed.

Lemma authenticate_with_password_eq (self : nat) (s : State) (a : GraphAuth) :
  heap s !! self = Some a ->
  authenticate_with_password self s
  = auth_outcome self a "Failed to authenticate: " s
      (acquire_token_by_username_password (app a) (USERNAME (config a))
         (PASSWORD (config a)) (SCOPE (config a)) (world s)).
Proof.
  intros Ha.
  apply (authenticate_cases self s a
           (fun a => acquire_token_by_username_password (app a)
                       (USERNAME (config a)) (PASSWORD (config a))
                       (SCOPE (config a)))
           "Failed to authenticate: " Ha).
Qed.

Lemma authenticate_with_code_eq (self : nat) (code : string) (s : State)
    (a : GraphAuth) :
  heap s !! self = Some a ->
  authenticate_with_code self code s
  = auth_outcome self a "Failed to authenticate with code: " s
      (acquire_token_by_authorization_code (app a) code (SCOPE (config a))
         (REDIRECT_URI (config a)) (world s)).
Proof.
  intros Ha.
  apply (authenticate_cases self s a
           (fun a => acquire_token_by_authorization_code (app a) code
                       (SCOPE (config a)) (REDIRECT_URI (config a)))
           "Failed to authenticate with code: " Ha).
Qed.

(** Without the object, both methods raise and change nothing. *)
Lemma authenticate_no_object (self : nat) (code : string) (s : State) :
  heap s !! self = None ->
  authenticate_with_password self s
  = (Raise (Exn Exception_ "Failed to authenticate: no such object"), s)
  /\ authenticate_with_code self code s
     = (Raise (Exn Exception_ "Failed to authenticate with code: no such object"),
        s).
Proof.
  intros Ha.
  unfold authenticate_with_password, authenticate_with_code, try_except,
    bind, read_auth, raise.
  by rewrite Ha.
Qed.

(** An outcome that raises changed the world only; its message starts with
    the prefix. *)
Lemma auth_outcome_raise (self : nat) (a : GraphAuth) (prefix : string)
    (s s' : State) (answer : result (dict value) * World) (e : exn) :
  auth_outcome self a prefix s answer = (Raise e, s') ->
  (exists w, s' = set_world w s)
  /\ exists msg, e = Exn Exception_ (prefix +:+ msg).
Proof.
  unfold auth_outcome. destruct answer as [[grant|e'] w].
  - destruct (dict_lookup "access_token" grant); [discriminate|].
    intros [= <- <-]. split; by eexists.
  - intros [= <- <-]. split; by eexists.
Qed.

Lemma auth_outcome_ok (self : nat) (a : GraphAuth) (prefix : string)
    (s s' : State) (answer : result (dict value) * World) (tok : value) :
  auth_outcome self a prefix s answer = (Ok tok, s') ->
  exists w,
    s' = set_heap (<[self := {| config := config a; app := app a;
                                access_token := tok |}]> (heap s))
           (set_world w s).
Proof.
  unfold auth_outcome. destruct answer as [[grant|e'] w]; [|discriminate].
  destruct (dict_lookup "access_token" grant); [|discriminate].
  intros [= <- <-]. by eexists.
Qed.

Lemma get_access_token_heap (self : nat) (s s' : State) :
  heap s' = heap s -> (get_access_token self s').1 = (get_access_token self s).1.
Proof.
  intros Hh. unfold get_access_token, bind, read_auth. rewrite Hh.
  destruct (heap s !! self) as [a|]; [|reflexivity].
  by destruct (negb (truthy (access_token a))).
Qed.

(** X6. An authentication that fails, by password or by code, changes
    nothing the program can observe: every object keeps its token (so
    [get_access_token] answers as it did before), no request was logged,
    no file written, nothing printed.  The exception is a plain
    [Exception] whose message starts with [Failed to authenticate]. *)
Theorem failed_authentication_changes_nothing (self : nat) (code : string)
    (s s' : State) (e : exn) :
  authenticate_with_password self s = (Raise e, s')
  \/ authenticate_with_code self code s = (Raise e, s') ->
  heap s' = heap s /\ sent s' = sent s /\ files s' = files s
  /\ stdout s' = stdout s
  /\ (get_access_token self s').1 = (get_access_token self s).1
  /\ exists msg, e = Exn Exception_ ("Failed to authenticate" +:+ msg).
Proof.
  intros Hr.
  assert ((exists w, s' = set_world w s)
          /\ exists msg, e = Exn Exception_ ("Failed to authenticate" +:+ msg))
    as ((w & ->) & Hmsg).
  { destruct (heap s !! self) as [a|] eqn:Ha.
    - destruct Hr as [Hr|Hr].
      + rewrite (authenticate_with_password_eq _ _ _ Ha) in Hr.
        apply auth_outcome_raise in Hr as (Hw & msg & ->).
        split; [exact Hw|]. by exists (": " +:+ msg).
      + rewrite (authenticate_with_code_eq _ _ _ _ Ha) in Hr.
        apply auth_outcome_raise in Hr as (Hw & msg & ->).
        split; [exact Hw|]. by exists (" with code: " +:+ msg).
    - destruct (authenticate_no_object self code s Ha) as (Hp & Hc).
      destruct Hr as [Hr|Hr]; [rewrite Hp in Hr|rewrite Hc in Hr];
        injection Hr as <- <-; (split; [by exists (world s); destruct s|]).
      + by exists ": no such object".
      + by exists " with code: no such object". }
  repeat split; try reflexivity; [|exact Hmsg].
  by apply get_access_token_heap.
Qed.

(** X7. What a rejected grant (an answer without [access_token]) raises:
    the message [Authentication failed: <error>] is raised inside the
    method's own [try] and raised again by its handler, so the caller sees
    it behind the handler's prefix.  The error text is the answer's
    [error_description] when it has one, else its [error], else
    [Unknown error]. *)
Theorem rejected_grant_message (self : nat) (code : string) (s : State)
    (a : GraphAuth) (grant : dict value) (w : World) :
  heap s !! self = Some a ->
  dict_lookup "access_token" grant = None ->
  (acquire_token_by_username_password (app a) (USERNAME (config a))
     (PASSWORD (config a)) (SCOPE (config a)) (world s) = (Ok grant, w) ->
   authenticate_with_password self s
   = (Raise (Exn Exception_
               ("Failed to authenticate: Authentication failed: "
                +:+ py_str (grant_error grant))),
      set_world w s))
  /\ (acquire_token_by_authorization_code (app a) code (SCOPE (config a))
       (REDIRECT_URI (config a)) (world s) = (Ok grant, w) ->
     authenticate_with_code self code s
     = (Raise (Exn Exception_
                 ("Failed to authenticate with code: Authentication failed: "
                  +:+ py_str (grant_error grant))),
        set_world w s))
  /\ (forall d, dict_lookup "error_description" grant = Some d ->
                grant_error grant = d)
  /\ (dict_lookup "error_description" grant = None ->
      grant_error grant
      = default (VStr "Unknown error") (dict_lookup "error" grant)).
Proof.
  intros Ha Hno. split; [|split; [|split]].
  - intros Hg. rewrite (authenticate_with_password_eq _ _ _ Ha), Hg.
    unfold auth_outcome. by rewrite Hno.
  - intros Hg. rewrite (authenticate_with_code_eq _ _ _ _ Ha), Hg.
    unfold auth_outcome. by rewrite Hno.
  - intros d Hd. unfold grant_error, dict_get. by rewrite Hd.
  - intros Hd. unfold grant_error, dict_get. rewrite Hd.
    by destruct (dict_lookup "error" grant).
Qed.

(** X8. An authentication that succeeds, by password or by code, stores
    the token it returns in the authenticator it was called on and touches
    nothing else: the object keeps its configuration, the other objects are
    as they were, no request is logged and no file written.  From then on
    [get_access_token] returns that token when it is true, and raises
    NotAuthenticatedError when it is not (an empty string). *)
Theorem authentication_stores_the_token (self : nat) (code : string)
    (s s' : State) (tok : value) :
  authenticate_with_password self s = (Ok tok, s')
  \/ authenticate_with_code self code s = (Ok tok, s') ->
  exists a,
    heap s !! self = Some a
    /\ heap s' !! self = Some {| config := config a; app := app a;
                                 access_token := tok |}
    /\ (forall other, other <> self -> heap s' !! other = heap s !! other)
    /\ length (heap s') = length (heap s)
    /\ sent s' = sent s /\ files s' = files s
    /\ get_access_token self s'
       = (if truthy tok then Ok tok else Raise NotAuthenticatedError, s').
Proof.
  intros Hr.
  destruct (heap s !! self) as [a|] eqn:Ha.
  - exists a. split; [reflexivity|].
    assert (exists w,
               s' = set_heap (<[self := {| config := config a; app := app a;
                                           access_token := tok |}]> (heap s))
                      (set_world w s)) as (w & ->).
    { destruct Hr as [Hr|Hr].
      - rewrite (authenticate_with_password_eq _ _ _ Ha) in Hr.
        by apply auth_outcome_ok in Hr.
      - rewrite (authenticate_with_code_eq _ _ _ _ Ha) in Hr.
        by apply auth_outcome_ok in Hr. }
    assert (self < length (heap s)) as Hlt by (eapply lookup_lt_Some; eauto).
    cbn [heap set_heap sent files set_world].
    split; [by apply list_lookup_insert_eq|].
    split; [intros other Hne; by apply list_lookup_insert_ne|].
    split; [by rewrite length_insert|].
    split; [reflexivity|]. split; [reflexivity|].
    unfold get_access_token, bind, read_auth. cbn [heap set_heap].
    rewrite list_lookup_insert_eq by exact Hlt. cbn [access_token].
    by destruct (truthy tok).
  - destruct (authenticate_no_object self code s Ha) as (Hp & Hc).
    destruct Hr as [Hr|Hr]; [rewrite Hp in Hr|rewrite Hc in Hr]; discriminate.
Qed.

End AuthMore.

(** ** graph_client.py: every path of the three operations *)

Section GraphClientMore.
Context `{Platform}.

Lemma refresh_headers_not_authenticated (self : GraphClient) (s : State)
    (tok : value) :
  current_token s self = Some tok -> truthy tok = false ->
  _refresh_headers self s = (Raise NotAuthenticatedError, s)
  /\ GraphClient_init (auth self) s = (Raise NotAuthenticatedError, s).
Proof.
  unfold current_token. destruct (heap s !! auth self) as [a|] eqn:Ha;
    [|discriminate].
  intros [= <-] Ht. unfold _refresh_headers, GraphClient_init.
  split; eapply bind_raise, get_access_token_falsy; eauto.
Qed.

(** X9. With a true token in the authenticator, each of the three
    operations of the client returns: a failure of the transport, a body
    that is not JSON or not of the expected shape all end as a [None]
    result, never as an exception, and the authenticator is not touched.
    With a token that is not true the operation raises
    NotAuthenticatedError and leaves the state as it was, and so does
    building a client. *)
Theorem api_calls_return_once_authenticated (call : api_call)
    (self : GraphClient) (s : State) (tok : value) :
  current_token s self = Some tok ->
  (truthy tok = true ->
   exists v s', run_call call self s = (Ok (with_token self tok, v), s')
                /\ heap s' = heap s)
  /\ (truthy tok = false ->
      run_call call self s = (Raise NotAuthenticatedError, s)
      /\ GraphClient_init (auth self) s = (Raise NotAuthenticatedError, s)).
Proof.
  intros Hc. split; intros Ht.
  - destruct (run_call_cases call self s)
      as [(tok' & Hc' & _ & (v & Hv) & Hh & _)|(Hf & _)].
    + assert (tok' = tok) as -> by congruence.
      exists v, (run_call call self s).2. split; [|exact Hh].
      by apply pair_from_fst.
    + rewrite (Hf _ Hc) in Ht. discriminate.
  - destruct (refresh_headers_not_authenticated self s tok Hc Ht) as (Hr & Hi).
    split; [|exact Hi].
    destruct call; unfold run_call, get_online_meeting_attendance_report,
      get_meeting_attendance_records, list_online_meetings;
      by apply bind_raise.
Qed.

Lemma issued_app (s s' : State) (new : list request) :
  sent s' = (sent s ++ new)%list -> issued s s' = new.
Proof. intros Hs. unfold issued. rewrite Hs. by rewrite drop_app_length. Qed.

(** X10. The paths of [get_online_meeting_attendance_report] other than
    the successful fallback.  A plain answer 200 with a JSON body is
    followed by the request for the reports, and nothing else; a plain
    answer that is neither 200 nor 404, or a transport failure, ends the
    operation after one request with [None]; after a 404 the quoted
    address is asked once, and any answer to it other than a 200 (a second
    404 included) ends the operation with [None] after two requests. *)
Theorem report_request_paths (self : GraphClient) (meeting_id tok : value)
    (s : State) :
  let c := with_token self tok in
  let plain := Request "GET" (meeting_url c meeting_id) (headers c) [] [] in
  let quoted :=
    Request "GET" (quoted_meeting_url c meeting_id) (headers c) [] [] in
  let collection :=
    Request "GET" (attendance_url c meeting_id) (headers c) [] [] in
  let out := get_online_meeting_attendance_report self meeting_id s in
  current_token s self = Some tok -> truthy tok = true ->
  (forall r1 w1 meeting_data answer w2,
      requests_get plain (world s) = (Ok r1, w1) ->
      status_code r1 = 200%Z -> json_body r1 = Some meeting_data ->
      requests_get collection w1 = (answer, w2) ->
      out.1 = Ok (c, collection_payload answer)
      /\ issued s out.2 = [plain; collection])
  /\ (forall r1 w1,
      requests_get plain (world s) = (Ok r1, w1) ->
      status_code r1 <> 200%Z -> status_code r1 <> 404%Z ->
      out.1 = Ok (c, VNone) /\ issued s out.2 = [plain])
  /\ (forall e w1,
      requests_get plain (world s) = (Raise e, w1) ->
      out.1 = Ok (c, VNone) /\ issued s out.2 = [plain])
  /\ (forall r1 w1 answer w2,
      requests_get plain (world s) = (Ok r1, w1) ->
      status_code r1 = 404%Z ->
      requests_get quoted w1 = (answer, w2) ->
      (forall r2, answer = Ok r2 -> status_code r2 <> 200%Z) ->
      out.1 = Ok (c, VNone) /\ issued s out.2 = [plain; quoted]).
Proof.
  intros c plain quoted collection out Hc Ht.
  assert (Hout : out = (r <- try_except
    (let url := meeting_url c meeting_id in
     response <- http_get url (headers c) [] ;;
     response <-
       (if Z.eqb (status_code response) 404 then
          let url := quoted_meeting_url c meeting_id in
          http_get url (headers c) []
        else ret response) ;;
     if Z.eqb (status_code response) 200 then
       meeting_data <- lift (response_json response) ;;
       attendance_response <-
         http_get (attendance_url c meeting_id) (headers c) [] ;;
       if Z.eqb (status_code attendance_response) 200 then
         lift (response_json attendance_response)
       else if Z.eqb (status_code attendance_response) 404 then
         print ("No attendance reports found for meeting " +:+ py_str meeting_id) ;;;
         ret VNone
       else
         print ("Error fetching attendance: "
                +:+ pretty (status_code attendance_response)) ;;;
         print (text attendance_response) ;;;
         ret VNone
     else
       print ("Error fetching meeting: " +:+ pretty (status_code response)) ;;;
       print (text response) ;;;
       ret VNone)
    (fun e =>
       print ("Exception while fetching attendance report: " +:+ exn_str e) ;;;
       ret VNone) ;;
  ret (c, r)) s).
  { subst out. unfold get_online_meeting_attendance_report.
    erewrite bind_ok by (by apply refresh_headers_ok). reflexivity. }
  split; [|split; [|split]].
  - intros r1 w1 meeting_data answer w2 H1 Hs1 Hj H2.
    assert (exists s', out = (Ok (c, collection_payload answer), s')
                       /\ sent s' = (sent s ++ [plain; collection])%list)
      as (s' & -> & Hsent).
    { rewrite Hout. unfold bind at 1, try_except.
      unfold bind at 1, http_get at 1, call_world.
      rewrite world_log_request. fold plain. rewrite H1, Hs1.
      cbn [Z.eqb Pos.eqb]. unfold bind at 1, ret at 1. cbn beta iota.
      rewrite Hs1. cbn [Z.eqb Pos.eqb].
      unfold bind at 1, lift at 1, response_json at 1. rewrite Hj.
      unfold bind at 1, http_get at 1, call_world.
      rewrite world_log_request, world_set_world. fold collection. rewrite H2.
      destruct answer as [ra|e]; simpl.
      - destruct (Z.eqb (status_code ra) 200) eqn:E200.
        + unfold lift, response_json.
          destruct (json_body ra); simpl;
            (eexists; split; [reflexivity|]); simpl;
            by rewrite <- !app_assoc.
        + destruct (Z.eqb (status_code ra) 404); simpl;
            (eexists; split; [reflexivity|]); simpl;
            by rewrite <- !app_assoc.
      - eexists; split; [reflexivity|]. simpl. by rewrite <- !app_assoc. }
    split; [reflexivity|]. by apply issued_app.
  - intros r1 w1 H1 Hn200 Hn404.
    assert (exists s', out = (Ok (c, VNone), s')
                       /\ sent s' = (sent s ++ [plain])%list)
      as (s' & -> & Hsent).
    { rewrite Hout. unfold bind at 1, try_except.
      unfold bind at 1, http_get at 1, call_world.
      rewrite world_log_request. fold plain. rewrite H1.
      apply Z.eqb_neq in Hn200, Hn404. rewrite Hn404.
      unfold bind at 1, ret at 1. cbn beta iota. rewrite Hn200.
      simpl. eexists; split; reflexivity. }
    split; [reflexivity|]. by apply issued_app.
  - intros e w1 H1.
    assert (exists s', out = (Ok (c, VNone), s')
                       /\ sent s' = (sent s ++ [plain])%list)
      as (s' & -> & Hsent).
    { rewrite Hout. unfold bind at 1, try_except.
      unfold bind at 1, http_get at 1, call_world.
      rewrite world_log_request. fold plain. rewrite H1.
      simpl. eexists; split; reflexivity. }
    split; [reflexivity|]. by apply issued_app.
  - intros r1 w1 answer w2 H1 Hs1 H2 Hn200.
    assert (exists s', out = (Ok (c, VNone), s')
                       /\ sent s' = (sent s ++ [plain; quoted])%list)
      as (s' & -> & Hsent).
    { rewrite Hout. unfold bind at 1, try_except.
      unfold bind at 1, http_get at 1, call_world.
      rewrite world_log_request. fold plain. rewrite H1, Hs1.
      cbn [Z.eqb Pos.eqb].
      unfold bind at 1, http_get at 1, call_world.
      rewrite world_log_request, world_set_world. fold quoted. rewrite H2.
      destruct answer as [r2|e]; simpl.
      - specialize (Hn200 r2 eq_refl). apply Z.eqb_neq in Hn200.
        rewrite Hn200. simpl. eexists; split; [reflexivity|]. simpl.
        by rewrite <- !app_assoc.
      - eexists; split; [reflexivity|]. simpl. by rewrite <- !app_assoc. }
    split; [reflexivity|]. by apply issued_app.
Qed.

(** X11. The two other operations ask once.  [list_online_meetings] sends
    one GET to [/me/onlineMeetings], with the filter as [$filter] when one
    was given and it is not empty, and without parameters otherwise;
    [get_meeting_attendance_records] sends one GET to the records address.
    Both return the [value] of a 200 answer whose body is a JSON object
    (an empty list when it has no [value]) and [None] for every other
    answer; there is no second attempt. *)
Theorem listing_and_records_ask_once (self : GraphClient) (tok : value)
    (s : State) :
  let c := with_token self tok in
  current_token s self = Some tok -> truthy tok = true ->
  (forall filter_query answer w,
      let req := Request "GET" (base_url c +:+ "/me/onlineMeetings")
                   (headers c) (filter_params filter_query) [] in
      let out := list_online_meetings self filter_query s in
      requests_get req (world s) = (answer, w) ->
      out.1 = Ok (c, records_payload answer) /\ issued s out.2 = [req])
  /\ (forall meeting_id report_id answer w,
      let req := Request "GET" (records_url c meeting_id report_id)
                   (headers c) [] [] in
      let out := get_meeting_attendance_records self meeting_id report_id s in
      requests_get req (world s) = (answer, w) ->
      out.1 = Ok (c, records_payload answer) /\ issued s out.2 = [req]).
Proof.
  intros c Hc Ht. split.
  - intros filter_query answer w req out Hr.
    assert (exists s', out = (Ok (c, records_payload answer), s')
                       /\ sent s' = (sent s ++ [req])%list)
      as (s' & -> & Hsent).
    { subst out. unfold list_online_meetings.
      erewrite bind_ok by (by apply refresh_headers_ok). fold c.
      unfold bind at 1, try_except, bind at 1, http_get, call_world.
      rewrite world_log_request.
      change (match filter_query with
              | Some q => if String.eqb q "" then [] else [("$filter", q)]
              | None => []
              end) with (filter_params filter_query).
      fold req. rewrite Hr.
      destruct answer as [r|e]; simpl; [|by eexists].
      destruct (Z.eqb (status_code r) 200); [|by eexists].
      unfold bind, lift, response_json.
      destruct (json_body r) as [[| | | | |d]|]; simpl; by eexists. }
    split; [reflexivity|]. by apply issued_app.
  - intros meeting_id report_id answer w req out Hr.
    assert (exists s', out = (Ok (c, records_payload answer), s')
                       /\ sent s' = (sent s ++ [req])%list)
      as (s' & -> & Hsent).
    { subst out. unfold get_meeting_attendance_records.
      erewrite bind_ok by (by apply refresh_headers_ok). fold c.
      unfold bind at 1, try_except, bind at 1, http_get, call_world.
      rewrite world_log_request. fold req. rewrite Hr.
      destruct answer as [r|e]; simpl; [|by eexists].
      destruct (Z.eqb (status_code r) 200); [|by eexists].
      unfold bind, lift, response_json.
      destruct (json_body r) as [[| | | | |d]|]; simpl; by eexists. }
    split; [reflexivity|]. by apply issued_app.
Qed.

End GraphClientMore.

(** ** main.py: where a run ends *)

Section MainMore.
Context `{Platform}.

Lemma replace_char_no_char (c : ascii) (s : string) :
  has_char c (replace_char c "" s) = false.
Proof.
  induction s as [|a s IH]; [reflexivity|]. simpl.
  destruct (Ascii.eqb a c) eqn:E; [exact IH|]. simpl. by rewrite E, IH.
Qed.

Lemma replace_char_absent (c : ascii) (new s : string) :
  has_char c s = false -> replace_char c new s = s.
Proof.
  induction s as [|a s IH]; [reflexivity|]. simpl.
  destruct (Ascii.eqb a c); [discriminate|]. simpl. intros Hs. by rewrite IH.
Qed.

(** The Meeting ID of a result of [extract_meeting_info]: [None], or a
    text whose spaces were removed. *)
Lemma extract_meeting_id_field (html_body : string) (mi : dict value) :
  extract_meeting_info html_body = Ok mi ->
  dict_lookup "meeting_id" mi = Some VNone
  \/ exists t, dict_lookup "meeting_id" mi
               = Some (VStr (replace_char " " "" t)).
Proof.
  intros He. destruct (extract_meeting_info_parsed _ _ He) as [sp Hsp].
  revert He. rewrite extract_meeting_info_eq, Hsp.
  cbn [mbind result_bind]; cbv zeta.
  destruct (labelled_text _ "Meeting ID:") as [t1|];
  destruct (labelled_text _ "Passcode:") as [t2|];
  destruct (find_by_id _ _ _) as [a|];
  intros [= <-];
  try (left; reflexivity);
  try (destruct (re_search oid_pattern _), (re_search context_pattern _),
         (re_search thread_pattern _));
  first [left; reflexivity | right; exists t1; reflexivity].
Qed.

(** X12. An email in which no thread id is found ends the run at once:
    [process_email_html] returns [None] after its four lines of output,
    and nothing outside the process was touched: no authenticator is
    built, no token asked for, no request sent, no file written, and the
    world is as it was. *)
Theorem nothing_contacted_without_thread_id (html_body : string)
    (use_password_auth : bool) (s : State) (mi : dict value) :
  extract_meeting_info html_body = Ok mi ->
  dict_lookup "thread_id" mi = Some VNone ->
  exists s',
    process_email_html html_body use_password_auth s = (Ok None, s')
    /\ world s' = world s /\ heap s' = heap s /\ sent s' = sent s
    /\ files s' = files s
    /\ stdout s'
       = (stdout s
          ++ [ "Parsing email HTML..."; "Extracted meeting info:";
               json_dumps (VDict mi);
               "Warning: Could not extract meeting thread ID from email" ])%list.
Proof.
  intros He Ht. unfold process_email_html.
  rewrite He, bind_print, bind_lift_ok, !bind_print.
  unfold dict_get. rewrite Ht. cbn [truthy negb]. rewrite bind_print.
  eexists. split; [reflexivity|]. simpl. repeat split.
  by rewrite <- !app_assoc.
Qed.

Lemma thread_id_truthy (html_body : string) (mi : dict value) (t : string) :
  extract_meeting_info html_body = Ok mi ->
  dict_lookup "thread_id" mi = Some (VStr t) ->
  truthy (dict_get "thread_id" VNone mi) = true.
Proof.
  intros He Ht. unfold dict_get. rewrite Ht.
  destruct (extract_link_fields _ _ He) as [(_ & Hn & _)|(link & _ & Hl & _)];
    [congruence|].
  rewrite Ht in Hl. destruct (re_search thread_pattern link); [|discriminate].
  by injection Hl as ->.
Qed.

Lemma auth_outcome_rejected (self : nat) (a : GraphAuth) (prefix : string)
    (s : State) (answer : result (dict value)) (w : World) :
  rejected answer ->
  exists e, auth_outcome self a prefix s (answer, w) = (Raise e, set_world w s).
Proof.
  intros Hr. unfold auth_outcome. destruct answer as [grant|e]; [|by eexists].
  rewrite (Hr grant eq_refl). by eexists.
Qed.

(** The authentication step when the token endpoint grants nothing, or
    when the authorization code cannot be read: the exception is caught,
    and the step answers [false]. *)
Lemma authenticate_rejected (auth : nat) (a : GraphAuth) (s : State) :
  heap s !! auth = Some a ->
  (forall answer w,
      acquire_token_by_username_password (app a) (USERNAME (config a))
        (PASSWORD (config a)) (SCOPE (config a)) (world s) = (answer, w) ->
      rejected answer ->
      exists s', authenticate auth true s = (Ok false, s')
                 /\ heap s' = heap s /\ sent s' = sent s
                 /\ files s' = files s)
  /\ (forall e w,
      input "Authorization code: " (world s) = (Raise e, w) ->
      exists s', authenticate auth false s = (Ok false, s')
                 /\ heap s' = heap s /\ sent s' = sent s
                 /\ files s' = files s)
  /\ (forall line w answer w',
      input "Authorization code: " (world s) = (Ok line, w) ->
      acquire_token_by_authorization_code (app a) (strip line)
        (SCOPE (config a)) (REDIRECT_URI (config a)) w = (answer, w') ->
      rejected answer ->
      exists s', authenticate auth false s = (Ok false, s')
                 /\ heap s' = heap s /\ sent s' = sent s
                 /\ files s' = files s).
Proof.
  intros Ha. split; [|split].
  - intros answer w Hg Hr. unfold authenticate, try_except.
    unfold bind at 1. rewrite (authenticate_with_password_eq _ _ _ Ha), Hg.
    destruct (auth_outcome_rejected auth a "Failed to authenticate: " s
                answer w Hr) as (e & ->).
    rewrite bind_print. eexists. split; [reflexivity|]. by repeat split.
  - intros e w Hi. unfold authenticate, try_except, get_authorization_url.
    rewrite bind_assoc. unfold bind at 1, read_auth. rewrite Ha.
    rewrite bind_lift_ok || (unfold bind at 1, ret at 1; cbn beta iota).
    rewrite !bind_print. unfold bind at 1, call_world.
    cbn [world printed fold_left print snd]. rewrite Hi.
    rewrite bind_print. eexists. split; [reflexivity|]. by repeat split.
  - intros line w answer w' Hi Hg Hr.
    unfold authenticate, try_except, get_authorization_url.
    rewrite bind_assoc. unfold bind at 1, read_auth. rewrite Ha.
    rewrite bind_lift_ok || (unfold bind at 1, ret at 1; cbn beta iota).
    rewrite !bind_print. unfold bind at 1, call_world.
    cbn [world printed fold_left print snd]. rewrite Hi.
    unfold bind at 1.
    match goal with
    | |- context [authenticate_with_code auth (strip line) ?st] =>
        rewrite (authenticate_with_code_eq auth (strip line) st a Ha)
    end.
    cbn [world set_world]. rewrite Hg.
    match goal with
    | |- context [auth_outcome auth a ?p ?st (answer, w')] =>
        destruct (auth_outcome_rejected auth a p st answer w' Hr) as (e & ->)
    end.
    rewrite bind_print. eexists. split; [reflexivity|]. by repeat split.
Qed.

(** The run up to the authentication step, for an email with a thread id:
    an authenticator is built from the configuration, and nothing else has
    changed but the output. *)
Lemma process_email_html_to_authentication (html_body : string)
    (use_password_auth : bool) (s : State) (mi : dict value) (t : string) :
  extract_meeting_info html_body = Ok mi ->
  dict_lookup "thread_id" mi = Some (VStr t) ->
  let cfg := load_config in
  let a := {| config := cfg;
              app := MsalApp (CLIENT_ID cfg) (CLIENT_SECRET cfg) (authority cfg);
              access_token := VNone |} in
  exists s1,
    heap s1 = (heap s ++ [a])%list /\ world s1 = world s
    /\ sent s1 = sent s /\ files s1 = files s
    /\ process_email_html html_body use_password_auth s
       = (authenticated <- authenticate (length (heap s)) use_password_auth ;;
          if negb authenticated then ret None else
          client <- GraphClient_init (length (heap s)) ;;
          let meeting_id := dict_get "thread_id" VNone mi in
          print (nl +:+ "Fetching attendance report for meeting: "
                 +:+ py_str meeting_id) ;;;
          cr <- get_online_meeting_attendance_report client meeting_id ;;
          let '(client, attendance_report) := cr in
          process_attendance_report mi client meeting_id attendance_report) s1.
Proof.
  intros He Ht cfg a. unfold process_email_html.
  rewrite He, bind_print, bind_lift_ok, !bind_print.
  rewrite (thread_id_truthy _ _ _ He Ht). cbn [negb]. rewrite bind_print.
  unfold bind at 1, GraphAuth_init, alloc_auth.
  eexists. split; [|split; [|split; [|split]]]; [..|reflexivity]; reflexivity.
Qed.

(** X13. An email with a thread id whose authentication fails ends the
    run with [None]: the exception is caught (the run does not raise), no
    request is sent to the Graph API and no file is written.  This holds
    for the password grant when the token endpoint raises or grants
    nothing, and for the code flow when the authorization code cannot be
    read from the terminal or the endpoint grants nothing for it. *)
Theorem run_ends_when_authentication_fails (html_body : string) (s : State)
    (mi : dict value) (t : string) :
  extract_meeting_info html_body = Ok mi ->
  dict_lookup "thread_id" mi = Some (VStr t) ->
  let cfg := load_config in
  let msal := MsalApp (CLIENT_ID cfg) (CLIENT_SECRET cfg) (authority cfg) in
  (forall answer w,
      acquire_token_by_username_password msal (USERNAME cfg) (PASSWORD cfg)
        (SCOPE cfg) (world s) = (answer, w) ->
      rejected answer ->
      exists s', process_email_html html_body true s = (Ok None, s')
                 /\ sent s' = sent s /\ files s' = files s)
  /\ (forall e w,
      input "Authorization code: " (world s) = (Raise e, w) ->
      exists s', process_email_html html_body false s = (Ok None, s')
                 /\ sent s' = sent s /\ files s' = files s)
  /\ (forall line w answer w',
      input "Authorization code: " (world s) = (Ok line, w) ->
      acquire_token_by_authorization_code msal (strip line) (SCOPE cfg)
        (REDIRECT_URI cfg) w = (answer, w') ->
      rejected answer ->
      exists s', process_email_html html_body false s = (Ok None, s')
                 /\ sent s' = sent s /\ files s' = files s).
Proof.
  intros He Ht cfg msal.
  assert (forall b,
    exists s1 a,
      heap s1 !! length (heap s) = Some a
      /\ config a = cfg /\ app a = msal
      /\ world s1 = world s /\ sent s1 = sent s /\ files s1 = files s
      /\ forall s2, authenticate (length (heap s)) b s1 = (Ok false, s2) ->
            process_email_html html_body b s = (Ok None, s2)) as Hpre.
  { intros b.
    destruct (process_email_html_to_authentication html_body b s mi t He Ht)
      as (s1 & Hh & Hw & Hs & Hf & Hp).
    eexists s1, _. split; [rewrite Hh; by apply list_lookup_middle|].
    split; [reflexivity|]. split; [reflexivity|].
    split; [exact Hw|]. split; [exact Hs|]. split; [exact Hf|].
    intros s2 Ha. rewrite Hp. by erewrite bind_ok by exact Ha. }
  split; [|split].
  - intros answer w Hg Hr.
    destruct (Hpre true) as (s1 & a & Ha & Hc & Happ & Hw & Hs & Hf & Hp).
    destruct (authenticate_rejected _ _ _ Ha) as (Hpw & _).
    destruct (Hpw answer w) as (s2 & Hau & _ & Hs2 & Hf2);
      [by rewrite Hc, Happ, Hw|exact Hr|].
    exists s2. split; [by apply Hp|]. split; congruence.
  - intros e w Hi.
    destruct (Hpre false) as (s1 & a & Ha & Hc & Happ & Hw & Hs & Hf & Hp).
    destruct (authenticate_rejected _ _ _ Ha) as (_ & Heof & _).
    destruct (Heof e w) as (s2 & Hau & _ & Hs2 & Hf2); [by rewrite Hw|].
    exists s2. split; [by apply Hp|]. split; congruence.
  - intros line w answer w' Hi Hg Hr.
    destruct (Hpre false) as (s1 & a & Ha & Hc & Happ & Hw & Hs & Hf & Hp).
    destruct (authenticate_rejected _ _ _ Ha) as (_ & _ & Hcode).
    destruct (Hcode line w answer w') as (s2 & Hau & _ & Hs2 & Hf2);
      [by rewrite Hw|by rewrite Hc, Happ|exact Hr|].
    exists s2. split; [by apply Hp|]. split; congruence.
Qed.

(** Printing the summary writes no file. *)
Lemma print_attendee_files (i : nat) (record : value) (s : State) :
  files (print_attendee i record s).2 = files s.
Proof.
  unfold print_attendee, bind, lift, print.
  repeat match goal with
         | |- context [match ?x with Ok _ => _ | Raise _ => _ end] =>
             lazymatch x with
             | context [match _ with _ => _ end] => fail
             | _ => destruct x
             end
         end; reflexivity.
Qed.

Lemma print_attendees_files (records : list value) :
  forall (i : nat) (s : State),
    files (print_attendees i records s).2 = files s.
Proof.
  induction records as [|record rest IH]; intros i s; [reflexivity|].
  simpl. unfold bind.
  pose proof (print_attendee_files i record s) as Hf.
  destruct (print_attendee i record s) as [[[]|e] s1]; simpl in *.
  - by rewrite IH.
  - exact Hf.
Qed.

(** What a [save_attendance_report] that returns has done. *)
Lemma save_attendance_report_inv (meeting_info attendance_data : dict value)
    (output_dir filename : string) (s s' : State) :
  save_attendance_report meeting_info attendance_data output_dir s
  = (Ok filename, s') ->
  exists m now w now' w',
    dict_get "meeting_id" (VStr "unknown") meeting_info = VStr m
    /\ makedirs_error output_dir s = None
    /\ datetime_now (world s) = (now, w)
    /\ datetime_now w = (now', w')
    /\ filename = report_path output_dir m (strftime now "%Y%m%d_%H%M%S")
    /\ open_error filename (makedirs output_dir s).2 = None
    /\ files s' = dict_set filename
                    (saved_report meeting_info attendance_data (isoformat now'))
                    (files s)
    /\ sent s' = sent s /\ heap s' = heap s /\ world s' = w'.
Proof.
  unfold save_attendance_report. intros Hs.
  apply bind_inv_ok in Hs as ([] & s0 & Hmd & Hs).
  assert (makedirs_error output_dir s = None /\ s0 = (makedirs output_dir s).2)
    as [Hmk ->].
  { revert Hmd. unfold makedirs.
    destruct (makedirs_error output_dir s); [discriminate|].
    intros [= <-]. done. }
  destruct (makedirs_frame output_dir s) as (Hw0 & Hh0 & Hse0 & _).
  pose proof (makedirs_files output_dir s) as Hf0.
  set (s0 := (makedirs output_dir s).2) in *. clearbody s0.
  revert Hs. unfold bind at 1, from_world at 1. rewrite Hw0.
  destruct (datetime_now (world s)) as [now w] eqn:E1.
  destruct (dict_get "meeting_id" (VStr "unknown") meeting_info)
    as [| | |m| |]; simpl py_replace; unfold bind at 1, lift at 1;
    try discriminate.
  unfold bind at 1, from_world at 1. cbn [world set_world].
  destruct (datetime_now w) as [now' w'] eqn:E2.
  fold (report_path output_dir m (strftime now "%Y%m%d_%H%M%S")).
  fold (saved_report meeting_info attendance_data (isoformat now')).
  match goal with
  | |- bind (write_file ?p ?c) ?k ?st = _ -> _ =>
      set (s1 := st);
      assert (Hop : open_error p s1 = open_error p s0)
        by (by apply open_error_same);
      destruct (open_error p s0) as [e|] eqn:Ho
  end.
  { erewrite write_file_refused by exact Hop. discriminate. }
  rewrite bind_write_file by exact Hop. rewrite bind_print.
  intros [= <- <-]. exists m, now, w, now', w'.
  split; [reflexivity|]. split; [exact Hmk|].
  split; [first [reflexivity | exact E1]|].
  split; [first [reflexivity | exact E2]|].
  split; [reflexivity|]. split; [exact Ho|].
  unfold printed. cbn [fold_left print snd files sent heap world].
  rewrite write_file_files by exact Hop.
  unfold write_file. rewrite Hop. subst s1.
  cbn [snd files sent heap world set_world].
  rewrite Hf0, Hse0, Hh0. done.
Qed.

(** The thread id the run asks the reports for is a string. *)
Lemma thread_id_string (html_body : string) (mi : dict value) :
  extract_meeting_info html_body = Ok mi ->
  truthy (dict_get "thread_id" VNone mi) = true ->
  exists t, dict_lookup "thread_id" mi = Some (VStr t).
Proof.
  intros He. unfold dict_get.
  destruct (extract_link_fields _ _ He) as [(_ & -> & _)|(link & _ & -> & _)];
    [discriminate|].
  destruct (re_search thread_pattern link); [eauto|discriminate].
Qed.

(** X14. A file name that [process_email_html] returns names a file the
    run has written, and the file holds what the run has fetched: the
    extracted meeting information; the [value] of the answer to the
    request for the reports of the thread id of the email, which is true;
    and the records the loop has merged for the items of that value.  The
    Meeting ID was found in the email; as the parser has removed its
    spaces, the replacement of spaces by underscores changes nothing and
    the name is [attendance_reports/attendance_<Meeting ID>_<time
    stamp>.json], with the time at which the loop had ended. *)
Theorem returned_path_is_written (html_body : string)
    (use_password_auth : bool) (s s' : State) (filename : string) :
  process_email_html html_body use_password_auth s = (Ok (Some filename), s') ->
  exists (mi : dict value) (m t : string)
         (client client1 client2 : GraphClient) (report reports : value)
         (n : nat) (items records : list value) (s1 s2 s3 : State)
         (now now' : datetime) (w w' : World),
    extract_meeting_info html_body = Ok mi
    /\ dict_lookup "meeting_id" mi = Some (VStr m)
    /\ has_char " " m = false
    /\ dict_lookup "thread_id" mi = Some (VStr t)
    /\ get_online_meeting_attendance_report client (VStr t) s1
       = (Ok (client1, report), s2)
    /\ py_get report "value" (VList []) = Ok reports
    /\ truthy reports = true
    /\ py_len reports = Ok n /\ py_iter reports = Ok items
    /\ fetch_records client1 (VStr t) items []
         (printed [ "✓ Attendance report retrieved successfully";
                    "Found " +:+ pretty n +:+ " attendance report(s)" ] s2)
       = (Ok (client2, records), s3)
    /\ datetime_now (world s3) = (now, w)
    /\ datetime_now w = (now', w')
    /\ filename = "attendance_reports/attendance_" +:+ m +:+ "_"
                  +:+ strftime now "%Y%m%d_%H%M%S" +:+ ".json"
    /\ dict_lookup filename (files s')
       = Some (saved_report mi
                 [ ("reports", reports);
                   ("attendance_records", VList records) ] (isoformat now')).
Proof.
  intros Hp. unfold process_email_html in Hp.
  rewrite bind_print in Hp.
  apply bind_inv_ok in Hp as (mi & s0 & He & Hp).
  assert (extract_meeting_info html_body = Ok mi) as Hex
    by (unfold lift in He; congruence).
  clear He. rewrite !bind_print in Hp.
  destruct (negb (truthy (dict_get "thread_id" VNone mi))) eqn:Hthread.
  { rewrite bind_print in Hp. discriminate. }
  apply negb_false_iff in Hthread.
  destruct (thread_id_string _ _ Hex Hthread) as [t Ht].
  assert (Hmeeting : dict_get "thread_id" VNone mi = VStr t)
    by (unfold dict_get; by rewrite Ht).
  rewrite Hmeeting in Hp.
  rewrite bind_print in Hp.
  apply bind_inv_ok in Hp as (auth & sa & _ & Hp).
  apply bind_inv_ok in Hp as (authenticated & sb & _ & Hp).
  destruct authenticated; simpl in Hp; [|discriminate].
  apply bind_inv_ok in Hp as (client & s3 & _ & Hp).
  rewrite bind_print in Hp.
  apply bind_inv_ok in Hp as ([client' report] & s4 & Hreport & Hp).
  unfold process_attendance_report in Hp.
  destruct (truthy report).
  2:{ rewrite !bind_print in Hp. discriminate. }
  rewrite bind_print in Hp.
  apply bind_inv_ok in Hp as (reports & s5 & Hvalue & Hp).
  destruct (truthy reports) eqn:Hreports.
  2:{ rewrite bind_print in Hp. discriminate. }
  apply bind_inv_ok in Hp as (n & s6 & Hlen & Hp).
  rewrite bind_print in Hp.
  apply bind_inv_ok in Hp as (items & s7 & Hiter & Hp).
  apply bind_inv_ok in Hp as ([client'' all_records] & s8 & Hloop & Hp).
  apply bind_inv_ok in Hp as (fn & s9 & Hsave & Hp).
  rewrite !bind_print in Hp.
  apply bind_inv_ok in Hp as (u & s10 & Hsum & Hp).
  unfold ret in Hp. injection Hp as -> ->.
  apply save_attendance_report_inv in Hsave
    as (m & now & w & now' & w' & Hm & _ & Hnow & Hnow' & Hfn & _ & Hfiles & _).
  assert (files s' = files s9) as Hkept.
  { destruct all_records as [|record rest].
    - unfold ret in Hsum. by injection Hsum as _ <-.
    - rewrite bind_print in Hsum.
      match type of Hsum with
      | print_attendees 1 ?recs ?st = _ =>
          pose proof (print_attendees_files recs 1 st) as Hf;
          rewrite Hsum in Hf; exact Hf
      end. }
  assert (dict_lookup "meeting_id" mi = Some (VStr m)
          /\ has_char " " m = false) as (Hmid & Hsp).
  { unfold dict_get in Hm.
    destruct (extract_meeting_id_field _ _ Hex) as [Hn|(t0 & Ht0)].
    - rewrite Hn in Hm. discriminate.
    - rewrite Ht0 in Hm. injection Hm as <-. split; [exact Ht0|].
      apply replace_char_no_char. }
  unfold report_path in Hfn. rewrite (replace_char_absent _ _ _ Hsp) in Hfn.
  unfold lift in Hvalue, Hlen, Hiter.
  assert (s5 = printed [ "✓ Attendance report retrieved successfully" ] s4
          /\ py_get report "value" (VList []) = Ok reports) as [-> Hv]
    by (split; congruence).
  assert (s6 = printed [ "✓ Attendance report retrieved successfully" ] s4
          /\ py_len reports = Ok n) as [-> Hn] by (split; congruence).
  assert (s7 = printed [ "Found " +:+ pretty n +:+ " attendance report(s)" ]
                 (printed [ "✓ Attendance report retrieved successfully" ] s4)
          /\ py_iter reports = Ok items) as [-> Hi] by (split; congruence).
  exists mi, m, t, client, client', client'', report, reports, n, items,
    all_records,
    (printed [ nl +:+ "Fetching attendance report for meeting: " +:+ t ] s3),
    s4, s8, now, now', w, w'.
  split; [exact Hex|]. split; [exact Hmid|]. split; [exact Hsp|].
  split; [exact Ht|]. split; [exact Hreport|]. split; [exact Hv|].
  split; [exact Hreports|]. split; [exact Hn|]. split; [exact Hi|].
  split; [exact Hloop|]. split; [exact Hnow|]. split; [exact Hnow'|].
  split; [exact Hfn|].
  rewrite Hkept, Hfiles. apply dict_lookup_set_eq.
Qed.

Lemma dict_set_length_has {V} (k : string) (v : V) (d : dict V) :
  dict_lookup k d <> None -> length (dict_set k v d) = length d.
Proof.
  induction d as [|[k' v'] d IH]; simpl; [done|].
  destruct (String.eqb k' k); [reflexivity|]. intros Hk. simpl. by rewrite IH.
Qed.

(** X15. The name of a report depends on the directory, the Meeting ID
    and the time to the second only, and an existing file is replaced:
    when the directory can be made and the file opened in it, two reports
    of one meeting saved within the same second go to the same file, which
    then holds the second report alone. *)
Theorem reports_of_one_second_overwrite (meeting_info first second : dict value)
    (output_dir m : string) (s : State) (n1 n1' n2 n2' : datetime)
    (w1 w2 w3 w4 : World) :
  dict_lookup "meeting_id" meeting_info = Some (VStr m) ->
  datetime_now (world s) = (n1, w1) -> datetime_now w1 = (n1', w2) ->
  datetime_now w2 = (n2, w3) -> datetime_now w3 = (n2', w4) ->
  strftime n1 "%Y%m%d_%H%M%S" = strftime n2 "%Y%m%d_%H%M%S" ->
  let filename := report_path output_dir m (strftime n1 "%Y%m%d_%H%M%S") in
  makedirs_error output_dir s = None ->
  open_error filename (makedirs output_dir s).2 = None ->
  exists s1 s2,
    save_attendance_report meeting_info first output_dir s = (Ok filename, s1)
    /\ save_attendance_report meeting_info second output_dir s1
       = (Ok filename, s2)
    /\ dict_lookup filename (files s1)
       = Some (saved_report meeting_info first (isoformat n1'))
    /\ dict_lookup filename (files s2)
       = Some (saved_report meeting_info second (isoformat n2'))
    /\ length (files s2) = length (files s1).
Proof.
  intros Hm H1 H1' H2 H2' Hstamp filename Hmk Hopen.
  pose proof (save_attendance_report_eq meeting_info first output_dir m s
                n1 n1' w1 w2 Hm Hmk H1 H1') as Hs1.
  cbv zeta in Hs1. fold filename in Hs1.
  assert (Hopen1 : open_error filename
                     (set_world w2 (makedirs output_dir s).2) = None)
    by (eapply open_error_dirs; [|exact Hopen]; reflexivity).
  rewrite Hopen1 in Hs1.
  match type of Hs1 with _ = (_, ?st) => set (s1 := st) in * end.
  assert (Hd1 : dirs s1 = dirs (makedirs output_dir s).2).
  { subst s1. unfold printed, write_file. rewrite Hopen1. reflexivity. }
  assert (Hf1 : files s1
                = dict_set filename
                    (saved_report meeting_info first (isoformat n1'))
                    (files s)).
  { subst s1. unfold printed. cbn [fold_left print snd files].
    rewrite write_file_files by exact Hopen1.
    cbn [files set_world]. by rewrite makedirs_files. }
  assert (Hw1 : world s1 = w2).
  { subst s1. unfold printed, write_file. rewrite Hopen1. reflexivity. }
  clearbody s1.
  destruct (makedirs_again output_dir s Hmk) as (Hmk' & Hmd').
  assert (Hmk1 : makedirs_error output_dir s1 = None).
  { revert Hmk'. unfold makedirs_error, is_dir, is_file. rewrite Hd1.
    destruct (has_char nul_char output_dir); [done|].
    destruct (String.eqb output_dir ""); [done|].
    intros _. pose proof (makedirs_is_dir output_dir s Hmk) as Hd.
    unfold is_dir in Hd. by rewrite Hd. }
  assert (Hsame : (makedirs output_dir s1).2 = s1).
  { unfold makedirs. rewrite Hmk1. cbn [snd].
    pose proof (makedirs_is_dir output_dir s Hmk) as Hd.
    unfold is_dir in Hd |- *. by rewrite Hd1, Hd. }
  rewrite <- Hw1 in H2.
  pose proof (save_attendance_report_eq meeting_info second output_dir m s1
                n2 n2' w3 w4 Hm Hmk1 H2 H2') as Hs2.
  cbv zeta in Hs2. rewrite <- Hstamp in Hs2. fold filename in Hs2.
  rewrite Hsame in Hs2.
  assert (Hopen2 : open_error filename (set_world w4 s1) = None)
    by (eapply open_error_dirs; [|exact Hopen]; exact Hd1).
  rewrite Hopen2 in Hs2.
  match type of Hs2 with _ = (_, ?st) => set (s2 := st) in * end.
  assert (Hf2 : files s2
                = dict_set filename
                    (saved_report meeting_info second (isoformat n2'))
                    (files s1)).
  { subst s2. unfold printed. cbn [fold_left print snd files].
    by rewrite write_file_files by exact Hopen2. }
  clearbody s2.
  exists s1, s2. split; [exact Hs1|]. split; [exact Hs2|].
  split; [rewrite Hf1; apply dict_lookup_set_eq|].
  split; [rewrite Hf2; apply dict_lookup_set_eq|].
  rewrite Hf2. apply dict_set_length_has.
  rewrite Hf1, dict_lookup_set_eq. discriminate.
Qed.

End MainMore.

(** ** Lines of text *)

Lemma str_contains_char (c : ascii) (s : string) :
  str_contains (String c "") s = has_char c s.
Proof.
  induction s as [|a s IH]; [reflexivity|].
  simpl. rewrite IH. unfold starts_with. simpl.
  rewrite (Ascii.eqb_sym c a). by destruct (Ascii.eqb a c).
Qed.

Lemma str_split_nonempty (c : ascii) (s : string) : str_split c s <> [].
Proof.
  induction s as [|a s IH]; simpl; [done|].
  destruct (Ascii.eqb a c); [done|]. by destruct (str_split c s).
Qed.

(** A text without the separator is one field. *)
Lemma str_split_single (c : ascii) (l : string) :
  has_char c l = false -> str_split c l = [l].
Proof.
  induction l as [|a l IH]; [reflexivity|]. simpl.
  destruct (Ascii.eqb a c); [discriminate|]. simpl. intros Hl.
  by rewrite IH.
Qed.

(** The first field ends at the first separator. *)
Lemma str_split_line (c : ascii) (l rest : string) :
  has_char c l = false ->
  str_split c (l +:+ String c rest) = l :: str_split c rest.
Proof.
  induction l as [|a l IH].
  - intros _. change ("" +:+ String c rest) with (String c rest). simpl.
    by rewrite Ascii.eqb_refl.
  - simpl. destruct (Ascii.eqb a c) eqn:E; [discriminate|]. simpl.
    intros Hl. rewrite ?str_app_cons. simpl. rewrite ?E. by rewrite IH.
Qed.

(** A text that holds the separator has at least two fields. *)
Lemma str_split_two (c : ascii) (s : string) :
  has_char c s = true -> exists x y l, str_split c s = x :: y :: l.
Proof.
  induction s as [|a s IH]; [discriminate|]. simpl.
  destruct (Ascii.eqb a c); simpl.
  - intros _. pose proof (str_split_nonempty c s).
    destruct (str_split c s) as [|y l]; [done|]. by eexists _, _, _.
  - intros Hs. destruct (IH Hs) as (x & y & l & ->). by eexists _, _, _.
Qed.

Lemma universal_newlines_app (a b : string) :
  has_char cr_char a = false ->
  universal_newlines (a +:+ b) = a +:+ universal_newlines b.
Proof.
  induction a as [|x a IH]; [reflexivity|]. simpl.
  destruct (Ascii.eqb x cr_char) eqn:E; [discriminate|]. simpl. intros Ha.
  rewrite ?str_app_cons. simpl. rewrite ?E. by rewrite IH.
Qed.

Lemma str_contains_starts (sub s : string) :
  starts_with sub s = true -> str_contains sub s = true.
Proof. intros Hs. destruct s; simpl; by rewrite Hs. Qed.

(** ** refresh_token.py: the search of the refresh token *)

Section RefreshScriptFacts.
Context `{Platform}.

(** A path that can be opened for writing is no directory, and the
    operating system has nothing against it. *)
Lemma open_error_none (path : string) (s : State) :
  open_error path s = None ->
  has_char nul_char path = false /\ is_dir path s = false
  /\ os_denies path = None.
Proof.
  unfold open_error.
  destruct (has_char nul_char path); [done|].
  destruct (String.eqb path ""); [done|].
  destruct (is_dir path s); [done|].
  destruct (negb (String.eqb (dirname path) "")
            && negb (is_dir (dirname path) s)); [done|]. done.
Qed.

Lemma read_file_state (path : string) (s : State) :
  (read_file path s).2 = s.
Proof.
  unfold read_file.
  destruct (has_char nul_char path); [done|].
  destruct (is_dir path s); [done|].
  destruct (dict_lookup path (files s)) as [c|]; [|done].
  destruct (os_denies path); [done|].
  destruct c as [t|v]; [|done]. by destruct (utf8_valid t).
Qed.

(** A text file that can be opened reads as its text when that is UTF-8,
    and raises [UnicodeDecodeError] when it is not. *)
Lemma read_file_text (path t : string) (s : State) :
  has_char nul_char path = false -> is_dir path s = false ->
  os_denies path = None ->
  dict_lookup path (files s) = Some (FText t) ->
  read_file path s
  = (if utf8_valid t then Ok (universal_newlines t) else Raise undecodable, s).
Proof.
  intros Hn Hd Ho Hf. unfold read_file. rewrite Hn, Hd, Hf, Ho.
  by destruct (utf8_valid t).
Qed.

Lemma ok_inj {A} (a b : A) : Ok a = Ok b -> a = b.
Proof. by intros [=]. Qed.

Lemma credentials_path_plain :
  has_char nul_char "credentials.txt" = false.
Proof. reflexivity. Qed.

Lemma read_file_missing (path : string) (s : State) :
  has_char nul_char path = false -> is_dir path s = false ->
  dict_lookup path (files s) = None ->
  read_file path s = (Raise (file_not_found path), s).
Proof. intros Hn Hd Hf. unfold read_file. by rewrite Hn, Hd, Hf. Qed.

(** The index [1] of the first loop is always in range: the search in a
    text never raises. *)
Lemma tabbed_token_total (lines : list string) :
  exists found, tabbed_token lines = Ok found.
Proof.
  induction lines as [|line rest IH]; simpl; [by eexists|].
  destruct (str_contains "refreshToken" line); simpl; [|exact IH].
  destruct (str_contains tab line) eqn:Et; [|exact IH].
  unfold tab in Et. rewrite str_contains_char in Et.
  destruct (str_split_two _ _ Et) as (x & y & l & ->). by eexists.
Qed.

Lemma token_of_credentials_total (content : string) :
  exists found, token_of_credentials content = Ok found.
Proof.
  unfold token_of_credentials.
  destruct (tabbed_token_total (str_split nl_char content)) as ([t|] & ->);
    simpl; [by eexists|].
  destruct (str_contains _ content); by eexists.
Qed.

(** What [get_refresh_token] returns, and that it changes nothing. *)
Lemma get_refresh_token_cases (s : State) :
  (get_refresh_token s).2 = s
  /\ (forall t, environ !! "REFRESH_TOKEN" = Some t -> t <> "" ->
        get_refresh_token s = (Ok (Some t), s))
  /\ (opt_truthy (environ !! "REFRESH_TOKEN") = false ->
      (forall content,
          read_file "credentials.txt" s = (Ok content, s) ->
          exists found,
            token_of_credentials content = Ok found
            /\ get_refresh_token s = (Ok found, s))
      /\ (forall e,
            read_file "credentials.txt" s = (Raise e, s) ->
            get_refresh_token s
            = (if is_file_not_found e then Ok None else Raise e, s))).
Proof.
  unfold get_refresh_token.
  split; [|split].
  - destruct (opt_truthy _); [reflexivity|].
    rewrite try_except_eq. unfold bind.
    pose proof (read_file_state "credentials.txt" s) as Hs.
    destruct (read_file "credentials.txt" s) as [[content|e] s1];
      cbn [snd] in Hs; subst s1.
    + unfold lift.
      by destruct (token_of_credentials_total content) as (f & ->).
    + by destruct (is_file_not_found e).
  - intros t -> Hne. simpl.
    destruct (String.eqb t "") eqn:E; [|reflexivity].
    apply String.eqb_eq in E. contradiction.
  - intros ->. split.
    + intros content Hr. rewrite try_except_eq. unfold bind. rewrite Hr.
      unfold lift.
      destruct (token_of_credentials_total content) as (f & Hf).
      exists f. split; [exact Hf|]. by rewrite Hf.
    + intros e Hr. rewrite try_except_eq. unfold bind. rewrite Hr.
      by destruct (is_file_not_found e).
Qed.

(** X16. [get_refresh_token] only reads: it leaves the state as it is.
    A [REFRESH_TOKEN] that is set and not empty is returned whatever
    [credentials.txt] holds.  Without one: a text that can be read gives a
    result, whatever it holds (the second field of a line that holds a tab
    is always there, so the index [1] never raises); a file that is not
    there gives [None]; and what reading raises apart from
    FileNotFoundError leaves the function, as it does when the path is a
    directory and when the bytes of the file are no UTF-8 text. *)
Theorem get_refresh_token_only_reads (s : State) :
  (get_refresh_token s).2 = s
  /\ (forall t, environ !! "REFRESH_TOKEN" = Some t -> t <> "" ->
        get_refresh_token s = (Ok (Some t), s))
  /\ (opt_truthy (environ !! "REFRESH_TOKEN") = false ->
      (forall content,
          read_file "credentials.txt" s = (Ok content, s) ->
          exists found, get_refresh_token s = (Ok found, s))
      /\ (forall e,
            read_file "credentials.txt" s = (Raise e, s) ->
            get_refresh_token s
            = (if is_file_not_found e then Ok None else Raise e, s))
      /\ (is_dir "credentials.txt" s = false ->
          dict_lookup "credentials.txt" (files s) = None ->
          get_refresh_token s = (Ok None, s))
      /\ (is_dir "credentials.txt" s = true ->
          get_refresh_token s = (Raise (is_a_directory "credentials.txt"), s))
      /\ (forall t,
            is_dir "credentials.txt" s = false ->
            os_denies "credentials.txt" = None ->
            dict_lookup "credentials.txt" (files s) = Some (FText t) ->
            utf8_valid t = false ->
            get_refresh_token s = (Raise undecodable, s))).
Proof.
  destruct (get_refresh_token_cases s) as (Hs & Henv & Hfile).
  split; [exact Hs|]. split; [exact Henv|].
  intros He. destruct (Hfile He) as (Hok & Hraise).
  split; [|split; [exact Hraise|split; [|split]]].
  - intros content Hr. destruct (Hok content Hr) as (found & _ & Hg). eauto.
  - intros Hd Hf.
    by rewrite (Hraise _ (read_file_missing _ _ credentials_path_plain Hd Hf)).
  - intros Hd. rewrite (Hraise (is_a_directory "credentials.txt")); [done|].
    unfold read_file. by rewrite credentials_path_plain, Hd.
  - intros t Hd Ho Hf Hu.
    pose proof (read_file_text _ t s credentials_path_plain Hd Ho Hf) as Hr.
    rewrite Hu in Hr. by rewrite (Hraise _ Hr).
Qed.

(** A line that is not the token line is passed over. *)
Lemma tabbed_token_skip (line rest : string) :
  has_char nl_char line = false -> has_char cr_char line = false ->
  str_contains "refreshToken" line && str_contains tab line = false ->
  tabbed_token (str_split nl_char
                  (universal_newlines (line +:+ String nl_char rest)))
  = tabbed_token (str_split nl_char (universal_newlines rest)).
Proof.
  intros Hnl Hcr Hno. rewrite universal_newlines_app by exact Hcr.
  change (universal_newlines (String nl_char rest))
    with (String nl_char (universal_newlines rest)).
  rewrite str_split_line by exact Hnl. cbn [tabbed_token]. by rewrite Hno.
Qed.

(** The first line that holds [refreshToken] and a tab gives its second
    field, whatever its first field is. *)
Lemma tabbed_token_hit (key v rest : string) :
  has_char nl_char key = false -> has_char cr_char key = false ->
  has_char tab_char key = false ->
  has_char nl_char v = false -> has_char cr_char v = false ->
  has_char tab_char v = false ->
  str_contains "refreshToken" (key +:+ tab +:+ v) = true ->
  tabbed_token (str_split nl_char
                  (universal_newlines
                     ((key +:+ tab +:+ v) +:+ String nl_char rest)))
  = Ok (Some (strip v)).
Proof.
  intros Hkn Hkc Hkt Hn Hc Ht Hin.
  assert (forall c, Ascii.eqb tab_char c = false -> has_char c key = false ->
                    has_char c v = false ->
                    has_char c (key +:+ tab +:+ v) = false) as Hline.
  { intros c Hc1 Hc2 Hc3. rewrite has_char_app, Hc2.
    change (tab +:+ v) with (String tab_char v). cbn [has_char orb].
    by rewrite Hc1, Hc3. }
  rewrite universal_newlines_app by (by apply Hline).
  change (universal_newlines (String nl_char rest))
    with (String nl_char (universal_newlines rest)).
  rewrite str_split_line by (by apply Hline).
  cbn [tabbed_token]. rewrite Hin.
  replace (str_contains tab (key +:+ tab +:+ v)) with true.
  2:{ symmetry. apply str_contains_app_r. reflexivity. }
  cbn [andb].
  replace (str_split tab_char (key +:+ tab +:+ v)) with [key; v].
  2:{ change (key +:+ tab +:+ v) with (key +:+ String tab_char v).
      rewrite str_split_line by exact Hkt.
      by rewrite str_split_single by exact Ht. }
  reflexivity.
Qed.

End RefreshScriptFacts.

(** ** get_credentials_simple.py *)

Section GetCredentialsFacts.
Context `{Platform}.

Lemma join_cons (x y : string) (l : list string) :
  join nl (x :: y :: l) = x +:+ String nl_char (join nl (y :: l)).
Proof. reflexivity. Qed.

Lemma one_line_inv (v : string) :
  one_line v = true -> has_char nl_char v = false /\ has_char cr_char v = false.
Proof.
  unfold one_line. intros Hv. apply andb_prop in Hv as [Hn Hc].
  by apply negb_true_iff in Hn, Hc.
Qed.

(** The search of [get_refresh_token] in the text [main] writes. *)
Lemma token_of_credentials_written (g : credential_settings)
    (token : string) (rest : list string) :
  one_line token = true -> has_char tab_char token = false ->
  strip token = token ->
  Forall (fun v => one_line v = true /\ str_contains "refreshToken" v = false)
    [cs_TENANT_ID g; cs_CLIENT_ID g; cs_CLIENT_SECRET g] ->
  rest <> [] ->
  token_of_credentials
    (universal_newlines
       (join nl
          (long_rule :: "CREDENTIALS" :: long_rule
           :: ("Name" +:+ tab +:+ "Value")
           :: ("tenantId" +:+ tab +:+ cs_TENANT_ID g)
           :: ("clientId" +:+ tab +:+ cs_CLIENT_ID g)
           :: ("clientSecret" +:+ tab +:+ cs_CLIENT_SECRET g)
           :: ("refreshToken" +:+ tab +:+ token)
           :: rest)))
  = Ok (Some token).
Proof.
  intros Htok Htab Hstrip Hset Hrest.
  apply one_line_inv in Htok as [Hn Hc].
  inversion Hset as [|? ? [Ht1 Ht2] Hset1]; subst.
  inversion Hset1 as [|? ? [Hc1 Hc2] Hset2]; subst.
  inversion Hset2 as [|? ? [Hs1 Hs2] _]; subst.
  apply one_line_inv in Ht1 as [Htn Htc], Hc1 as [Hcn Hcc], Hs1 as [Hsn Hsc].
  destruct rest as [|r rest]; [done|].
  unfold token_of_credentials. rewrite !join_cons.
  do 7 (rewrite tabbed_token_skip;
        [|first [ reflexivity
                | cbv [String.append tab]; simpl;
                  rewrite ?Ht2, ?Hc2, ?Hs2; first [assumption|reflexivity] ]..]).
  rewrite tabbed_token_hit;
    [|first [reflexivity|assumption|apply str_contains_starts, starts_with_app]..].
  cbn [mbind result_bind]. by rewrite Hstrip.
Qed.

(** The same search when the client secret holds the text
    [refreshToken]: its line comes first. *)
Lemma token_of_credentials_secret (g : credential_settings)
    (rest : list string) :
  Forall (fun v => one_line v = true /\ str_contains "refreshToken" v = false)
    [cs_TENANT_ID g; cs_CLIENT_ID g] ->
  one_line (cs_CLIENT_SECRET g) = true ->
  has_char tab_char (cs_CLIENT_SECRET g) = false ->
  str_contains "refreshToken" (cs_CLIENT_SECRET g) = true ->
  rest <> [] ->
  token_of_credentials
    (universal_newlines
       (join nl
          (long_rule :: "CREDENTIALS" :: long_rule
           :: ("Name" +:+ tab +:+ "Value")
           :: ("tenantId" +:+ tab +:+ cs_TENANT_ID g)
           :: ("clientId" +:+ tab +:+ cs_CLIENT_ID g)
           :: ("clientSecret" +:+ tab +:+ cs_CLIENT_SECRET g)
           :: rest)))
  = Ok (Some (strip (cs_CLIENT_SECRET g))).
Proof.
  intros Hset Hsec Htab Hin Hrest.
  inversion Hset as [|? ? [Ht1 Ht2] Hset1]; subst.
  inversion Hset1 as [|? ? [Hc1 Hc2] _]; subst.
  apply one_line_inv in Ht1 as [Htn Htc], Hc1 as [Hcn Hcc], Hsec as [Hsn Hsc].
  destruct rest as [|r rest]; [done|].
  unfold token_of_credentials. rewrite !join_cons.
  do 6 (rewrite tabbed_token_skip;
        [|first [ reflexivity
                | cbv [String.append tab]; simpl;
                  rewrite ?Ht2, ?Hc2; first [assumption|reflexivity] ]..]).
  rewrite tabbed_token_hit;
    [|first [reflexivity|assumption|by apply str_contains_app_r]..].
  reflexivity.
Qed.

(** The text [main] writes for a grant that carries an access token and
    a refresh token, both strings: the eight lines of the table, and more
    lines after them. *)
Lemma credentials_text_lines (g : credential_settings) (grant : dict value)
    (access token : string) :
  dict_lookup "access_token" grant = Some (VStr access) ->
  dict_get "refresh_token" (VStr "") grant = VStr token ->
  exists rest,
    rest <> []
    /\ credentials_text g grant
       = Ok (join nl
               (long_rule :: "CREDENTIALS" :: long_rule
                :: ("Name" +:+ tab +:+ "Value")
                :: ("tenantId" +:+ tab +:+ cs_TENANT_ID g)
                :: ("clientId" +:+ tab +:+ cs_CLIENT_ID g)
                :: ("clientSecret" +:+ tab +:+ cs_CLIENT_SECRET g)
                :: ("refreshToken" +:+ tab +:+ token)
                :: rest)).
Proof.
  intros Ha Hr. unfold credentials_text.
  assert (dict_get "access_token" (VStr "") grant = VStr access) as ->
    by (unfold dict_get; by rewrite Ha).
  rewrite Hr. cbn [py_prefix mbind result_bind].
  unfold credentials_lines, py_join. cbn [str_items mbind result_bind py_str].
  eexists. split; [|reflexivity]. discriminate.
Qed.

(** What [main] does with a grant that carries an access token, when the
    text can be built and the file opened. *)
Lemma credentials_main_ok (g : credential_settings) (s : State)
    (grant : dict value) (w : World) (text : string) :
  acquire_token_by_username_password
    (MsalApp (cs_CLIENT_ID g) (cs_CLIENT_SECRET g)
       ("https://login.microsoftonline.com/" +:+ cs_TENANT_ID g))
    (cs_USERNAME g) (cs_PASSWORD g) (cs_SCOPE g) (world s) = (Ok grant, w) ->
  dict_has "access_token" grant = true ->
  credentials_text g grant = Ok text ->
  open_error "credentials.txt" s = None ->
  exists s1,
    credentials_main g s = (Ok 0%Z, s1)
    /\ files s1 = dict_set "credentials.txt" (FText text) (files s)
    /\ dirs s1 = dirs s
    /\ stdout s1 = (stdout s ++ [nl +:+ text])%list.
Proof.
  intros Hg Ha Ht Ho. unfold credentials_main.
  rewrite bind_eprint, bind_call_world, world_eprint, Hg.
  rewrite Ha. cbn [negb].
  revert Ht. unfold credentials_text. cbv zeta.
  destruct (py_prefix 50 (dict_get "access_token" (VStr "") grant))
    as [head|e]; [|discriminate].
  cbn [mbind result_bind]. intros Ht.
  rewrite bind_lift_ok, Ht, bind_lift_ok, bind_print.
  match goal with
  | |- context [bind (write_file ?p ?c) ?k ?st] =>
      assert (Hop : open_error p st = None)
        by (rewrite <- Ho; by apply open_error_same)
  end.
  rewrite bind_write_file by exact Hop. rewrite bind_eprint.
  unfold write_file. rewrite Hop.
  eexists. split; [reflexivity|]. done.
Qed.

(** The file [main] has written can be read back when its text is
    UTF-8. *)
Lemma credentials_read_back (text : string) (s s1 : State) :
  open_error "credentials.txt" s = None ->
  files s1 = dict_set "credentials.txt" (FText text) (files s) ->
  dirs s1 = dirs s ->
  utf8_valid text = true ->
  read_file "credentials.txt" s1 = (Ok (universal_newlines text), s1).
Proof.
  intros Ho Hf Hd Hu.
  destruct (open_error_none _ _ Ho) as (Hn & Hdir & Hos).
  rewrite (read_file_text "credentials.txt" text s1 Hn); [by rewrite Hu|..].
  - unfold is_dir in *. by rewrite Hd.
  - exact Hos.
  - by rewrite Hf, dict_lookup_set_eq.
Qed.

(** X17. The refresh token that [get_credentials_simple.py] writes to
    [credentials.txt] is the one [get_refresh_token] reads back from it.
    This holds for a token on one line, without a tab and without blanks
    around it, when [TENANT_ID], [CLIENT_ID] and [CLIENT_SECRET] are on
    one line each and none of them holds the text [refreshToken] (the
    reader takes the first line that holds it), when no [REFRESH_TOKEN]
    is set in the environment, when [credentials.txt] can be opened and
    the text written to it is UTF-8. *)
Theorem credentials_round_trip (g : credential_settings) (s : State)
    (grant : dict value) (w : World) (access token text : string) :
  acquire_token_by_username_password
    (MsalApp (cs_CLIENT_ID g) (cs_CLIENT_SECRET g)
       ("https://login.microsoftonline.com/" +:+ cs_TENANT_ID g))
    (cs_USERNAME g) (cs_PASSWORD g) (cs_SCOPE g) (world s) = (Ok grant, w) ->
  dict_lookup "access_token" grant = Some (VStr access) ->
  dict_get "refresh_token" (VStr "") grant = VStr token ->
  one_line token = true -> has_char tab_char token = false ->
  strip token = token ->
  Forall (fun v => one_line v = true /\ str_contains "refreshToken" v = false)
    [cs_TENANT_ID g; cs_CLIENT_ID g; cs_CLIENT_SECRET g] ->
  opt_truthy (environ !! "REFRESH_TOKEN") = false ->
  open_error "credentials.txt" s = None ->
  credentials_text g grant = Ok text -> utf8_valid text = true ->
  exists s1,
    credentials_main g s = (Ok 0%Z, s1)
    /\ dict_lookup "credentials.txt" (files s1) = Some (FText text)
    /\ get_refresh_token s1 = (Ok (Some token), s1).
Proof.
  intros Hg Ha Hr Htok Htab Hstrip Hset Henv Ho Ht Hu.
  assert (Hhas : dict_has "access_token" grant = true)
    by (unfold dict_has; by rewrite Ha).
  destruct (credentials_main_ok g s grant w text Hg Hhas Ht Ho)
    as (s1 & Hmain & Hfiles & Hdirs & _).
  exists s1. split; [exact Hmain|].
  split; [by rewrite Hfiles, dict_lookup_set_eq|].
  destruct (get_refresh_token_cases s1) as (_ & _ & Hfile).
  destruct (Hfile Henv) as (Hok & _).
  destruct (Hok _ (credentials_read_back text s s1 Ho Hfiles Hdirs Hu))
    as (found & Hfound & ->).
  destruct (credentials_text_lines g grant access token Ha Hr)
    as (rest & Hrest & Hlines).
  rewrite Ht in Hlines. apply ok_inj in Hlines. subst text.
  rewrite (token_of_credentials_written g token rest Htok Htab Hstrip Hset
             Hrest) in Hfound.
  by injection Hfound as <-.
Qed.

(** X18. The reader takes the first line of [credentials.txt] that holds
    the text [refreshToken] and a tab, whatever the name in front of the
    tab.  When the client secret itself holds [refreshToken], its line
    comes before the token's: what [get_refresh_token] then reads back
    from the file [main] has written is the client secret, not the
    refresh token. *)
Theorem client_secret_read_as_token (g : credential_settings) (s : State)
    (grant : dict value) (w : World) (access token text : string) :
  acquire_token_by_username_password
    (MsalApp (cs_CLIENT_ID g) (cs_CLIENT_SECRET g)
       ("https://login.microsoftonline.com/" +:+ cs_TENANT_ID g))
    (cs_USERNAME g) (cs_PASSWORD g) (cs_SCOPE g) (world s) = (Ok grant, w) ->
  dict_lookup "access_token" grant = Some (VStr access) ->
  dict_get "refresh_token" (VStr "") grant = VStr token ->
  Forall (fun v => one_line v = true /\ str_contains "refreshToken" v = false)
    [cs_TENANT_ID g; cs_CLIENT_ID g] ->
  one_line (cs_CLIENT_SECRET g) = true ->
  has_char tab_char (cs_CLIENT_SECRET g) = false ->
  str_contains "refreshToken" (cs_CLIENT_SECRET g) = true ->
  opt_truthy (environ !! "REFRESH_TOKEN") = false ->
  open_error "credentials.txt" s = None ->
  credentials_text g grant = Ok text -> utf8_valid text = true ->
  exists s1,
    credentials_main g s = (Ok 0%Z, s1)
    /\ dict_lookup "credentials.txt" (files s1) = Some (FText text)
    /\ get_refresh_token s1 = (Ok (Some (strip (cs_CLIENT_SECRET g))), s1).
Proof.
  intros Hg Ha Hr Hset Hsec Htab Hin Henv Ho Ht Hu.
  assert (Hhas : dict_has "access_token" grant = true)
    by (unfold dict_has; by rewrite Ha).
  destruct (credentials_main_ok g s grant w text Hg Hhas Ht Ho)
    as (s1 & Hmain & Hfiles & Hdirs & _).
  exists s1. split; [exact Hmain|].
  split; [by rewrite Hfiles, dict_lookup_set_eq|].
  destruct (get_refresh_token_cases s1) as (_ & _ & Hfile).
  destruct (Hfile Henv) as (Hok & _).
  destruct (Hok _ (credentials_read_back text s s1 Ho Hfiles Hdirs Hu))
    as (found & Hfound & ->).
  destruct (credentials_text_lines g grant access token Ha Hr)
    as (rest & Hrest & Hlines).
  rewrite Ht in Hlines. apply ok_inj in Hlines. subst text.
  rewrite (token_of_credentials_secret g
             (("refreshToken" +:+ tab +:+ token) :: rest)
             Hset Hsec Htab Hin ltac:(discriminate)) in Hfound.
  by injection Hfound as <-.
Qed.

End GetCredentialsFacts.

(** ** refresh_token.py: every outcome of a refresh *)



Section RefreshMore.
Context `{Platform}.


(** X19. [refresh_access_token] never raises and posts exactly one
    request, the refresh grant with the supplied token.  When the answer
    grants a token (a status that is no error, with a JSON object that
    has an [access_token]) the success lines go to the standard output;
    then, when [access_token.txt] can be opened, it is written, with the
    new access token and with the refresh token of the answer or, when it
    has none, the supplied one, and the object is returned; when the file
    cannot be opened the exception is caught, the result is [None] and no
    file is written, with the success lines already printed.  With any
    other answer the result is [None], no file is written and nothing
    goes to the standard output. *)
Theorem refresh_outcomes (g : refresh_settings) (refresh_token : string)
    (s : State) :
  let answer :=
    (requests_post (refresh_request g refresh_token) (world s)).1 in
  exists v s',
    refresh_access_token g refresh_token s = (Ok v, s')
    /\ sent s' = (sent s ++ [refresh_request g refresh_token])%list
    /\ heap s' = heap s
    /\ match granted_by answer with
       | Some d =>
           stdout s' = (stdout s ++ success_lines refresh_token d)%list
           /\ match open_error "access_token.txt" s with
              | None =>
                  v = VDict d
                  /\ files s'
                     = dict_set "access_token.txt"
                         (FText (access_token_text refresh_token d)) (files s)
              | Some _ => v = VNone /\ files s' = files s
              end
       | None => v = VNone /\ files s' = files s /\ stdout s' = stdout s
       end.
Proof.
  intros answer. subst answer.
  destruct (requests_post (refresh_request g refresh_token) (world s))
    as [answer w] eqn:Hpost.
  destruct (refresh_access_token_outcome g refresh_token s answer w Hpost)
    as (v & s' & Hrun & Hs & Hh & _ & _ & Hcases).
  exists v, s'. split; [exact Hrun|]. split; [exact Hs|]. split; [exact Hh|].
  exact Hcases.
Qed.



End RefreshMore.

(** ** get_credentials_simple.py: the exit status *)

Section CredentialsMore.
Context `{Platform}.

Lemma str_items_total (i : nat) (items : list value) :
  (exists l, str_items i items = Ok l)
  \/ exists e, str_items i items = Raise e.
Proof.
  revert i. induction items as [|v items IH]; intros i; [left; by eexists|].
  destruct v as [| | |str| |]; simpl; try (right; by eexists).
  destruct (IH (S i)) as [(l & ->)|(e & ->)]; [left|right]; by eexists.
Qed.

(** Every outcome of [main]: status 0 with the file written and its
    text printed, status 1 or an exception with no file written. *)
Lemma credentials_main_outcome (g : credential_settings) (s : State) :
  exists r s',
    credentials_main g s = (r, s')
    /\ ((r = Ok 0%Z
         /\ exists text,
              files s' = dict_set "credentials.txt" (FText text) (files s)
              /\ stdout s' = (stdout s ++ [nl +:+ text])%list)
        \/ ((r = Ok 1%Z \/ exists e, r = Raise e) /\ files s' = files s)).
Proof.
  unfold credentials_main.
  rewrite bind_eprint, bind_call_world, world_eprint.
  destruct (acquire_token_by_username_password _ _ _ _ _) as [[grant|e] w].
  2:{ eexists _, _. split; [reflexivity|]. right. split; [right; by eexists|].
      reflexivity. }
  destruct (negb (dict_has "access_token" grant)).
  { rewrite !bind_eprint. eexists _, _. split; [reflexivity|]. right.
    split; [by left|reflexivity]. }
  rewrite bind_lift.
  destruct (py_prefix 50 _) as [head|e].
  2:{ eexists _, _. split; [reflexivity|]. right. split; [right; by eexists|].
      reflexivity. }
  rewrite bind_lift. unfold py_join.
  destruct (str_items_total 0
              (credentials_lines g grant
                 (dict_get "refresh_token" (VStr "") grant) head))
    as [(l & ->)|(e & ->)]; cbn [mbind result_bind].
  2:{ eexists _, _. split; [reflexivity|]. right. split; [right; by eexists|].
      reflexivity. }
  rewrite bind_print.
  match goal with
  | |- context [bind (write_file ?p ?c) ?k ?st] =>
      destruct (open_error p st) as [e|] eqn:Hop;
      [rewrite (write_file_refused p c k st e Hop)
      |rewrite (bind_write_file p c k st Hop)]
  end.
  - eexists _, _. split; [reflexivity|]. right. split; [right; by eexists|].
    reflexivity.
  - rewrite bind_eprint. unfold write_file. rewrite Hop.
    eexists _, _. split; [reflexivity|]. left.
    split; [reflexivity|]. eexists. split; reflexivity.
Qed.

(** X21. [get_credentials_simple.py] always ends with an exit status, 0
    or 1: an exception of [main] (a token call that raises, an access
    token that cannot be sliced, a refresh token that is not a string, a
    file that cannot be opened) is caught at the top of the script.  With
    status 0, [credentials.txt] holds the text that was printed on the
    standard output; with status 1 no file was written. *)
Theorem credentials_script_status (s : State) :
  exists status s',
    credentials_script s = (Ok status, s')
    /\ ((status = 0%Z
         /\ exists text,
              files s' = dict_set "credentials.txt" (FText text) (files s)
              /\ stdout s' = (stdout s ++ [nl +:+ text])%list)
        \/ (status = 1%Z /\ files s' = files s)).
Proof.
  unfold credentials_script. cbv zeta.
  destruct (forallb opt_truthy _); cbn [negb].
  2:{ rewrite !bind_eprint. eexists _, _. split; [reflexivity|]. right.
      by split. }
  rewrite try_except_eq.
  match goal with
  | |- context [credentials_main ?g s] =>
      destruct (credentials_main_outcome g s)
        as (r & s1 & -> & [(-> & text & Hf & Ho)|([->|(e & ->)] & Hf)])
  end.
  - exists 0%Z, s1. split; [reflexivity|]. left. split; [reflexivity|].
    by exists text.
  - exists 1%Z, s1. split; [reflexivity|]. right. by split.
  - rewrite !bind_eprint. eexists _, _. split; [reflexivity|]. right.
    split; [reflexivity|exact Hf].
Qed.

End CredentialsMore.

(** ** setup_env.py *)

Section SetupEnvFacts.
Context `{Platform}.

Lemma bind_ask {B} (prompt line : string) (w : World) (k : string -> M B)
    (s : State) :
  input prompt (world s) = (Ok line, w) ->
  bind (ask prompt) k s = k (strip line) (set_world w s).
Proof.
  intros Hi. unfold ask. rewrite bind_assoc, bind_call_world, Hi.
  by rewrite bind_ret.
Qed.

Lemma lower_char_y (a : ascii) :
  lower_char a = "y"%char -> a = "y"%char \/ a = "Y"%char.
Proof.
  destruct a as [[] [] [] [] [] [] [] []]; vm_compute; intros E;
    first [discriminate E | by left | by right].
Qed.

(** Only [y] and [Y] confirm. *)
Lemma lower_is_y (x : string) :
  String.eqb (lower x) "y" = true <-> x = "y" \/ x = "Y".
Proof.
  split.
  - intros E. apply String.eqb_eq in E.
    destruct x as [|a [|b x]]; try discriminate.
    simpl in E. injection E as E.
    destruct (lower_char_y a E) as [->| ->]; [by left|by right].
  - by intros [-> | ->].
Qed.

(** X22. [create_env_file] writes the seven answers, without the blanks
    around them, to [.env]; an empty answer for the redirect address or
    the scopes gives its default, and the Graph endpoint line is always
    the fixed address.  This is when [.env] can be opened for writing.
    A [.env] that exists is replaced only when the answer to the
    overwrite question is [y] or [Y]; after any other answer the files
    are as they were. *)
Theorem env_file_kept_unless_confirmed (s : State)
    (tenant_id client_id client_secret username password redirect_uri
       scope : string) (w : World) :
  answers (world s)
    [ ("Enter TENANT_ID: ", tenant_id);
      ("Enter CLIENT_ID: ", client_id);
      ("Enter CLIENT_SECRET: ", client_secret);
      ("Enter USERNAME (email): ", username);
      ("Enter PASSWORD: ", password);
      ("Enter REDIRECT_URI (default: https://localhost): ", redirect_uri);
      ("Enter SCOPE (default: offline_access Calendars.Read): ", scope) ] w ->
  open_error ".env" s = None ->
  let content :=
    env_content (strip tenant_id) (strip client_id) (strip client_secret)
      (strip username) (strip password)
      (str_or (strip redirect_uri) "https://localhost")
      (str_or (strip scope) "offline_access Calendars.Read") in
  (dict_has ".env" (files s) = false ->
   exists s', create_env_file s = (Ok tt, s')
              /\ files s' = dict_set ".env" (FText content) (files s))
  /\ (dict_has ".env" (files s) = true ->
      forall overwrite w',
        input (nl +:+ ".env file already exists. Overwrite? (y/n): ") w
        = (Ok overwrite, w') ->
        exists s',
          create_env_file s = (Ok tt, s')
          /\ files s' = (if String.eqb (lower (strip overwrite)) "y"
                         then dict_set ".env" (FText content) (files s)
                         else files s))
  /\ (forall x, String.eqb (lower x) "y" = true <-> x = "y" \/ x = "Y").
Proof.
  intros (w1 & H1 & w2 & H2 & w3 & H3 & w4 & H4 & w5 & H5 & w6 & H6
          & w7 & H7 & ->) Ho content.
  destruct (open_error_none _ _ Ho) as (_ & Hd & _).
  assert (Hrun : create_env_file s
    = (exists_ <- path_exists ".env" ;;
       proceed <-
         (if exists_ then
            overwrite <- ask (nl +:+ ".env file already exists. Overwrite? (y/n): ") ;;
            ret (String.eqb (lower overwrite) "y")
          else ret true) ;;
       if proceed then
         write_file ".env" (FText content) ;;;
         print (nl +:+ "✓ .env file created successfully at " +:+ ".env") ;;;
         print (nl +:+ "⚠️  IMPORTANT: Make sure .env is in .gitignore and never commit it to version control!")
       else
         print "Cancelled. .env file not modified.")
      (set_world w7
         (set_world w6 (set_world w5 (set_world w4 (set_world w3
            (set_world w2 (set_world w1
               (printed [rule]
                  (printed
                     ["Microsoft Teams Attendance Extractor - Environment Setup"]
                     s)))))))))).
  { unfold create_env_file. rewrite !bind_print.
    erewrite bind_ask by exact H1. erewrite bind_ask by exact H2.
    erewrite bind_ask by exact H3. erewrite bind_ask by exact H4.
    erewrite bind_ask by exact H5. erewrite bind_ask by exact H6.
    erewrite bind_ask by exact H7. reflexivity. }
  rewrite Hrun. clear Hrun.
  set (s0 := set_world w7 _).
  assert (files s0 = files s /\ dirs s0 = dirs s /\ world s0 = w7)
    as (Hf0 & Hd0 & Hw0) by (repeat split; reflexivity).
  clearbody s0.
  assert (Hpath : path_exists ".env" s0 = (Ok (dict_has ".env" (files s)), s0)).
  { unfold path_exists, is_file. rewrite Hf0.
    replace (is_dir ".env" s0) with (is_dir ".env" s)
      by (unfold is_dir; by rewrite Hd0).
    by rewrite Hd, orb_false_r. }
  erewrite bind_ok by exact Hpath.
  assert (Hwrite : forall s1, files s1 = files s -> dirs s1 = dirs s ->
    exists s',
      (write_file ".env" (FText content) ;;;
       print (nl +:+ "✓ .env file created successfully at " +:+ ".env") ;;;
       print (nl +:+ "⚠️  IMPORTANT: Make sure .env is in .gitignore and never commit it to version control!"))
        s1 = (Ok tt, s')
      /\ files s' = dict_set ".env" (FText content) (files s)).
  { intros s1 Hf1 Hd1.
    assert (Ho1 : open_error ".env" s1 = None)
      by (rewrite <- Ho; by apply open_error_same).
    rewrite bind_write_file by exact Ho1.
    rewrite !bind_print. unfold write_file. rewrite Ho1.
    eexists. split; [reflexivity|]. cbn. by rewrite Hf1. }
  split; [|split; [|exact lower_is_y]].
  - intros ->. rewrite bind_ret. cbn iota. apply Hwrite; assumption.
  - intros -> overwrite w' Hi. cbn iota.
    rewrite bind_assoc.
    erewrite bind_ask by (rewrite Hw0; exact Hi).
    rewrite bind_ret.
    destruct (String.eqb (lower (strip overwrite)) "y").
    + apply Hwrite; [by rewrite <- Hf0|by rewrite <- Hd0].
    + rewrite <- Hf0. by eexists.
Qed.

End SetupEnvFacts.

(** ** main.py: the entry point *)

Section MainEntryFacts.
Context `{Platform}.

(** With enough fuel the loop reads every line the terminal gives and
    ends at its [EOFError]. *)
Lemma read_lines_delivers (lines : list string) :
  forall (fuel : nat) (html_body : string) (s : State) (w2 w3 : World)
         (msg : string),
    delivers (world s) lines w2 ->
    input "" w2 = (Raise (Exn EOFError msg), w3) ->
    length lines < fuel ->
    exists s',
      read_lines fuel html_body s
      = (Ok (Some (fold_left (fun html_body line => html_body +:+ line +:+ nl)
                     lines html_body)), s')
      /\ world s' = w3 /\ same_effects s s'.
Proof.
  induction lines as [|line rest IH];
    intros fuel html_body s w2 w3 msg Hd Heof Hfuel.
  - simpl in Hd. subst w2. destruct fuel as [|fuel]; [simpl in Hfuel; lia|].
    cbn [read_lines]. unfold call_world. rewrite Heof.
    eexists. split; [reflexivity|]. split; [reflexivity|]. by repeat split.
  - destruct Hd as (w1 & Hi & Hd).
    destruct fuel as [|fuel]; [simpl in Hfuel; lia|].
    cbn [read_lines]. unfold call_world. rewrite Hi.
    destruct (IH fuel (html_body +:+ line +:+ nl) (set_world w1 s) w2 w3 msg)
      as (s' & Hr & Hw & He); [exact Hd|exact Heof|simpl in Hfuel; lia|].
    exists s'. split; [exact Hr|]. split; [exact Hw|].
    eapply same_effects_trans; [apply same_effects_set_world|exact He].
Qed.

(** What [main] does once the email and the choice are read. *)
Lemma main_from_choice (html_body choice : string) (w : World) (s1 : State) :
  input (nl +:+ "Authentication method:" +:+ nl
         +:+ "1. Password (Resource Owner Password Credentials)" +:+ nl
         +:+ "2. OAuth Code Flow" +:+ nl +:+ "Choice (1/2): ") (world s1)
  = (Ok choice, w) ->
  forall k : M (option unit),
    k = (auth_method <- call_world
           (input (nl +:+ "Authentication method:" +:+ nl
                   +:+ "1. Password (Resource Owner Password Credentials)" +:+ nl
                   +:+ "2. OAuth Code Flow" +:+ nl +:+ "Choice (1/2): ")) ;;
         let auth_method := strip auth_method in
         let use_password_auth := String.eqb auth_method "1" in
         result <- process_email_html html_body use_password_auth ;;
         (if opt_truthy result
          then print (nl +:+ "✓ Success! Report saved to: " +:+ default "" result)
          else print (nl +:+ "✗ Failed to extract attendance report")) ;;;
         ret (Some tt)) ->
    match process_email_html html_body (String.eqb (strip choice) "1")
            (set_world w s1) with
    | (Raise e, s2) => k s1 = (Raise e, s2)
    | (Ok result, s2) =>
        k s1
        = (Ok (Some tt),
           printed [ if opt_truthy result
                     then nl +:+ "✓ Success! Report saved to: "
                          +:+ default "" result
                     else nl +:+ "✗ Failed to extract attendance report" ] s2)
    end.
Proof.
  intros Hi k ->. rewrite bind_call_world, Hi. cbv zeta.
  destruct (process_email_html html_body _ _) as [[result|e] s2] eqn:Hp.
  - erewrite bind_ok by exact Hp. by destruct (opt_truthy result).
  - by erewrite bind_raise by exact Hp.
Qed.

(** X23. [main] on a pasted email.  When the first answer is not [y]
    (or [Y]), the terminal then gives [lines] and ends its input, and the
    choice of the method is then read, [main] (with fuel for more than
    the lines given) runs [process_email_html] on the lines, each followed
    by a newline, with the password grant exactly when the choice, blanks
    apart, is [1].  Nothing was sent or written before that call.  An
    exception of [process_email_html] leaves [main] as it is (there is no
    handler); a result is reported by one more line of output, and [main]
    returns.  When the choice cannot be read (the input has ended for
    good, as with an email sent through a pipe), [main] raises that
    exception and nothing was sent or written.  With the answer [y] the
    first holds for the example email, and no line is read. *)
Theorem main_runs_the_email (fuel : nat) (s : State)
    (answer choice msg : string) (lines : list string) (w1 w2 w3 w4 : World) :
  let method_prompt :=
    nl +:+ "Authentication method:" +:+ nl
    +:+ "1. Password (Resource Owner Password Credentials)" +:+ nl
    +:+ "2. OAuth Code Flow" +:+ nl +:+ "Choice (1/2): " in
  let outcome (html_body : string) (s1 : State) :=
    match process_email_html html_body (String.eqb (strip choice) "1") s1 with
    | (Raise e, s2) => main fuel s = (Raise e, s2)
    | (Ok result, s2) =>
        main fuel s
        = (Ok (Some tt),
           printed [ if opt_truthy result
                     then nl +:+ "✓ Success! Report saved to: "
                          +:+ default "" result
                     else nl +:+ "✗ Failed to extract attendance report" ] s2)
    end in
  input (nl +:+ "Use example HTML? (y/n): ") (world s) = (Ok answer, w1) ->
  (String.eqb (lower (strip answer)) "y" = false ->
   delivers w1 lines w2 ->
   input "" w2 = (Raise (Exn EOFError msg), w3) ->
   input method_prompt w3 = (Ok choice, w4) ->
   length lines < fuel ->
   exists s1, world s1 = w4 /\ heap s1 = heap s /\ sent s1 = sent s
              /\ files s1 = files s /\ outcome (pasted lines) s1)
  /\ (forall e,
      String.eqb (lower (strip answer)) "y" = false ->
      delivers w1 lines w2 ->
      input "" w2 = (Raise (Exn EOFError msg), w3) ->
      input method_prompt w3 = (Raise e, w4) ->
      length lines < fuel ->
      exists s1, main fuel s = (Raise e, s1) /\ sent s1 = sent s
                 /\ files s1 = files s)
  /\ (String.eqb (lower (strip answer)) "y" = true ->
      input method_prompt w1 = (Ok choice, w4) ->
      exists s1, world s1 = w4 /\ heap s1 = heap s /\ sent s1 = sent s
                 /\ files s1 = files s /\ outcome example_html s1).
Proof.
  intros method_prompt outcome Hanswer. split.
  - intros Hno Hlines Heof Hchoice Hfuel.
    set (s0 := set_world w1
                 (printed [rule]
                    (printed ["Microsoft Teams Attendance Report Extractor"] s))).
    destruct (read_lines_delivers lines fuel ""
                (printed [nl +:+ "Paste the HTML email body (press Ctrl+D or Ctrl+Z when done):"] s0)
                w2 w3 msg)
      as (s1 & Hread & Hw1 & (Hs & Hh & Hf & Ho & Hd));
      [exact Hlines|exact Heof|exact Hfuel|].
    exists (set_world w4 s1). split; [reflexivity|].
    split; [exact Hh|]. split; [exact Hs|]. split; [exact Hf|].
    unfold outcome, main. rewrite !bind_print, bind_call_world.
    rewrite !world_printed, Hanswer. cbv zeta. rewrite Hno.
    rewrite bind_assoc, bind_print. fold s0.
    erewrite bind_ok by exact Hread. cbn iota beta.
    rewrite <- Hw1 in Hchoice.
    apply (main_from_choice (pasted lines) choice w4 s1 Hchoice).
    reflexivity.
  - split.
  { intros e Hno Hlines Heof Hchoice Hfuel.
    set (s0 := set_world w1
                 (printed [rule]
                    (printed ["Microsoft Teams Attendance Report Extractor"] s))).
    destruct (read_lines_delivers lines fuel ""
                (printed [nl +:+ "Paste the HTML email body (press Ctrl+D or Ctrl+Z when done):"] s0)
                w2 w3 msg)
      as (s1 & Hread & Hw1 & (Hs & Hh & Hf & Ho & Hd));
      [exact Hlines|exact Heof|exact Hfuel|].
    exists (set_world w4 s1). split; [|split; [exact Hs|exact Hf]].
    unfold main. rewrite !bind_print, bind_call_world.
    rewrite !world_printed, Hanswer. cbv zeta. rewrite Hno.
    rewrite bind_assoc, bind_print. fold s0.
    erewrite bind_ok by exact Hread. cbn iota beta.
    rewrite <- Hw1 in Hchoice. unfold method_prompt in Hchoice.
    by rewrite bind_call_world, Hchoice. }
    intros Hyes Hchoice.
    set (s0 := set_world w1
                 (printed [rule]
                    (printed ["Microsoft Teams Attendance Report Extractor"] s))).
    exists (set_world w4 s0). split; [reflexivity|].
    split; [reflexivity|]. split; [reflexivity|]. split; [reflexivity|].
    unfold outcome, main. rewrite !bind_print, bind_call_world.
    rewrite !world_printed, Hanswer. cbv zeta. rewrite Hyes.
    rewrite bind_ret. fold s0. cbn iota beta.
    apply (main_from_choice example_html choice w4 s0 Hchoice).
    reflexivity.
Qed.

End MainEntryFacts.

(** ** The further properties on the test doubles *)

Section ParserMoreOnTestDouble.
#[local] Existing Instance default_platform.

(** X3, witness: the thread id of the invitation is what follows
    [19%3ameeting_] in its join link. *)
Lemma identifiers_occur_in_join_link_witness :
  extract_meeting_info invitation_html = Ok invitation_info
  /\ exists opaque after,
       "19:meeting_ABC123" = "19:meeting_" +:+ opaque
       /\ found_by thread_pattern sample_join_link opaque after
       /\ has_char "%" opaque = false.
Proof.
  assert (He : extract_meeting_info invitation_html = Ok invitation_info)
    by reflexivity.
  split; [exact He|].
  destruct (identifiers_occur_in_join_link invitation_html invitation_info He)
    as (Ht & _).
  destruct (Ht "19:meeting_ABC123" eq_refl)
    as (link & opaque & after & Hl & Heq & Hf & _ & Hno & _).
  injection Hl as <-. by exists opaque, after.
Defined.

(** X4, witness: in the sample link an [Oid] pair follows the tenant, so
    the tenant is not what is returned as [tenant_id]. *)
Lemma quoted_values_run_to_last_quote_witness :
  extract_meeting_info invitation_html = Ok invitation_info
  /\ has_char dquote sample_join_link = false
  /\ dict_lookup "tenant_id" invitation_info <> Some (VStr "TENANT1").
Proof.
  assert (He : extract_meeting_info invitation_html = Ok invitation_info)
    by reflexivity.
  assert (Hq : has_char dquote sample_join_link = false) by reflexivity.
  split; [exact He|]. split; [exact Hq|].
  apply (proj2 (proj2 (quoted_values_run_to_last_quote invitation_html
                         invitation_info sample_join_link He eq_refl Hq))
           "https://teams.microsoft.com/l/meetup-join/19%3ameeting_ABC123%40thread.v2/0?"
           "TENANT1" "%2c%22Oid%22%3a%22ORG1%22%7d");
    [reflexivity|discriminate|reflexivity].
Defined.

End ParserMoreOnTestDouble.

Section AuthOnRejection.
#[local] Existing Instance rejecting_platform.

(** X6, witness: the token endpoint rejects the grant; the authenticator
    is as it was, and still answers NotAuthenticatedError. *)
Lemma failed_authentication_changes_nothing_witness :
  let s1 := (GraphAuth_init (initial_state 0)).2 in
  let out := authenticate_with_password 0 s1 in
  out.1 = Raise (Exn Exception_
                   "Failed to authenticate: Authentication failed: AADSTS50126")
  /\ heap out.2 = heap s1
  /\ (get_access_token 0 out.2).1 = Raise NotAuthenticatedError.
Proof.
  intros s1 out.
  assert (Ho : out.1 = Raise (Exn Exception_
                 "Failed to authenticate: Authentication failed: AADSTS50126"))
    by reflexivity.
  split; [exact Ho|].
  destruct (failed_authentication_changes_nothing 0 "" s1 out.2
              (Exn Exception_
                 "Failed to authenticate: Authentication failed: AADSTS50126")
              (or_introl (pair_from_fst _ _ Ho)))
    as (Hh & _ & _ & _ & Hg & _).
  split; [exact Hh|]. rewrite Hg. reflexivity.
Defined.

(** X7, witness: the rejection carries a description, which is what the
    message shows behind the two prefixes. *)
Lemma rejected_grant_message_witness :
  let s1 := (GraphAuth_init (initial_state 0)).2 in
  authenticate_with_password 0 s1
  = (Raise (Exn Exception_
              "Failed to authenticate: Authentication failed: AADSTS50126"),
     set_world 1 s1).
Proof.
  intros s1.
  apply (proj1 (rejected_grant_message 0 "" s1
                  {| config := load_config;
                     app := MsalApp "" "" "https://login.microsoftonline.com/";
                     access_token := VNone |}
                  [ ("error", VStr "invalid_grant");
                    ("error_description", VStr "AADSTS50126") ]
                  (1 : @World rejecting_platform) eq_refl eq_refl)).
  reflexivity.
Defined.

(** X13, witness: the invitation has a thread id and the grant is
    rejected; the run ends with [None] and nothing was sent or written. *)
Lemma run_ends_when_authentication_fails_witness :
  exists s',
    process_email_html invitation_html true (initial_state 0) = (Ok None, s')
    /\ sent s' = [] /\ files s' = [].
Proof.
  assert (He : extract_meeting_info invitation_html = Ok invitation_info)
    by reflexivity.
  apply (proj1 (run_ends_when_authentication_fails invitation_html
                  (@initial_state rejecting_platform 0) invitation_info
                  "19:meeting_ABC123" He eq_refl)
           (Ok [ ("error", VStr "invalid_grant");
                 ("error_description", VStr "AADSTS50126") ])
           (1 : @World rejecting_platform)).
  - reflexivity.
  - intros grant Hg. injection Hg as <-. reflexivity.
Defined.

End AuthOnRejection.

Section MoreOnTestDouble.
#[local] Existing Instance default_platform.

(** X8, witness: a grant by authorization code stores [tok0]. *)
Lemma authentication_stores_the_token_witness :
  let s1 := (GraphAuth_init (initial_state 0)).2 in
  let out := authenticate_with_code 0 "code" s1 in
  out.1 = Ok (VStr "tok0")
  /\ get_access_token 0 out.2 = (Ok (VStr "tok0"), out.2)
  /\ sent out.2 = [].
Proof.
  intros s1 out.
  assert (Ho : out.1 = Ok (VStr "tok0")) by reflexivity.
  split; [exact Ho|].
  destruct (authentication_stores_the_token 0 "code" s1 out.2 (VStr "tok0")
              (or_intror (pair_from_fst _ _ Ho)))
    as (a & _ & _ & _ & _ & Hs & _ & Hg).
  split; [exact Hg|exact Hs].
Defined.

(** X9, witness: the connected client lists the meetings and returns. *)
Lemma api_calls_return_once_authenticated_witness :
  exists v s',
    run_call (ListOnlineMeetings None) connected_client connected_state
    = (Ok (with_token connected_client (VStr "tok0"), v), s')
    /\ heap s' = heap connected_state.
Proof.
  apply (proj1 (api_calls_return_once_authenticated (ListOnlineMeetings None)
                  connected_client connected_state (VStr "tok0") eq_refl)).
  reflexivity.
Defined.

(** X10, witness: the server answers 500 for a meeting it does not know
    at all; the operation stops after one request. *)
Lemma report_request_paths_witness :
  let out :=
    get_online_meeting_attendance_report connected_client (VStr "nobody")
      connected_state in
  out.1 = Ok (with_token connected_client (VStr "tok0"), VNone)
  /\ map req_url (issued connected_state out.2)
     = [ "https://graph.microsoft.com/v1.0/me/onlineMeetings/nobody" ].
Proof.
  intros out.
  destruct (proj1 (proj2 (report_request_paths connected_client
                            (VStr "nobody") (VStr "tok0") connected_state
                            eq_refl eq_refl))
              (Response 500 "Internal Server Error" None)
              (1 : @World default_platform))
    as (Hr & Hi); [reflexivity|discriminate|discriminate|].
  split; [exact Hr|]. subst out. rewrite Hi. reflexivity.
Defined.

(** X11, witness: the filter goes out as [$filter], once. *)
Lemma listing_and_records_ask_once_witness :
  let out :=
    list_online_meetings connected_client
      (Some "startDateTime ge 2024-01-01T00:00:00Z") connected_state in
  out.1 = Ok (with_token connected_client (VStr "tok0"),
              VList [ online_meeting ])
  /\ map req_params (issued connected_state out.2)
     = [ [ ("$filter", "startDateTime ge 2024-01-01T00:00:00Z") ] ].
Proof.
  intros out.
  destruct (proj1 (listing_and_records_ask_once connected_client (VStr "tok0")
                     connected_state eq_refl eq_refl)
              (Some "startDateTime ge 2024-01-01T00:00:00Z")
              (json_ok (VDict [ ("value", VList [ online_meeting ]) ]))
              (1 : @World default_platform))
    as (Hr & Hi); [reflexivity|].
  split; [exact Hr|]. subst out. rewrite Hi. reflexivity.
Defined.

(** X12, witness: an empty email has no thread id. *)
Lemma nothing_contacted_without_thread_id_witness :
  exists s',
    process_email_html "" true (initial_state 0) = (Ok None, s')
    /\ world s' = 0 /\ heap s' = [] /\ sent s' = [] /\ files s' = [].
Proof.
  destruct (nothing_contacted_without_thread_id "" true
              (@initial_state default_platform 0)
              empty_meeting_info eq_refl eq_refl)
    as (s' & Hr & Hw & Hh & Hs & Hf & _).
  exists s'. by repeat split.
Defined.

(** X14, witness: the run on the invitation returns the name of the
    report it wrote. *)
Lemma returned_path_is_written_witness :
  let out := process_email_html invitation_html true (initial_state 0) in
  let filename :=
    "attendance_reports/attendance_12345678901234_20240101_120000.json" in
  out.1 = Ok (Some filename)
  /\ exists reports records extracted_at,
       dict_lookup filename (files out.2)
       = Some (saved_report invitation_info
                 [ ("reports", reports);
                   ("attendance_records", VList records) ] extracted_at).
Proof.
  intros out filename.
  assert (Ho : out.1 = Ok (Some filename)) by (vm_compute; reflexivity).
  split; [exact Ho|].
  destruct (returned_path_is_written invitation_html true
              (@initial_state default_platform 0)
              out.2 filename (pair_from_fst _ _ Ho))
    as (mi & m & t & client & client1 & client2 & report & reports & n
        & items & records & s1 & s2 & s3 & now & now' & w & w' & He
        & _ & _ & _ & _ & _ & _ & _ & _ & _ & _ & _ & _ & Hf).
  assert (mi = invitation_info) as -> by (injection He as <-; reflexivity).
  exists reports, records, (isoformat now'). exact Hf.
Defined.

(** X15, witness: the clock of the test double stands still, so the second
    report replaces the first. *)
Lemma reports_of_one_second_overwrite_witness :
  let filename :=
    "attendance_reports/attendance_12345678901234_20240101_120000.json" in
  exists s1 s2,
    save_attendance_report sample_meeting_info [ ("reports", VList []) ]
      "attendance_reports" (initial_state 0) = (Ok filename, s1)
    /\ save_attendance_report sample_meeting_info
         [ ("reports", VList [ VDict [ ("id", VStr "r1") ] ]) ]
         "attendance_reports" s1 = (Ok filename, s2)
    /\ dict_lookup filename (files s1)
       = Some (saved_report sample_meeting_info [ ("reports", VList []) ]
                 "2024-01-01T12:00:00")
    /\ dict_lookup filename (files s2)
       = Some (saved_report sample_meeting_info
                 [ ("reports", VList [ VDict [ ("id", VStr "r1") ] ]) ]
                 "2024-01-01T12:00:00")
    /\ length (files s2) = length (files s1).
Proof.
  intros filename.
  apply (reports_of_one_second_overwrite sample_meeting_info
           [ ("reports", VList []) ]
           [ ("reports", VList [ VDict [ ("id", VStr "r1") ] ]) ]
           "attendance_reports" "12345678901234"
           (@initial_state default_platform 0)
           (tt : @datetime default_platform) (tt : @datetime default_platform)
           (tt : @datetime default_platform) (tt : @datetime default_platform)
           (0 : @World default_platform) (0 : @World default_platform)
           (0 : @World default_platform) (0 : @World default_platform));
    reflexivity.
Defined.

End MoreOnTestDouble.

Section ScriptsOnTestDouble.
#[local] Existing Instance script_platform.

(** X17, witness: the token [RT1] is written and read back. *)
Lemma credentials_round_trip_witness :
  exists s1,
    credentials_main script_settings (script_state [] []) = (Ok 0%Z, s1)
    /\ get_refresh_token s1 = (Ok (Some "RT1"), s1).
Proof.
  set (grant := [ ("access_token", VStr "AT1");
                  ("refresh_token", VStr "RT1") ]).
  destruct (credentials_round_trip script_settings (script_state [] []) grant
              ((1, []) : @World script_platform) "AT1" "RT1"
              (match credentials_text script_settings grant with
               | Ok text => text
               | Raise _ => ""
               end))
    as (s1 & Hmain & _ & Hread);
    [reflexivity|reflexivity|reflexivity|reflexivity|reflexivity|reflexivity
    |repeat constructor|reflexivity|reflexivity|reflexivity
    |vm_compute; reflexivity|].
  exists s1. split; [exact Hmain|exact Hread].
Defined.

(** X18, witness: with the secret [my-refreshToken-secret] it is the
    secret that is read back. *)
Lemma client_secret_read_as_token_witness :
  exists s1,
    credentials_main unlucky_settings (script_state [] []) = (Ok 0%Z, s1)
    /\ get_refresh_token s1 = (Ok (Some "my-refreshToken-secret"), s1).
Proof.
  set (grant := [ ("access_token", VStr "AT1");
                  ("refresh_token", VStr "RT1") ]).
  destruct (client_secret_read_as_token unlucky_settings (script_state [] [])
              grant ((1, []) : @World script_platform) "AT1" "RT1"
              (match credentials_text unlucky_settings grant with
               | Ok text => text
               | Raise _ => ""
               end))
    as (s1 & Hmain & _ & Hread);
    [reflexivity|reflexivity|reflexivity|repeat constructor|reflexivity
    |reflexivity|reflexivity|reflexivity|reflexivity|reflexivity
    |vm_compute; reflexivity|].
  exists s1. split; [exact Hmain|exact Hread].
Defined.

End ScriptsOnTestDouble.

Section TerminalOnTestDouble.
#[local] Existing Instance script_platform.

(** X22, witness: a [.env] exists and the answer to the overwrite
    question is [N]: the file is kept. *)
Lemma env_file_kept_unless_confirmed_witness :
  let s := script_state setup_answers [ (".env", FText "TENANT_ID=old") ] in
  exists s', create_env_file s = (Ok tt, s') /\ files s' = files s.
Proof.
  intros s.
  destruct (env_file_kept_unless_confirmed s " tenant-1 " "client-1" "secret-1"
              "ann@example.test" "pw-1" "" ""
              ((0, [Some "N"]) : @World script_platform))
    as (_ & Hkeep & _).
  - repeat (eexists; split; [reflexivity|]). reflexivity.
  - reflexivity.
  - destruct (Hkeep eq_refl "N" ((0, []) : @World script_platform) eq_refl)
      as (s' & Hr & Hf).
    exists s'. split; [exact Hr|exact Hf].
Defined.

(** X23, witness: two lines are pasted, the input is ended, and [ 1 ] is
    chosen; [main] runs [process_email_html] on the two lines with the
    password grant. *)
Lemma main_runs_the_email_witness :
  let s := script_state main_answers [] in
  exists s1,
    world s1 = (0, [])
    /\ heap s1 = [] /\ sent s1 = [] /\ files s1 = []
    /\ pasted ["<p>"; "</p>"] = "<p>" +:+ nl +:+ "</p>" +:+ nl
    /\ match process_email_html (pasted ["<p>"; "</p>"]) true s1 with
       | (Raise e, s2) => main 3 s = (Raise e, s2)
       | (Ok result, s2) =>
           main 3 s
           = (Ok (Some tt),
              printed [ if opt_truthy result
                        then nl +:+ "✓ Success! Report saved to: "
                             +:+ default "" result
                        else nl +:+ "✗ Failed to extract attendance report" ]
                s2)
       end.
Proof.
  intros s.
  destruct (proj1 (main_runs_the_email 3 s "n" " 1 " "EOF when reading a line"
                     ["<p>"; "</p>"]
                     ((0, [Some "<p>"; Some "</p>"; None; Some " 1 "])
                        : @World script_platform)
                     ((0, [None; Some " 1 "]) : @World script_platform)
                     ((0, [Some " 1 "]) : @World script_platform)
                     ((0, []) : @World script_platform) eq_refl))
    as (s1 & Hw & Hh & Hs & Hf & Hout).
  - reflexivity.
  - repeat (eexists; split; [reflexivity|]). reflexivity.
  - reflexivity.
  - reflexivity.
  - simpl. lia.
  - exists s1. split; [exact Hw|]. split; [exact Hh|]. split; [exact Hs|].
    split; [exact Hf|]. split; [reflexivity|]. exact Hout.
Defined.

End TerminalOnTestDouble.

(** ** main.py: what can still go wrong once a token is there *)

Section MainEdges.
Context `{Platform}.

Lemma unprintable_part_none (record : value) :
  unprintable_part record = None -> printable_record record = true.
Proof.
  unfold unprintable_part, printable_record.
  destruct record as [| | | | |d]; try discriminate.
  destruct (dict_get "identity" (VDict []) d) as [| | | | |idn];
    try discriminate.
  by destruct (dict_get "emailAddress" (VDict []) idn).
Qed.

(** A record the summary cannot print makes it raise, before any of its
    lines is printed. *)
Lemma print_attendee_raises (i : nat) (record v : value) (s : State) :
  unprintable_part record = Some v ->
  print_attendee i record s = (Raise (no_attribute v "get"), s).
Proof.
  unfold unprintable_part, print_attendee.
  destruct record as [| | | | |d]; try (by intros [= <-]).
  simpl. rewrite !bind_lift_ok.
  destruct (dict_get "identity" (VDict []) d) as [| | | | |idn];
    try (by intros [= <-]).
  simpl. rewrite !bind_lift_ok.
  destruct (dict_get "emailAddress" (VDict []) idn) as [| | | | |em];
    by intros [= <-].
Qed.

Lemma print_attendees_raises (records : list value) (v : value) :
  first_unprintable records = Some v ->
  forall (i : nat) (s : State),
    exists s', print_attendees i records s = (Raise (no_attribute v "get"), s')
               /\ files s' = files s.
Proof.
  induction records as [|record rest IH]; simpl; [discriminate|].
  intros Hp i s. destruct (unprintable_part record) as [v'|] eqn:Hr.
  - injection Hp as ->.
    erewrite bind_raise by (by apply print_attendee_raises).
    by exists s.
  - destruct (print_attendee_ok i record s (unprintable_part_none _ Hr))
      as (s1 & He & Hf).
    erewrite bind_ok by exact He.
    destruct (IH Hp (S i) s1) as (s2 & He2 & Hf2).
    exists s2. split; [exact He2|congruence].
Qed.

(** X24. A record that the summary cannot print (the record, its
    [identity] or the [emailAddress] of its identity is something that is
    not an object, as the [null] address of an anonymous attendee) makes
    the run raise AttributeError AFTER the report was saved: when the
    directory can be made and the file opened, the file is there with all
    the records, but no file name is returned.  The exception names the
    type of the first value that has no [get]. *)
Theorem unprintable_record_raises_after_saving (mi : dict value)
    (client client' : GraphClient) (meeting_id : value) (d : dict value)
    (items : list value) (per : list (list value)) (s s2 : State)
    (m : string) (v : value) (now : datetime) (w : World) :
  dict_get "value" (VList []) d = VList items -> items <> [] ->
  fetch_each client meeting_id items
    (printed [ "✓ Attendance report retrieved successfully";
               "Found " +:+ pretty (length items) +:+ " attendance report(s)" ]
       s)
  = (Ok (client', per), s2) ->
  dict_lookup "meeting_id" mi = Some (VStr m) ->
  first_unprintable (concat per) = Some v ->
  makedirs_error "attendance_reports" s2 = None ->
  datetime_now (world s2) = (now, w) ->
  let filename :=
    report_path "attendance_reports" m (strftime now "%Y%m%d_%H%M%S") in
  open_error filename (makedirs "attendance_reports" s2).2 = None ->
  exists extracted_at s',
    process_attendance_report mi client meeting_id (VDict d) s
    = (Raise (no_attribute v "get"), s')
    /\ dict_lookup filename (files s')
       = Some (saved_report mi
                 [ ("reports", VList items);
                   ("attendance_records", VList (concat per)) ] extracted_at).
Proof.
  intros Hv Hne Hfetch Hm Hp Hmk Hnow filename Hopen.
  unfold process_attendance_report.
  assert (Hd : truthy (VDict d) = true).
  { destruct d; [|reflexivity]. simpl in Hv. injection Hv as <-. done. }
  assert (Hi : truthy (VList items) = true) by (by destruct items).
  rewrite Hd, bind_print. simpl py_get. rewrite Hv, bind_lift_ok, Hi.
  simpl py_len. rewrite bind_lift_ok, bind_print.
  simpl py_iter. rewrite bind_lift_ok.
  set (st0 := printed _ s) in Hfetch.
  match goal with
  | |- context [bind (fetch_records client meeting_id items []) ?k ?st] =>
      change st with st0;
      replace (bind (fetch_records client meeting_id items []) k st0)
        with (k (client', concat per) s2)
  end.
  2:{ symmetry. unfold bind at 1. rewrite fetch_records_flat. unfold bind at 1.
      rewrite Hfetch. reflexivity. }
  cbn beta iota.
  destruct (save_attendance_report_ok mi
              [ ("reports", VList items);
                ("attendance_records", VList (concat per)) ]
              "attendance_reports" m s2 now w Hm Hmk Hnow Hopen)
    as (extracted_at & s3 & Hsave & Hfile & _).
  fold filename in Hsave, Hfile.
  erewrite bind_ok by exact Hsave.
  rewrite !bind_print.
  exists extracted_at.
  remember (concat per) as all_records eqn:Hall.
  destruct all_records as [|record rest]; [discriminate|].
  cbn iota. rewrite bind_assoc, bind_print.
  match goal with
  | |- context [bind (print_attendees 1 ?recs) _ ?st] =>
      destruct (print_attendees_raises recs v Hp 1 st) as (s4 & Hpr & Hf)
  end.
  erewrite bind_raise by exact Hpr.
  eexists; split; [reflexivity|]. rewrite Hf. exact Hfile.
Qed.

(** X25. A grant whose access token is not true (an empty string) is
    taken for a success by the authentication step, which prints its
    success line; the client that is built next finds no token, and
    [process_email_html] raises NotAuthenticatedError.  No handler is
    around that call; no request was sent and no file written. *)
Theorem empty_token_ends_the_run_with_an_exception (html_body : string)
    (s : State) (mi : dict value) (t : string) (grant : dict value)
    (w : World) (tok : value) :
  extract_meeting_info html_body = Ok mi ->
  dict_lookup "thread_id" mi = Some (VStr t) ->
  let cfg := load_config in
  acquire_token_by_username_password
    (MsalApp (CLIENT_ID cfg) (CLIENT_SECRET cfg) (authority cfg))
    (USERNAME cfg) (PASSWORD cfg) (SCOPE cfg) (world s) = (Ok grant, w) ->
  dict_lookup "access_token" grant = Some tok -> truthy tok = false ->
  exists s',
    process_email_html html_body true s = (Raise NotAuthenticatedError, s')
    /\ sent s' = sent s /\ files s' = files s
    /\ last (stdout s') = Some "✓ Authentication successful (password grant)".
Proof.
  intros He Ht cfg Hg Ha Htok.
  destruct (process_email_html_to_authentication html_body true s mi t He Ht)
    as (s1 & Hh & Hw & Hs & Hf & ->).
  set (a := {| config := cfg;
               app := MsalApp (CLIENT_ID cfg) (CLIENT_SECRET cfg) (authority cfg);
               access_token := VNone |}) in *.
  assert (Hobj : heap s1 !! length (heap s) = Some a)
    by (rewrite Hh; by apply list_lookup_middle).
  assert (Hauth : authenticate (length (heap s)) true s1
    = (Ok true,
       printed ["✓ Authentication successful (password grant)"]
         (set_heap (<[length (heap s) :=
                        {| config := config a; app := app a;
                           access_token := tok |}]> (heap s1))
            (set_world w s1)))).
  { unfold authenticate. apply try_except_ok.
    erewrite bind_ok.
    2:{ rewrite (authenticate_with_password_eq _ _ _ Hobj). cbn [config app a].
        fold cfg. rewrite Hw, Hg. unfold auth_outcome. rewrite Ha.
        reflexivity. }
    by rewrite bind_print. }
  erewrite bind_ok by exact Hauth. cbn [negb].
  eexists. split.
  - apply bind_raise. unfold GraphClient_init. apply bind_raise.
    eapply get_access_token_falsy.
    + cbn [heap printed fold_left print snd set_heap].
      apply list_lookup_insert_eq. eapply lookup_lt_Some; eauto.
    + exact Htok.
  - cbn. split; [exact Hs|]. split; [exact Hf|]. by rewrite last_snoc.
Qed.

End MainEdges.

Section EdgesOnTestDoubles.

(** X24, witness: the first report has an anonymous attendee, whose
    [emailAddress] is [None]; the run raises and the report is in its
    file. *)
Lemma unprintable_record_raises_after_saving_witness :
  let c := connected_client in
  let s := (@connect anonymous_platform (@initial_state anonymous_platform 0)).2 in
  let m := VStr "19:meeting_ABC123" in
  exists extracted_at s',
    @process_attendance_report anonymous_platform sample_meeting_info c m
      report_collection s
    = (Raise (Exn AttributeError "'NoneType' object has no attribute 'get'"),
       s')
    /\ dict_lookup
         "attendance_reports/attendance_12345678901234_20240101_120000.json"
         (files s')
       = Some (saved_report sample_meeting_info
                 [ ("reports",
                    VList [ VDict [ ("id", VStr "r1") ];
                            VDict [ ("id", VStr "r2") ] ]);
                   ("attendance_records",
                    VList [ attendee "ann"; anonymous_record ]) ]
                 extracted_at).
Proof.
  intros c s m.
  pose (items := [ VDict [ ("id", VStr "r1") ]; VDict [ ("id", VStr "r2") ] ]).
  pose (st := @printed anonymous_platform
                [ "✓ Attendance report retrieved successfully";
                  "Found " +:+ pretty (length items)
                  +:+ " attendance report(s)" ] s).
  apply (@unprintable_record_raises_after_saving anonymous_platform
           sample_meeting_info c c m [ ("value", VList items) ] items
           [ [ attendee "ann"; anonymous_record ]; [] ] s
           (@fetch_each anonymous_platform c m items st).2
           "12345678901234" VNone
           (tt : @datetime anonymous_platform)
           (@world anonymous_platform
              (@fetch_each anonymous_platform c m items st).2)).
  - reflexivity.
  - discriminate.
  - apply pair_from_fst. vm_compute. reflexivity.
  - reflexivity.
  - vm_compute. reflexivity.
  - vm_compute. reflexivity.
  - vm_compute. reflexivity.
  - vm_compute. reflexivity.
Defined.

(** X25, witness: the token endpoint grants an empty token. *)
Lemma empty_token_ends_the_run_with_an_exception_witness :
  exists s',
    @process_email_html empty_token_platform invitation_html true
      (@initial_state empty_token_platform 0)
    = (Raise NotAuthenticatedError, s')
    /\ sent s' = [] /\ files s' = []
    /\ last (stdout s') = Some "✓ Authentication successful (password grant)".
Proof.
  assert (He : @extract_meeting_info empty_token_platform invitation_html
               = Ok invitation_info) by reflexivity.
  apply (@empty_token_ends_the_run_with_an_exception empty_token_platform
           invitation_html (@initial_state empty_token_platform 0)
           invitation_info "19:meeting_ABC123"
           [ ("access_token", VStr "") ]
           (1 : @World empty_token_platform) (VStr "") He);
    reflexivity.
Defined.

End EdgesOnTestDoubles.
